(** * RefineCoder: the requirement-aware code generation agents

    A shallow embedding of [src/agent/requirement_codegen]: the analyzer,
    corrector and writer agents' response parsers, the function-signature
    model they share, and the orchestrator's round loop.

    Conventions.
    - Python [str] is [string]; a character is a code point below 256 and
      the character classes are Python's on that range.
    - A Python exception is the [Raise] branch of [result].
    - [json.loads], [json.dumps] and the language-model backend behind
      [BaseAgent.generate_response] are outside the package: they are
      variables of the section that holds the agents. *)

From Stdlib Require Import String Ascii List ZArith Bool Arith Lia DecimalString Sorted.
Import ListNotations.
Open Scope string_scope.
Set Warnings "-register-all".

(** ** Python string primitives *)

Module PyStr.

(** [str.isspace] on one character; also the class [\s] of [re]. *)
Definition is_space (c : ascii) : bool :=
  let n := nat_of_ascii c in
  ((9 <=? n)%nat && (n <=? 13)%nat) || ((28 <=? n)%nat && (n <=? 32)%nat)
  || (n =? 133)%nat || (n =? 160)%nat.

Definition is_digit (c : ascii) : bool :=
  let n := nat_of_ascii c in (48 <=? n)%nat && (n <=? 57)%nat.

Definition is_upper (c : ascii) : bool :=
  let n := nat_of_ascii c in
  ((65 <=? n)%nat && (n <=? 90)%nat)
  || ((192 <=? n)%nat && (n <=? 222)%nat && negb (n =? 215)%nat).

Definition is_alpha (c : ascii) : bool :=
  let n := nat_of_ascii c in
  ((65 <=? n)%nat && (n <=? 90)%nat) || ((97 <=? n)%nat && (n <=? 122)%nat)
  || (n =? 170)%nat || (n =? 181)%nat || (n =? 186)%nat
  || ((192 <=? n)%nat && (n <=? 214)%nat) || ((216 <=? n)%nat && (n <=? 246)%nat)
  || (248 <=? n)%nat.

(** Characters that are numeric without being letters or ASCII digits:
    the superscripts and the vulgar fractions. *)
Definition is_other_numeric (c : ascii) : bool :=
  let n := nat_of_ascii c in
  (n =? 178)%nat || (n =? 179)%nat || (n =? 185)%nat || ((188 <=? n)%nat && (n <=? 190)%nat).

(** The class [\w] of [re] on a [str] pattern. *)
Definition is_word (c : ascii) : bool :=
  is_alpha c || is_digit c || is_other_numeric c || (nat_of_ascii c =? 95)%nat.

Definition lower_char (c : ascii) : ascii :=
  if is_upper c then ascii_of_nat (nat_of_ascii c + 32) else c.

(** [s.lower()]. On code points below 256 [str.lower] maps character
    by character and keeps every index; above them it need not (U+0130
    becomes two code points), and those are outside [string]. *)
Fixpoint lower (s : string) : string :=
  match s with
  | EmptyString => EmptyString
  | String c s' => String (lower_char c) (lower s')
  end.

Fixpoint lstrip (s : string) : string :=
  match s with
  | EmptyString => EmptyString
  | String c s' => if is_space c then lstrip s' else s
  end.

Fixpoint rstrip (s : string) : string :=
  match s with
  | EmptyString => EmptyString
  | String c s' =>
      match rstrip s' with
      | EmptyString => if is_space c then EmptyString else String c EmptyString
      | r => String c r
      end
  end.

(** [s.strip()] *)
Definition strip (s : string) : string := rstrip (lstrip s).

(** [s.startswith(p)] *)
Fixpoint startswith (p s : string) : bool :=
  match p, s with
  | EmptyString, _ => true
  | String _ _, EmptyString => false
  | String a p', String b s' => Ascii.eqb a b && startswith p' s'
  end.

(** [s.find(sub)], with [None] for Python's [-1]. *)
Fixpoint find (sub s : string) {struct s} : option nat :=
  if startswith sub s then Some 0
  else match s with
       | EmptyString => None
       | String _ s' => option_map S (find sub s')
       end.

(** [sub in s] *)
Definition contains (sub s : string) : bool :=
  match find sub s with Some _ => true | None => false end.

(** [s[a:b]] for indices that are not negative. *)
Definition slice (a b : nat) (s : string) : string := substring a (b - a) s.

(** [s[a:]] *)
Fixpoint drop (n : nat) (s : string) : string :=
  match n, s with
  | O, _ => s
  | S n', String _ s' => drop n' s'
  | S _, EmptyString => EmptyString
  end.

(** [s.replace(' ', '')] *)
Fixpoint remove_spaces (s : string) : string :=
  match s with
  | EmptyString => EmptyString
  | String c s' =>
      if Ascii.eqb c " " then remove_spaces s' else String c (remove_spaces s')
  end.

(** [s.split(sep)] for a one-character separator. *)
Fixpoint split_char (sep : ascii) (s : string) : list string :=
  match s with
  | EmptyString => [EmptyString]
  | String c s' =>
      if Ascii.eqb c sep then EmptyString :: split_char sep s'
      else match split_char sep s' with
           | [] => [String c EmptyString]
           | h :: t => String c h :: t
           end
  end.

(** [sep.join(parts)] *)
Fixpoint join (sep : string) (parts : list string) : string :=
  match parts with
  | [] => EmptyString
  | [p] => p
  | p :: rest => p ++ sep ++ join sep rest
  end.

(** Truth value of a [str]. *)
Definition nonempty (s : string) : bool :=
  match s with EmptyString => false | _ => true end.

Definition nl : string := String "010" EmptyString.

End PyStr.
Import PyStr.

(** ** Exceptions *)

Inductive exn : Type :=
| AttributeError
| TypeError
| AssertionError
| ReError
| BackendError (msg : string).

Inductive result (A : Type) : Type :=
| Ok (a : A)
| Raise (e : exn).
Arguments Ok {A} a.
Arguments Raise {A} e.

Definition bind {A B} (r : result A) (k : A -> result B) : result B :=
  match r with
  | Ok a => k a
  | Raise e => Raise e
  end.

Notation "x <- r ;; k" := (bind r (fun x => k))
  (at level 61, r at next level, right associativity).

(** ** Values produced by [json.loads] *)

Inductive pyfloat : Type :=
| FNaN
| FInf (negative : bool)
| FFinite (mantissa exponent : Z).

Inductive json : Type :=
| JNull
| JBool (b : bool)
| JInt (z : Z)
| JFloat (f : pyfloat)
| JStr (s : string)
| JList (items : list json)
| JDict (fields : list (string * json)).

(** Truth value of a Python object, as [if x:], [not x] and [x or y] use it. *)
Definition truthy (v : json) : bool :=
  match v with
  | JNull => false
  | JBool b => b
  | JInt z => negb (Z.eqb z 0)
  | JFloat (FFinite m _) => negb (Z.eqb m 0)
  | JFloat _ => true
  | JStr s => nonempty s
  | JList l => match l with [] => false | _ => true end
  | JDict d => match d with [] => false | _ => true end
  end.

(** [a or b] *)
Definition py_or (a b : json) : json := if truthy a then a else b.

Fixpoint assoc (k : string) (d : list (string * json)) : option json :=
  match d with
  | [] => None
  | (k', v) :: d' => if String.eqb k k' then Some v else assoc k d'
  end.

(** [obj.get(key, default)]: only a dict has the method. *)
Definition get (obj : json) (key : string) (default : json) : result json :=
  match obj with
  | JDict d => Ok (match assoc key d with Some v => v | None => default end)
  | _ => Raise AttributeError
  end.

(** [obj.strip()]: only a [str] has the method. *)
Definition py_strip (v : json) : result string :=
  match v with
  | JStr s => Ok (strip s)
  | _ => Raise AttributeError
  end.

(** [obj.lower()] *)
Definition py_lower (v : json) : result string :=
  match v with
  | JStr s => Ok (lower s)
  | _ => Raise AttributeError
  end.

Fixpoint chars (s : string) : list json :=
  match s with
  | EmptyString => []
  | String c s' => JStr (String c EmptyString) :: chars s'
  end.

(** The items a [for] loop draws from an object. *)
Definition py_iter (v : json) : result (list json) :=
  match v with
  | JList l => Ok l
  | JDict d => Ok (map (fun kv => JStr (fst kv)) d)
  | JStr s => Ok (chars s)
  | _ => Raise TypeError
  end.

(** ** types.py *)

Module RequirementIssue.
Record t : Type := mk {
  issue_type : string;
  description : string;
  evidence : json;
  severity : string;
  clarifying_questions : list json
}.

Definition as_dict (i : t) : json :=
  JDict [ ("issue_type", JStr (issue_type i));
          ("description", JStr (description i));
          ("evidence", evidence i);
          ("severity", JStr (severity i));
          ("clarifying_questions", JList (clarifying_questions i)) ].
End RequirementIssue.

Module AnalyzerOutput.
Record t : Type := mk {
  normalized_requirement : string;
  issues : list RequirementIssue.t;
  reasoning : string;
  decision : string;
  raw_json : string;
  original_function_signature : string
}.
End AnalyzerOutput.

Module CorrectionOutput.
Record t : Type := mk {
  improved_requirement : string;
  applied_fixes : list string;
  open_questions : list string;
  raw_json : string;
  original_function_signature : string
}.
End CorrectionOutput.

(** One entry of the orchestrator's [history] list. The three keys the
    corrector adds later are absent ([None]) until it has run. *)
Module Round.
Record t : Type := mk {
  iteration : Z;
  decision : string;
  issues : list json;
  normalized_requirement : string;
  analyzer_raw_json : string;
  original_function_signature : string;
  correction : option (list string * list string);
  corrector_raw_json : option string;
  corrector_original_function_signature : option string
}.
End Round.

Module CodeGenerationOutput.
Record t : Type := mk {
  finalized_requirement : string;
  code : string;
  tests : string;
  assumptions : list string;
  trace : list Round.t;
  correction_iterations : Z
}.
End CodeGenerationOutput.

(** [<tag> ... </tag>] extraction shared by the analyzer and the corrector
    ([_extract_json_block]); [tag] is [OUTPUT_TAG.lower()]. *)
Definition extract_tagged (tag response : string) : string :=
  let lower := lower response in
  let start_tag := "<" ++ tag ++ ">" in
  let end_tag := "</" ++ tag ++ ">" in
  match find start_tag lower, find end_tag lower with
  | Some i, Some end_idx =>
      let start_idx := i + String.length start_tag in
      strip (slice start_idx end_idx response)
  | _, _ => strip response
  end.

(** ** analyzer.py *)

Module Analyzer.

Definition _extract_json_block (response : string) : string :=
  extract_tagged "analysis" response.

Definition allowed_issue_types : list string :=
  [ "ambiguity"; "inconsistency"; "incompleteness"; "conflict";
    "missing_context"; "underspecified"; "boundary" ].

Definition mem (s : string) (l : list string) : bool :=
  existsb (String.eqb s) l.

Definition _sanitize_issue_type (raw_type : json) : result string :=
  stripped <- py_strip (py_or raw_type (JStr "")) ;;
  let normalized := lower stripped in
  Ok (if mem normalized allowed_issue_types then normalized else "ambiguity").

Definition _sanitize_severity (raw_severity : json) : result string :=
  stripped <- py_strip (py_or raw_severity (JStr "")) ;;
  let normalized := lower stripped in
  let allowed := [ "low"; "medium"; "high"; "critical" ] in
  if String.eqb normalized "critical" then Ok "high"
  else Ok (if mem normalized allowed then normalized else "medium").

(** The body of the loop over [data.get("issues", [])]: [None] is the
    [continue] of an item without a description. *)
Definition parse_issue (item : json) : result (option RequirementIssue.t) :=
  d <- get item "description" JNull ;;
  if negb (truthy d) then Ok None
  else
    a <- get item "issue_type" JNull ;;
    b <- get item "type" JNull ;;
    let issue_type := py_or a b in
    e1 <- get item "evidence" JNull ;;
    e2 <- get item "location" JNull ;;
    let evidence := py_or e1 e2 in
    cq <- get item "clarifying_questions" (JList []) ;;
    suggestion <- get item "suggestion" JNull ;;
    let clarifying_questions :=
      if negb (truthy cq) && truthy suggestion then JList [suggestion] else cq in
    ty <- _sanitize_issue_type issue_type ;;
    d' <- get item "description" (JStr "") ;;
    desc <- py_strip d' ;;
    sv <- get item "severity" JNull ;;
    sev <- _sanitize_severity sv ;;
    Ok (Some (RequirementIssue.mk ty desc evidence sev
                (match clarifying_questions with JList l => l | _ => [] end))).

Fixpoint parse_issues (items : list json) : result (list RequirementIssue.t) :=
  match items with
  | [] => Ok []
  | item :: rest =>
      o <- parse_issue item ;;
      r <- parse_issues rest ;;
      Ok (match o with Some i => i :: r | None => r end)
  end.

Section Agent.

(** [json.loads] on a [str]: [None] is a [JSONDecodeError]. *)
Variable json_loads : string -> option json.
(** [json.dumps(obj, ensure_ascii=False, indent=2)] *)
Variable json_dumps : json -> string.

Definition _parse_response (response fallback_requirement : string)
  : result AnalyzerOutput.t :=
  let json_blob := _extract_json_block response in
  match json_loads json_blob with
  | None =>
      Ok (AnalyzerOutput.mk fallback_requirement []
            "Failed to parse analyzer response; defaulting to original requirement."
            "ready"
            (if nonempty json_blob then json_blob else response)
            "")
  | Some data =>
      raw_issues <- get data "issues" (JList []) ;;
      items <- py_iter raw_issues ;;
      issues <- parse_issues items ;;
      d <- get data "decision" (JStr "ready") ;;
      raw_decision <- py_lower d ;;
      let raw_decision :=
        if String.eqb raw_decision "needs_correction"
        then "needs_clarification" else raw_decision in
      let decision :=
        match issues with
        | _ :: _ => "needs_clarification"
        | [] => "ready"
        end in
      reasoning_data <- get data "reasoning" (JStr "") ;;
      let reasoning_str :=
        match reasoning_data with
        | JDict _ => json_dumps reasoning_data
        | JStr r => r
        | _ => ""
        end in
      nr <- get data "normalized_requirement" (JStr fallback_requirement) ;;
      normalized <- py_strip nr ;;
      sg <- get data "original_function_signature" (JStr "") ;;
      signature <- py_strip sg ;;
      Ok (AnalyzerOutput.mk normalized issues
            (if nonempty reasoning_str then strip reasoning_str else "")
            decision json_blob signature)
  end.

(** The backend behind [generate_response]. The prompt [process] sends
    is computed from the requirement and the history alone, so the
    backend is given those two; [B] is whatever state it keeps. *)
Variable B : Type.
Variable generate_response :
  string -> list Round.t -> B -> result string * B.

Definition process (requirement : string) (history : list Round.t) (b : B)
  : result AnalyzerOutput.t * B :=
  let (r, b') := generate_response requirement history b in
  (response <- r ;; _parse_response response requirement, b').

End Agent.

End Analyzer.

(** ** The fragment of [re] the agents use

    Each pattern of the source is written as a matcher anchored at the
    head of a string; [search] tries the positions from the left, as
    [re.search] does. *)

Module Re.

(** Longest prefix of [s] whose characters satisfy [p], and the rest. *)
Fixpoint span (p : ascii -> bool) (s : string) : string * string :=
  match s with
  | EmptyString => (EmptyString, EmptyString)
  | String c s' =>
      if p c then let (a, b) := span p s' in (String c a, b)
      else (EmptyString, s)
  end.

Fixpoint search {A : Type} (m : string -> option A) (s : string) {struct s}
  : option A :=
  match m s with
  | Some r => Some r
  | None =>
      match s with
      | EmptyString => None
      | String _ s' => search m s'
      end
  end.

(** [re.sub(pattern, repl, s, count=1)] once the template is expanded:
    [m] yields the replacement text and the text after the match. *)
Fixpoint sub_first (m : string -> option (string * string)) (s : string)
  {struct s} : string :=
  match m s with
  | Some (replacement, rest) => replacement ++ rest
  | None =>
      match s with
      | EmptyString => EmptyString
      | String c s' => String c (sub_first m s')
      end
  end.

End Re.
Import Re.

(** ** The function-signature model

    [_extract_function_signature] and [_split_params] are written twice
    in the source, in corrector.py and in code_writer.py, with the same
    text; both agents use the one definition here. *)

Module Signature.

Definition not_rparen (c : ascii) : bool := negb (Ascii.eqb c ")").

(** A match of the header pattern anchored at the head of [s]: the word
    def, white space, a name (group 1), optional white space, and a
    parenthesised run free of closing parentheses (group 2). The result is
    the two groups and the text after the match. Every quantifier is
    followed by a character outside its class, so the greedy choice is
    the only one that can succeed. *)
Definition match_def (s : string) : option (string * string * string) :=
  if startswith "def" s then
    let (ws, s2) := span is_space (drop 3 s) in
    if nonempty ws then
      let (name, s3) := span is_word s2 in
      if nonempty name then
        match snd (span is_space s3) with
        | String "(" s5 =>
            let (params, s6) := span not_rparen s5 in
            match s6 with
            | String ")" s7 => Some (name, params, s7)
            | _ => None
            end
        | _ => None
        end
      else None
    else None
  else None.

Definition search_def : string -> option (string * string * string) :=
  search match_def.

Definition is_open (c : ascii) : bool :=
  Ascii.eqb c "(" || Ascii.eqb c "[" || Ascii.eqb c "{".
Definition is_close (c : ascii) : bool :=
  Ascii.eqb c ")" || Ascii.eqb c "]" || Ascii.eqb c "}".

Definition snoc (s : string) (c : ascii) : string := s ++ String c EmptyString.

Fixpoint split_loop (s : string) (params : list string) (current : string)
  (bracket_depth : Z) : list string * string :=
  match s with
  | EmptyString => (params, current)
  | String char s' =>
      if is_open char then
        split_loop s' params (snoc current char) (bracket_depth + 1)
      else if is_close char then
        split_loop s' params (snoc current char) (bracket_depth - 1)
      else if Ascii.eqb char "," && Z.eqb bracket_depth 0 then
        split_loop s' (params ++ [strip current]) EmptyString bracket_depth
      else
        split_loop s' params (snoc current char) bracket_depth
  end.

Definition _split_params (params_str : string) : list string :=
  let (params, current) := split_loop params_str [] EmptyString 0 in
  if nonempty (strip current) then params ++ [strip current] else params.

(** [s.split(c)[0]] *)
Definition before (c : ascii) (s : string) : string :=
  fst (span (fun x => negb (Ascii.eqb x c)) s).

(** [s[s.index(c) + 1:]], for a string that holds [c]. *)
Definition after (c : ascii) (s : string) : string :=
  match snd (span (fun x => negb (Ascii.eqb x c)) s) with
  | String _ r => r
  | EmptyString => EmptyString
  end.

Definition has_char (c : ascii) (s : string) : bool :=
  nonempty (snd (span (fun x => negb (Ascii.eqb x c)) s)).

Definition param : Type := string * option string.

(** The body of the loop over [param_parts]; [None] is its [continue]. *)
Definition parse_param (p : string) : option param :=
  let p := strip p in
  if negb (nonempty p) then None
  else if has_char ":" p then
    let param_name := strip (before ":" p) in
    let param_type := strip (after ":" p) in
    let param_type :=
      if has_char "=" param_type then strip (before "=" param_type)
      else param_type in
    Some (param_name, Some param_type)
  else Some (strip (before "=" p), None).

Fixpoint parse_params (parts : list string) : list param :=
  match parts with
  | [] => []
  | p :: rest =>
      match parse_param p with
      | Some x => x :: parse_params rest
      | None => parse_params rest
      end
  end.

(** [None] is the source's [(None, [])]: no function header in [text]. *)
Definition _extract_function_signature (text : string)
  : option (string * list param) :=
  match search_def text with
  | None => None
  | Some (func_name, g2, _) =>
      let params_str := strip g2 in
      if negb (nonempty params_str) then Some (func_name, [])
      else Some (func_name, parse_params (_split_params params_str))
  end.

(** Truth value of an [Optional[str]] parameter type. *)
Definition declared (t : option string) : bool :=
  match t with Some s => nonempty s | None => false end.

Definition show (t : option string) : string :=
  match t with Some s => s | None => "None" end.

Definition str_of_nat (n : nat) : string :=
  NilZero.string_of_uint (Nat.to_uint n).

End Signature.
Import Signature.

(** Position-wise type check shared by the two validators: two declared
    types that differ once their spaces are removed. *)
Definition type_clash (a b : option string) : bool :=
  match a, b with
  | Some x, Some y =>
      nonempty x && nonempty y
      && negb (String.eqb (remove_spaces x) (remove_spaces y))
  | _, _ => false
  end.

(** ** corrector.py *)

Module Corrector.

Definition _extract_json_block (response : string) : string :=
  extract_tagged "correction" response.

Definition _extract_function_signature := Signature._extract_function_signature.

(** The loop over [enumerate(zip(orig_params, impr_params))], entered
    with [i] the index of the head of the lists. *)
Fixpoint check_types (i : nat) (orig_params impr_params : list param)
  : bool * string :=
  match orig_params, impr_params with
  | (_, orig_ptype) :: orig', (_, impr_ptype) :: impr' =>
      if type_clash orig_ptype impr_ptype then
        (false, "Parameter " ++ str_of_nat (i + 1) ++ " type changed from '"
                ++ show orig_ptype ++ "' to '" ++ show impr_ptype ++ "'")
      else check_types (S i) orig' impr'
  | _, _ => (true, "")
  end.

Definition _validate_signature_preserved (original improved : string)
  : bool * string :=
  match _extract_function_signature original,
        _extract_function_signature improved with
  | None, _ => (true, "")
  | Some _, None => (true, "")
  | Some (orig_name, orig_params), Some (impr_name, impr_params) =>
      if negb (String.eqb orig_name impr_name)
         && negb (String.eqb orig_name "candidate")
         && negb (String.eqb impr_name "candidate")
      then (false, "Function name changed from '" ++ orig_name ++ "' to '"
                   ++ impr_name ++ "'")
      else if negb (length orig_params =? length impr_params)%nat
      then (false, "Parameter count changed from "
                   ++ str_of_nat (length orig_params) ++ " to "
                   ++ str_of_nat (length impr_params))
      else check_types 0 orig_params impr_params
  end.

(** [[x.strip() for x in items if x]] *)
Fixpoint strip_all (items : list json) : result (list string) :=
  match items with
  | [] => Ok []
  | x :: rest =>
      if truthy x then
        h <- py_strip x ;;
        t <- strip_all rest ;;
        Ok (h :: t)
      else strip_all rest
  end.

Section Agent.

Variable json_loads : string -> option json.

Definition _parse_response (response fallback_requirement : string)
  : result CorrectionOutput.t :=
  let json_blob := _extract_json_block response in
  match json_loads json_blob with
  | None =>
      Ok (CorrectionOutput.mk fallback_requirement
            ["Failed to parse correction output; returning original requirement."]
            []
            (if nonempty json_blob then json_blob else response)
            "")
  | Some data =>
      ir <- get data "improved_requirement" (JStr fallback_requirement) ;;
      improved_requirement <- py_strip ir ;;
      let (is_valid, error_msg) :=
        _validate_signature_preserved fallback_requirement improved_requirement in
      if negb is_valid then
        Ok (CorrectionOutput.mk fallback_requirement
              ["Signature validation failed: " ++ error_msg
               ++ ". Reverted to original."]
              [] "" "")
      else
        af <- get data "applied_fixes" (JList []) ;;
        fixes <- py_iter af ;;
        applied_fixes <- strip_all fixes ;;
        oq <- get data "open_questions" (JList []) ;;
        questions <- py_iter oq ;;
        open_questions <- strip_all questions ;;
        sg <- get data "original_function_signature" (JStr "") ;;
        signature <- py_strip sg ;;
        Ok (CorrectionOutput.mk improved_requirement applied_fixes
              open_questions json_blob signature)
  end.

(** The backend is given what the prompt is computed from: the
    requirement, the issues and the known signature. *)
Variable B : Type.
Variable generate_response :
  string -> list RequirementIssue.t -> string -> B -> result string * B.

Definition process (requirement : string) (issues : list RequirementIssue.t)
  (original_function_signature : string) (b : B)
  : result CorrectionOutput.t * B :=
  let (r, b') :=
    generate_response requirement issues original_function_signature b in
  (response <- r ;; _parse_response response requirement, b').

End Agent.

End Corrector.

(** ** code_writer.py *)

Module Writer.

Definition fence : string := "```".

Definition is_newline (c : ascii) : bool := Ascii.eqb c "010".

(** The part [\s*\n(.*?)```] of the two fence patterns, on the text [s]
    that follows the fence's label. The greedy white space gives back
    characters until a newline follows it, so the newline matched is the
    last one of the leading white space; group 1 runs from there to the
    first closing fence. *)
Fixpoint after_last_newline (ws : string) : option string :=
  match ws with
  | EmptyString => None
  | String c ws' =>
      match after_last_newline ws' with
      | Some r => Some r
      | None => if is_newline c then Some ws' else None
      end
  end.

Definition fence_body (s : string) : option string :=
  let (ws, rest) := span is_space s in
  match after_last_newline ws with
  | None => None
  | Some tail =>
      let body := tail ++ rest in
      match find fence body with
      | Some n => Some (slice 0 n body)
      | None => None
      end
  end.

Definition match_markdown_python (s : string) : option string :=
  if startswith fence s then
    match drop 3 s with
    | String c s' =>
        if (Ascii.eqb c "p" || Ascii.eqb c "P") && startswith "ython" s'
        then fence_body (drop 5 s')
        else None
    | EmptyString => None
    end
  else None.

Definition _try_extract_markdown_python (response : string) : string :=
  match search match_markdown_python response with
  | Some g => strip g
  | None => ""
  end.

Definition match_markdown_any (s : string) : option string :=
  if startswith fence s then fence_body (snd (span is_word (drop 3 s)))
  else None.

Definition _try_extract_markdown_any (response : string) : string :=
  match search match_markdown_any response with
  | Some g =>
      let code := strip g in
      if contains "def " code || contains "import " code
         || contains "class " code
      then code else ""
  | None => ""
  end.

(** The pattern of the simple tags, anchored: an opening tag in any
    letter case, white space, then the shortest text that is followed by
    white space and a closing tag. The closing tag found is the first
    one, and group 1 stops before the white space in front of it. *)
Definition match_simple_tags (s : string) : option string :=
  if startswith "<code>" (lower (substring 0 6 s)) then
    let rest := snd (span is_space (drop 6 s)) in
    match find "</code>" (lower rest) with
    | Some n => Some (rstrip (slice 0 n rest))
    | None => None
    end
  else None.

Definition _try_extract_simple_tags (response : string) : string :=
  match search match_simple_tags response with
  | Some g => strip g
  | None => ""
  end.

(** [re.sub] of a comma followed by white space and a closing brace or
    bracket by that white space and bracket: the comma goes. *)
Fixpoint drop_trailing_commas (s : string) : string :=
  match s with
  | EmptyString => EmptyString
  | String c s' =>
      if Ascii.eqb c "," then
        match snd (span is_space s') with
        | String d _ =>
            if Ascii.eqb d "}" || Ascii.eqb d "]"
            then drop_trailing_commas s'
            else String c (drop_trailing_commas s')
        | EmptyString => String c (drop_trailing_commas s')
        end
      else String c (drop_trailing_commas s')
  end.

(** [lines[:-1]] *)
Definition drop_last (lines : list string) : list string := removelast lines.

Definition strip_fence_lines (json_blob : string) : string :=
  if startswith fence json_blob then
    let lines := split_char "010" json_blob in
    let lines :=
      match lines with
      | first :: others =>
          if startswith fence (strip first) then others else lines
      | [] => lines
      end in
    let lines :=
      match lines with
      | [] => lines
      | _ => if String.eqb (strip (last lines "")) fence
             then drop_last lines else lines
      end in
    strip (join nl lines)
  else json_blob.

Definition starts_any (prefixes : list string) (s : string) : bool :=
  existsb (fun p => startswith p s) prefixes.

(** [lines[start_idx:]] for the first line that opens an import or a
    definition; [None] when [start_idx] stays [-1]. *)
Fixpoint from_first_code_line (lines : list string) : option (list string) :=
  match lines with
  | [] => None
  | line :: rest =>
      if starts_any ["from "; "import "; "def "] (strip line) then Some lines
      else from_first_code_line rest
  end.

Fixpoint until_fence_or_tag (lines : list string) : list string :=
  match lines with
  | [] => []
  | line :: rest =>
      if String.eqb (strip line) fence || startswith "</" (strip line)
      then []
      else line :: until_fence_or_tag rest
  end.

Definition _try_extract_function_definition (response : string) : string :=
  match from_first_code_line (split_char "010" response) with
  | Some lines =>
      let code := strip (join nl (until_fence_or_tag lines)) in
      if contains "def " code then code else ""
  | None => ""
  end.

Fixpoint collect_any_code (in_code : bool) (lines : list string) : list string :=
  match lines with
  | [] => []
  | line :: rest =>
      let stripped := strip line in
      let in_code :=
        in_code
        || starts_any ["def "; "class "; "import "; "from "; "@"] stripped in
      if in_code then
        if (startswith "#" stripped && negb (startswith "# " stripped))
           || startswith fence stripped || startswith "</" stripped
        then []
        else line :: collect_any_code in_code rest
      else collect_any_code in_code rest
  end.

Definition _try_extract_any_code (response : string) : string :=
  let code := strip (join nl (collect_any_code false (split_char "010" response))) in
  if contains "def " code then code else "".

Definition _extract_function_signature := Signature._extract_function_signature.

Fixpoint check_types (i : nat) (req_params code_params : list param)
  : bool * string :=
  match req_params, code_params with
  | (_, req_ptype) :: req', (_, code_ptype) :: code' =>
      if type_clash req_ptype code_ptype then
        (false, "Parameter " ++ str_of_nat (i + 1)
                ++ " type mismatch: requirement has '" ++ show req_ptype
                ++ "', code has '" ++ show code_ptype ++ "'")
      else check_types (S i) req' code'
  | _, _ => (true, "")
  end.

Definition _validate_signature_preserved (requirement code : string)
  : bool * string :=
  match _extract_function_signature requirement,
        _extract_function_signature code with
  | Some (req_name, req_params), Some (code_name, code_params) =>
      if negb (length req_params =? length code_params)%nat
      then (false, "Parameter count mismatch: requirement has "
                   ++ str_of_nat (length req_params) ++ ", code has "
                   ++ str_of_nat (length code_params))
      else check_types 0 req_params code_params
  | _, _ => (true, "")
  end.

Definition not_colon (c : ascii) : bool := negb (Ascii.eqb c ":").

Fixpoint last_char (s : string) : string :=
  match s with
  | EmptyString => EmptyString
  | String c EmptyString => s
  | String _ s' => last_char s'
  end.

(** The requirement's return type: a closing parenthesis, white space, an
    arrow, white space, a run without colon (group 1, not empty), a
    colon. The white space after the arrow is greedy and leaves the run
    one character when the run would otherwise be empty. *)
Definition match_return_type (s : string) : option string :=
  match s with
  | String ")" s1 =>
      let s2 := snd (span is_space s1) in
      if startswith "->" s2 then
        let (run, rest) := span not_colon (drop 2 s2) in
        match run, rest with
        | String _ _, String ":" _ =>
            let (ws, body) := span is_space run in
            Some (if nonempty body then body else last_char ws)
        | _, _ => None
        end
      else None
  | _ => None
  end.

(** The header pattern built around [re.escape(code_name)], anchored:
    the word def, white space, the name, optional white space, a
    parenthesised run, an optional arrow clause (group 1), a colon. The
    result is group 1 and the text after the match. *)
Definition match_code_def (code_name s : string)
  : option (option string * string) :=
  if startswith "def" s then
    let (ws, s2) := span is_space (drop 3 s) in
    if nonempty ws && startswith code_name s2 then
      match snd (span is_space (drop (String.length code_name) s2)) with
      | String "(" s5 =>
          match snd (span not_rparen s5) with
          | String ")" s7 =>
              match s7 with
              | String ":" rest => Some (None, rest)
              | _ =>
                  let (ws', s8) := span is_space s7 in
                  if startswith "->" s8 then
                    let (run, r) := span not_colon (drop 2 s8) in
                    match run, r with
                    | String _ _, String ":" rest =>
                        Some (Some (ws' ++ "->" ++ run), rest)
                    | _, _ => None
                    end
                  else None
              end
          | _ => None
          end
      | _ => None
      end
    else None
  else None.

(** The call pattern, anchored after its word boundary: the name,
    optional white space, an opening parenthesis. The result is the
    length of the match. *)
Definition match_call (code_name s : string) : option nat :=
  if startswith code_name s then
    let (ws, s2) := span is_space (drop (String.length code_name) s) in
    match s2 with
    | String "(" _ => Some (String.length code_name + String.length ws + 1)
    | _ => None
    end
  else None.

(** [re.sub] of every match of the call pattern by [repl]. [skip] counts
    the characters of the current match still to pass and [prev_word]
    tells whether the character before is a word character, for the
    word boundary that opens the pattern. *)
Fixpoint sub_calls (code_name repl : string) (skip : nat) (prev_word : bool)
  (s : string) {struct s} : string :=
  match s with
  | EmptyString => EmptyString
  | String c s' =>
      match skip with
      | S k => sub_calls code_name repl k (is_word c) s'
      | O =>
          match (if prev_word then None else match_call code_name s) with
          | Some (S k) => repl ++ sub_calls code_name repl k (is_word c) s'
          | _ => String c (sub_calls code_name repl 0 (is_word c) s')
          end
      end
  end.

Fixpoint param_strs (req_params code_params : list param) : list string :=
  match req_params, code_params with
  | (_, req_ptype) :: req', (code_pname, code_ptype) :: code' =>
      let ptype := if declared req_ptype then req_ptype else code_ptype in
      (if declared ptype then code_pname ++ ": " ++ show ptype else code_pname)
      :: param_strs req' code'
  | _, _ => []
  end.

Definition backslash : string := "\".

Section Agent.

Variable json_loads : string -> option json.

(** [re]'s compilation of a replacement template for a pattern with one
    group: the result maps the text of group 1 ([None] when the group
    took no part in the match) to the replacement; a malformed template
    raises. Its one property used is that a template free of backslashes
    stands for itself. *)
Variable compile_template : string -> result (option string -> string).

Definition _try_extract_legacy_json (response : string) : string :=
  let json_blob := extract_tagged "code_deliverable" response in
  let json_blob := strip_fence_lines json_blob in
  let json_blob := drop_trailing_commas json_blob in
  match json_loads json_blob with
  | Some (JDict data) =>
      match assoc "code" data with
      | Some (JStr code) => strip code
      | _ => ""
      end
  | _ => ""
  end.

Definition _extract_code_multilayer (response : string) : string * string :=
  let code := _try_extract_markdown_python response in
  if nonempty code then (code, "markdown_python") else
  let code := _try_extract_markdown_any response in
  if nonempty code then (code, "markdown_any") else
  let code := _try_extract_simple_tags response in
  if nonempty code then (code, "simple_tags") else
  let code := _try_extract_legacy_json response in
  if nonempty code then (code, "legacy_json") else
  let code := _try_extract_function_definition response in
  if nonempty code then (code, "function_definition") else
  let code := _try_extract_any_code response in
  if nonempty code then (code, "any_code") else
  ("", "none").

(** [Ok None] is the source's [return None]. *)
Definition _fix_signature_in_code (requirement code : string)
  : result (option string) :=
  match _extract_function_signature requirement,
        _extract_function_signature code with
  | Some (req_name, req_params), Some (code_name, code_params) =>
      if negb (length req_params =? length code_params)%nat then Ok None
      else
        let new_params := join ", " (param_strs req_params code_params) in
        let return_type :=
          option_map strip (search match_return_type requirement) in
        let new_def :=
          match return_type with
          | Some (String _ _ as rt) =>
              "def " ++ req_name ++ "(" ++ new_params ++ ") -> " ++ rt ++ ":"
          | _ => "def " ++ req_name ++ "(" ++ new_params ++ "):"
          end in
        template <- compile_template new_def ;;
        let fixed_code :=
          sub_first
            (fun s =>
               match match_code_def code_name s with
               | Some (g, rest) => Some (template g, rest)
               | None => None
               end)
            code in
        (* the new name is a run of word characters: the template of the
           second substitution holds no escape *)
        let fixed_code :=
          if negb (String.eqb req_name code_name)
             && negb (String.eqb req_name "candidate")
          then sub_calls code_name (req_name ++ "(") 0 false fixed_code
          else fixed_code in
        Ok (Some fixed_code)
  | _, _ => Ok None
  end.

Definition _parse_response (response requirement : string)
  : result CodeGenerationOutput.t :=
  let (code, method) := _extract_code_multilayer response in
  code <-
    (if nonempty code then
       let (is_valid, error_msg) :=
         _validate_signature_preserved requirement code in
       if negb is_valid then
         fixed_code <- _fix_signature_in_code requirement code ;;
         match fixed_code with
         | Some (String _ _ as fixed) => Ok fixed
         | _ => Ok code
         end
       else Ok code
     else Ok code) ;;
  Ok (CodeGenerationOutput.mk requirement code ""
        (if nonempty code then [] else ["Failed to extract code from response"])
        [] 0).

(** The backend is given what the prompt is computed from: the
    requirement and the known signature. *)
Variable B : Type.
Variable generate_response : string -> string -> B -> result string * B.

Definition process (finalized_requirement : string)
  (analysis : AnalyzerOutput.t) (original_function_signature : string) (b : B)
  : result CodeGenerationOutput.t * B :=
  let (r, b') :=
    generate_response finalized_requirement original_function_signature b in
  (response <- r ;; _parse_response response finalized_requirement, b').

End Agent.

End Writer.

(** ** orchestrator.py *)

Module Orchestrator.

(** The local variables of [run] that live across the rounds. *)
Record locals : Type := mk_locals {
  history : list Round.t;
  current_requirement : string;
  analyzer_snapshot : option AnalyzerOutput.t;
  correction_count : Z;
  original_function_signature : string
}.

(** [history[-1][...] = ...]: the three keys the corrector's result sets
    on the last record. *)
Fixpoint set_last_correction (correction : CorrectionOutput.t)
  (history : list Round.t) : list Round.t :=
  match history with
  | [] => []
  | [r] =>
      [ Round.mk (Round.iteration r) (Round.decision r) (Round.issues r)
          (Round.normalized_requirement r) (Round.analyzer_raw_json r)
          (Round.original_function_signature r)
          (Some (CorrectionOutput.applied_fixes correction,
                 CorrectionOutput.open_questions correction))
          (Some (CorrectionOutput.raw_json correction))
          (Some (CorrectionOutput.original_function_signature correction)) ]
  | r :: rest => r :: set_last_correction correction rest
  end.

(** Truth value of [analyzer_snapshot.issues]. *)
Definition has_issues (snapshot : AnalyzerOutput.t) : bool :=
  match AnalyzerOutput.issues snapshot with [] => false | _ :: _ => true end.

(** [range(1, max_iterations + 1)] *)
Definition iterations (max_iterations : Z) : list Z :=
  map Z.of_nat (seq 1 (Z.to_nat max_iterations)).

Section Run.

(** The state the three agents' backends share, and the agents'
    [process] methods. The visualizer only observes and is left out;
    assertions are enabled. *)
Variable B : Type.
Variable analyzer :
  string -> list Round.t -> B -> result AnalyzerOutput.t * B.
Variable corrector :
  string -> list RequirementIssue.t -> string -> B
  -> result CorrectionOutput.t * B.
Variable writer :
  string -> AnalyzerOutput.t -> string -> B
  -> result CodeGenerationOutput.t * B.

Definition _correct_requirement := corrector.

(** The [for] loop over the remaining iterations. The result holds the
    locals at the [break] or at the end of the range. *)
Fixpoint rounds (todo : list Z) (st : locals) (b : B) : result locals * B :=
  match todo with
  | [] => (Ok st, b)
  | iteration :: later =>
      match analyzer (current_requirement st) (history st) b with
      | (Raise e, b1) => (Raise e, b1)
      | (Ok snapshot, b1) =>
          let signature :=
            if Z.eqb iteration 1
               && nonempty (AnalyzerOutput.original_function_signature snapshot)
            then AnalyzerOutput.original_function_signature snapshot
            else original_function_signature st in
          let history :=
            (history st ++
             [ Round.mk iteration (AnalyzerOutput.decision snapshot)
                 (map RequirementIssue.as_dict (AnalyzerOutput.issues snapshot))
                 (AnalyzerOutput.normalized_requirement snapshot)
                 (AnalyzerOutput.raw_json snapshot)
                 (AnalyzerOutput.original_function_signature snapshot)
                 None None None ])%list in
          let stop :=
            mk_locals history (current_requirement st) (Some snapshot)
              (correction_count st) signature in
          if String.eqb (AnalyzerOutput.decision snapshot) "ready"
             && negb (has_issues snapshot)
          then (Ok stop, b1)
          else if negb (has_issues snapshot) then (Ok stop, b1)
          else
            match _correct_requirement
                    (AnalyzerOutput.normalized_requirement snapshot)
                    (AnalyzerOutput.issues snapshot) signature b1 with
            | (Raise e, b2) => (Raise e, b2)
            | (Ok correction, b2) =>
                rounds later
                  (mk_locals (set_last_correction correction history)
                     (CorrectionOutput.improved_requirement correction)
                     (Some snapshot)
                     (correction_count st + 1) signature)
                  b2
            end
      end
  end.

Definition final_requirement (st : locals) (snapshot : AnalyzerOutput.t)
  : string :=
  if nonempty (current_requirement st) then current_requirement st
  else AnalyzerOutput.normalized_requirement snapshot.

Definition run (max_iterations : Z) (requirement : string) (b : B)
  : result CodeGenerationOutput.t * B :=
  match rounds (iterations max_iterations)
          (mk_locals [] requirement None 0 "") b with
  | (Raise e, b1) => (Raise e, b1)
  | (Ok st, b1) =>
      match analyzer_snapshot st with
      | None => (Raise AssertionError, b1)
      | Some snapshot =>
          match writer (final_requirement st snapshot) snapshot
                  (original_function_signature st) b1 with
          | (Raise e, b2) => (Raise e, b2)
          | (Ok output, b2) =>
              (Ok (CodeGenerationOutput.mk
                     (CodeGenerationOutput.finalized_requirement output)
                     (CodeGenerationOutput.code output)
                     (CodeGenerationOutput.tests output)
                     (CodeGenerationOutput.assumptions output)
                     (history st)
                     (correction_count st)),
               b2)
          end
      end
  end.

End Run.

End Orchestrator.

(** ** The assembled system: the orchestrator over the three agents *)

Module System.
Section Run.

Variable json_loads : string -> option json.
Variable json_dumps : json -> string.
Variable compile_template : string -> result (option string -> string).
Variable B : Type.
Variable analyzer_backend : string -> list Round.t -> B -> result string * B.
Variable corrector_backend :
  string -> list RequirementIssue.t -> string -> B -> result string * B.
Variable writer_backend : string -> string -> B -> result string * B.

Definition run : Z -> string -> B -> result CodeGenerationOutput.t * B :=
  Orchestrator.run B
    (Analyzer.process json_loads json_dumps B analyzer_backend)
    (Corrector.process json_loads B corrector_backend)
    (Writer.process json_loads compile_template B writer_backend).

End Run.
End System.

(** ** Observing a run

    What the orchestrator passes to an agent and gets back is observed
    by wrapping the agent: the wrapper appends an event to a log kept
    beside the backend state and otherwise leaves the call alone. *)

Module Observed.

Inductive event : Type :=
| Analyzed (requirement : string) (history : list Round.t)
    (out : result AnalyzerOutput.t)
| Corrected (requirement : string) (issues : list RequirementIssue.t)
    (signature : string) (out : result CorrectionOutput.t)
| Written (requirement : string) (signature : string)
    (out : result CodeGenerationOutput.t).

Definition is_analyzed (e : event) : bool :=
  match e with Analyzed _ _ _ => true | _ => false end.
Definition is_corrected (e : event) : bool :=
  match e with Corrected _ _ _ _ => true | _ => false end.
Definition is_written (e : event) : bool :=
  match e with Written _ _ _ => true | _ => false end.

Section Wrap.

Variable B : Type.
Variable analyzer :
  string -> list Round.t -> B -> result AnalyzerOutput.t * B.
Variable corrector :
  string -> list RequirementIssue.t -> string -> B
  -> result CorrectionOutput.t * B.
Variable writer :
  string -> AnalyzerOutput.t -> string -> B
  -> result CodeGenerationOutput.t * B.

Definition W : Type := (B * list event)%type.

Definition analyzer' (requirement : string) (history : list Round.t) (w : W)
  : result AnalyzerOutput.t * W :=
  let (r, b') := analyzer requirement history (fst w) in
  (r, (b', (snd w ++ [Analyzed requirement history r])%list)).

Definition corrector' (requirement : string)
  (issues : list RequirementIssue.t) (signature : string) (w : W)
  : result CorrectionOutput.t * W :=
  let (r, b') := corrector requirement issues signature (fst w) in
  (r, (b', (snd w ++ [Corrected requirement issues signature r])%list)).

Definition writer' (requirement : string) (analysis : AnalyzerOutput.t)
  (signature : string) (w : W) : result CodeGenerationOutput.t * W :=
  let (r, b') := writer requirement analysis signature (fst w) in
  (r, (b', (snd w ++ [Written requirement signature r])%list)).

(** The events of one [run], in order. *)
Definition events (max_iterations : Z) (requirement : string) (b : B)
  : list event :=
  snd (snd (Orchestrator.run W analyzer' corrector' writer'
              max_iterations requirement (b, []))).

(** The events of the round loop, computed beside it: the same
    recursion as [Orchestrator.rounds], keeping the calls instead of the
    locals. *)
Fixpoint rounds_events (todo : list Z) (st : Orchestrator.locals) (b : B)
  : list event :=
  match todo with
  | [] => []
  | iteration :: later =>
      let requirement := Orchestrator.current_requirement st in
      let history := Orchestrator.history st in
      match analyzer requirement history b with
      | (Raise e, _) => [Analyzed requirement history (Raise e)]
      | (Ok snapshot, b1) =>
          let signature :=
            if Z.eqb iteration 1
               && nonempty (AnalyzerOutput.original_function_signature snapshot)
            then AnalyzerOutput.original_function_signature snapshot
            else Orchestrator.original_function_signature st in
          let history' :=
            (history ++
             [ Round.mk iteration (AnalyzerOutput.decision snapshot)
                 (map RequirementIssue.as_dict (AnalyzerOutput.issues snapshot))
                 (AnalyzerOutput.normalized_requirement snapshot)
                 (AnalyzerOutput.raw_json snapshot)
                 (AnalyzerOutput.original_function_signature snapshot)
                 None None None ])%list in
          Analyzed requirement history (Ok snapshot) ::
          (if Orchestrator.has_issues snapshot then
             match corrector (AnalyzerOutput.normalized_requirement snapshot)
                     (AnalyzerOutput.issues snapshot) signature b1 with
             | (Raise e, _) =>
                 [Corrected (AnalyzerOutput.normalized_requirement snapshot)
                    (AnalyzerOutput.issues snapshot) signature (Raise e)]
             | (Ok correction, b2) =>
                 Corrected (AnalyzerOutput.normalized_requirement snapshot)
                   (AnalyzerOutput.issues snapshot) signature (Ok correction)
                 :: rounds_events later
                      (Orchestrator.mk_locals
                         (Orchestrator.set_last_correction correction history')
                         (CorrectionOutput.improved_requirement correction)
                         (Some snapshot)
                         (Orchestrator.correction_count st + 1) signature)
                      b2
             end
           else [])
      end
  end.

(** The event of the writer's call, when the loop hands over to it. *)
Definition writer_events (r : result Orchestrator.locals * B) : list event :=
  match r with
  | (Ok st, b1) =>
      match Orchestrator.analyzer_snapshot st with
      | Some snapshot =>
          [ Written (Orchestrator.final_requirement st snapshot)
              (Orchestrator.original_function_signature st)
              (fst (writer (Orchestrator.final_requirement st snapshot)
                      snapshot (Orchestrator.original_function_signature st)
                      b1)) ]
      | None => []
      end
  | (Raise _, _) => []
  end.

End Wrap.

(** The signature an event shows the orchestrator passing on. *)
Definition passed_signature (e : event) : option string :=
  match e with
  | Analyzed _ _ _ => None
  | Corrected _ _ signature _ => Some signature
  | Written _ signature _ => Some signature
  end.

(** The requirement the writer was given. *)
Definition written_requirement (e : event) : option string :=
  match e with
  | Written requirement _ _ => Some requirement
  | _ => None
  end.

(** The improved requirement of the last correction of a log. *)
Fixpoint last_improved (log : list event) : option string :=
  match log with
  | [] => None
  | e :: rest =>
      match last_improved rest with
      | Some r => Some r
      | None =>
          match e with
          | Corrected _ _ _ (Ok c) =>
              Some (CorrectionOutput.improved_requirement c)
          | _ => None
          end
      end
  end.

(** The output of the last analysis of a log. *)
Fixpoint last_analysis (log : list event) : option AnalyzerOutput.t :=
  match log with
  | [] => None
  | e :: rest =>
      match last_analysis rest with
      | Some a => Some a
      | None =>
          match e with
          | Analyzed _ _ (Ok a) => Some a
          | _ => None
          end
      end
  end.

(** The signature the first round's analysis reported. *)
Definition first_round_signature (log : list event) : string :=
  match log with
  | Analyzed _ _ (Ok a) :: _ => AnalyzerOutput.original_function_signature a
  | _ => ""
  end.

(** The first signature that is not empty among the analyses of a log. *)
Fixpoint first_nonempty_signature (log : list event) : option string :=
  match log with
  | [] => None
  | Analyzed _ _ (Ok a) :: rest =>
      if nonempty (AnalyzerOutput.original_function_signature a)
      then Some (AnalyzerOutput.original_function_signature a)
      else first_nonempty_signature rest
  | _ :: rest => first_nonempty_signature rest
  end.

End Observed.

(** ** Concrete data for the examples *)

Module Examples.

(** The double quote of a JSON text. *)
Definition q : string := String "034" EmptyString.

(** [json.loads] on the few texts an example uses. *)
Fixpoint loads_table (table : list (string * json)) (text : string)
  : option json :=
  match table with
  | [] => None
  | (t, v) :: rest => if String.eqb text t then Some v else loads_table rest text
  end.

(** [json.dumps] is only reached with a dict for [reasoning]; the examples
    have none. *)
Definition dumps_none (v : json) : string := "".

(** A template compiler that accepts the templates free of backslashes. *)
Definition literal_template (repl : string)
  : result (option string -> string) :=
  if contains Writer.backslash repl then Raise ReError else Ok (fun _ => repl).

(** A backend that answers from a script: its state is the list of the
    answers still to give. *)
Definition scripted {A : Type} (default : A) (script : list A) : A * list A :=
  match script with
  | [] => (default, [])
  | a :: rest => (a, rest)
  end.

Definition duplicate_issues_text : string :=
  "{" ++ q ++ "issues" ++ q ++ ": [{" ++ q ++ "description" ++ q ++ ": "
  ++ q ++ "unclear" ++ q ++ "}, {" ++ q ++ "description" ++ q ++ ": "
  ++ q ++ "unclear" ++ q ++ "}]}".

Definition duplicate_issues_value : json :=
  JDict [("issues", JList [ JDict [("description", JStr "unclear")];
                            JDict [("description", JStr "unclear")] ])].

Definition unclear_issue : RequirementIssue.t :=
  RequirementIssue.mk "ambiguity" "unclear" JNull "medium" [].

Definition duplicate_issues_response : string :=
  "<ANALYSIS>" ++ nl ++ duplicate_issues_text ++ nl ++ "</ANALYSIS>".

Definition loads : string -> option json :=
  loads_table [(duplicate_issues_text, duplicate_issues_value)].

Definition shorter_header_text : string :=
  "{" ++ q ++ "improved_requirement" ++ q ++ ": " ++ q
  ++ "def add(a: int) -> int: return a doubled" ++ q ++ "}".

Definition shorter_header_value : json :=
  JDict [("improved_requirement",
          JStr "def add(a: int) -> int: return a doubled")].

Definition shorter_header_response : string :=
  "<CORRECTION>" ++ shorter_header_text ++ "</CORRECTION>".

Definition corrector_loads : string -> option json :=
  loads_table [(shorter_header_text, shorter_header_value)].

(** A backend whose state is the script of the answers it has left. *)
Definition canned : Type := list (result string).

Definition analyzer_backend (requirement : string) (history : list Round.t)
  (b : canned) : result string * canned :=
  scripted (Raise (BackendError "script exhausted")) b.

(** A requirement and an answer of the writer's backend whose headers
    carry a tuple as a default value. *)
Definition tuple_default_requirement : string := "def f(a: int, b=(0, 0)):".

Definition tuple_default_code : string :=
  "def f(a: str, b=(0, 0)):" ++ nl ++ "    return a".

Definition tuple_default_response : string :=
  "```python" ++ nl ++ tuple_default_code ++ nl ++ "```".

Definition writer_backend (requirement signature : string) (b : canned)
  : result string * canned :=
  scripted (Raise (BackendError "script exhausted")) b.

(** An analysis that finds the requirement ready and rewrites it. *)
Definition ready_text : string :=
  "{" ++ q ++ "decision" ++ q ++ ": " ++ q ++ "ready" ++ q ++ ", "
  ++ q ++ "issues" ++ q ++ ": [], "
  ++ q ++ "normalized_requirement" ++ q ++ ": "
  ++ q ++ "def f(x): return x when x is truthy, else 5" ++ q ++ "}".

Definition ready_value : json :=
  JDict [ ("decision", JStr "ready"); ("issues", JList []);
          ("normalized_requirement",
           JStr "def f(x): return x when x is truthy, else 5") ].

(** An analysis with one issue and no signature. *)
Definition issue_text : string :=
  "{" ++ q ++ "issues" ++ q ++ ": [{" ++ q ++ "description" ++ q ++ ": "
  ++ q ++ "unclear" ++ q ++ "}]}".

Definition issue_value : json :=
  JDict [("issues", JList [JDict [("description", JStr "unclear")]])].

(** An analysis with one issue that reports a signature. *)
Definition issue_signature_text : string :=
  "{" ++ q ++ "issues" ++ q ++ ": [{" ++ q ++ "description" ++ q ++ ": "
  ++ q ++ "unclear" ++ q ++ "}], "
  ++ q ++ "original_function_signature" ++ q ++ ": "
  ++ q ++ "def f(x):" ++ q ++ "}".

Definition issue_signature_value : json :=
  JDict [ ("issues", JList [JDict [("description", JStr "unclear")]]);
          ("original_function_signature", JStr "def f(x):") ].

Definition correction_text : string :=
  "{" ++ q ++ "improved_requirement" ++ q ++ ": "
  ++ q ++ "def f(x): return x or 5" ++ q ++ "}".

Definition correction_value : json :=
  JDict [("improved_requirement", JStr "def f(x): return x or 5")].

Definition code_response : string :=
  "```python" ++ nl ++ "def f(x):" ++ nl ++ "    return x or 5" ++ nl ++ "```".

Definition system_loads : string -> option json :=
  loads_table [ (ready_text, ready_value);
                (issue_text, issue_value);
                (issue_signature_text, issue_signature_value);
                (correction_text, correction_value) ].

Definition in_analysis (text : string) : string :=
  "<ANALYSIS>" ++ text ++ "</ANALYSIS>".

Definition in_correction (text : string) : string :=
  "<CORRECTION>" ++ text ++ "</CORRECTION>".

Definition corrector_backend (requirement : string)
  (issues : list RequirementIssue.t) (signature : string) (b : canned)
  : result string * canned :=
  scripted (Raise (BackendError "script exhausted")) b.

Definition no_event : Observed.event :=
  Observed.Written "" "" (Raise AssertionError).


(** The three agents on the scripted backend, and the events of a run
    of the orchestrator over them. *)
Definition system_events (max_iterations : Z) (requirement : string)
  (script : canned) : list Observed.event :=
  Observed.events canned
    (Analyzer.process system_loads dumps_none canned analyzer_backend)
    (Corrector.process system_loads canned corrector_backend)
    (Writer.process system_loads literal_template canned writer_backend)
    max_iterations requirement script.

Definition system_run (max_iterations : Z) (requirement : string)
  (script : canned) : result CodeGenerationOutput.t * canned :=
  System.run system_loads dumps_none literal_template canned
    analyzer_backend corrector_backend writer_backend
    max_iterations requirement script.

(** One round that finds the requirement ready, then the writer. *)
Definition ready_script : canned :=
  [Ok (in_analysis ready_text); Ok code_response].

(** Two rounds with an issue each, the second reporting a signature. *)
Definition late_signature_script : canned :=
  [ Ok (in_analysis issue_text); Ok (in_correction correction_text);
    Ok (in_analysis issue_signature_text); Ok (in_correction correction_text);
    Ok code_response ].

End Examples.

(** ** Vocabulary of the statements *)

Module Spec.

(** An item of the backend's issue array has a description the parser
    keeps. *)
Definition has_description (item : json) : bool :=
  match item with
  | JDict d => match assoc "description" d with
               | Some v => truthy v
               | None => false
               end
  | _ => false
  end.

Definition description_of (item : json) : string :=
  match item with
  | JDict d => match assoc "description" d with
               | Some (JStr s) => strip s
               | _ => ""
               end
  | _ => ""
  end.

(** Two parameter lists differ in their count, or at some position in
    the types both declare, spaces apart. *)
Definition differs (a b : list param) : Prop :=
  length a <> length b
  \/ exists i na ta nb tb,
       nth_error a i = Some (na, Some ta)
       /\ nth_error b i = Some (nb, Some tb)
       /\ ta <> "" /\ tb <> ""
       /\ remove_spaces ta <> remove_spaces tb.

(** A comparison passes when either text has no function header. *)
Definition passes_unparsed (validate : string -> string -> bool * string)
  : Prop :=
  forall a b,
    _extract_function_signature a = None
    \/ _extract_function_signature b = None ->
    validate a b = (true, "").




(** The writer is given [expected] in every call the log shows. *)
Definition writer_given (expected : option string)
  (log : list Observed.event) : Prop :=
  forall e r,
    In e log -> Observed.written_requirement e = Some r -> expected = Some r.

(** The most recent requirement text of a log: the last correction's
    improved requirement, or without any correction the last analysis's
    normalized requirement. *)
Definition most_recent (log : list Observed.event) : option string :=
  match Observed.last_improved log with
  | Some r => Some r
  | None =>
      option_map AnalyzerOutput.normalized_requirement
        (Observed.last_analysis log)
  end.

(** The orchestrator's current requirement, or when that text is empty
    the last analysis's normalized requirement. *)
Definition current_or_normalized (requirement : string)
  (log : list Observed.event) : option string :=
  let current :=
    match Observed.last_improved log with
    | Some r => r
    | None => requirement
    end in
  if nonempty current then Some current
  else option_map AnalyzerOutput.normalized_requirement
         (Observed.last_analysis log).

(** Every call to the corrector or the writer that comes after an
    analysis reported a signature is given the first signature
    reported. *)
Definition signature_is_first_reported (log : list Observed.event) : Prop :=
  forall pre e post s s0,
    log = (pre ++ e :: post)%list ->
    Observed.passed_signature e = Some s ->
    Observed.first_nonempty_signature pre = Some s0 ->
    s = s0.

(** Every call to the corrector or the writer is given the signature of
    the first round's analysis. *)
Definition signature_is_first_round (log : list Observed.event) : Prop :=
  forall e s,
    In e log ->
    Observed.passed_signature e = Some s ->
    s = Observed.first_round_signature log.

End Spec.

(** ** eval_scripts/code_generation.py: the caller that retries *)

Module CodeGeneration.

Definition invalid_tags : list string :=
  [ "<code_deliverable>"; "</code_deliverable>";
    "<final_requirement>"; "</final_requirement>";
    "<analysis>"; "</analysis>";
    "<correction>"; "</correction>" ].

(** The loop over [invalid_tags]: the first tag found in [code_lower]. *)
Fixpoint first_tag_in (tags : list string) (code_lower : string)
  : option string :=
  match tags with
  | [] => None
  | tag :: rest =>
      if contains tag code_lower then Some tag else first_tag_in rest code_lower
  end.

(** The text ["code"], quotes included. *)
Definition quoted_code : string := Examples.q ++ "code" ++ Examples.q.

Definition is_valid_code (code : string) : bool * string :=
  if negb (nonempty code) || String.eqb (strip code) "" then
    (false, "empty code")
  else
    match first_tag_in invalid_tags (lower code) with
    | Some tag =>
        (false, "contains unparsed tag: " ++ tag ++ " (output parsing failed)")
    | None =>
        if startswith "{" (strip code) && contains quoted_code code then
          (false, "contains raw JSON structure (JSON parsing failed)")
        else if negb (contains "def " code) then
          (false, "no function definition found (invalid Python code)")
        else (true, "")
    end.

Section Retry.

(** One call of [generate_code_from_requirement] on the requirement at
    hand: a fresh orchestrator and its [run]. Every exception of the
    model is an [Exception], which the loop catches. *)
Variable B : Type.
Variable generate : B -> result CodeGenerationOutput.t * B.

(** The [for] loop over the attempts left. *)
Fixpoint attempts (max_retries : Z) (todo : list Z) (b : B)
  : (string * Z) * B :=
  match todo with
  | [] => (("", 0%Z), b)
  | attempt :: later =>
      match generate b with
      | (Ok result, b1) =>
          let code := CodeGenerationOutput.code result in
          let correction_iterations :=
            CodeGenerationOutput.correction_iterations result in
          if fst (is_valid_code code) then ((code, correction_iterations), b1)
          else if (attempt <? max_retries)%Z then attempts max_retries later b1
          else (("", 0%Z), b1)
      | (Raise _, b1) =>
          if (attempt <? max_retries)%Z then attempts max_retries later b1
          else (("", 0%Z), b1)
      end
  end.

Definition generate_code_with_codegen (max_retries : Z) (b : B)
  : (string * Z) * B :=
  attempts max_retries (Orchestrator.iterations max_retries) b.

End Retry.

(** A generator wrapped to count its calls. *)
Definition counted {B : Type}
  (generate : B -> result CodeGenerationOutput.t * B) (w : B * nat)
  : result CodeGenerationOutput.t * (B * nat) :=
  let (r, b') := generate (fst w) in (r, (b', S (snd w))).

End CodeGeneration.

(** ** Vocabulary of the further properties *)

Module Terms.

(** The exception an event shows an agent raising. *)
Definition raised (e : Observed.event) : option exn :=
  match e with
  | Observed.Analyzed _ _ (Raise x) => Some x
  | Observed.Corrected _ _ _ (Raise x) => Some x
  | Observed.Written _ _ (Raise x) => Some x
  | _ => None
  end.

(** The character [c] occurs in [s]. *)
Fixpoint mentions (c : ascii) (s : string) : bool :=
  match s with
  | EmptyString => false
  | String x s' => Ascii.eqb x c || mentions c s'
  end.

(** Every character of [s] satisfies [p]. *)
Fixpoint all_chars (p : ascii -> bool) (s : string) : bool :=
  match s with
  | EmptyString => true
  | String x s' => p x && all_chars p s'
  end.

Definition backtick : ascii := "096".

(** The bracket depth at the end of [s], entered at [depth], when no
    comma of [s] stands at depth 0; [None] when one does. The steps are
    those of [_split_params]. *)
Fixpoint scan (depth : Z) (s : string) : option Z :=
  match s with
  | EmptyString => Some depth
  | String c s' =>
      if Signature.is_open c then scan (depth + 1) s'
      else if Signature.is_close c then scan (depth - 1) s'
      else if Ascii.eqb c "," && Z.eqb depth 0 then None
      else scan depth s'
  end.

(** A text that [_split_params] keeps in one piece: it closes the
    brackets it opens, has no comma outside them, is not empty and has
    no white space around it. *)
Definition one_parameter (p : string) : Prop :=
  scan 0 p = Some 0%Z /\ strip p = p /\ p <> "".

(** A parsed parameter whose name holds no colon, and whose type, or
    whose name when it has no type, holds no equals sign. *)
Definition clean_param (x : Signature.param) : Prop :=
  mentions ":" (fst x) = false
  /\ match snd x with
     | Some ty => mentions "=" ty = false
     | None => mentions "=" (fst x) = false
     end.

(** The first character of [s], if any, fails [p]. *)
Definition head_fails (p : ascii -> bool) (s : string) : Prop :=
  match s with
  | EmptyString => True
  | String c _ => p c = false
  end.

(** A round record that carries the corrector's keys. *)
Definition has_correction (r : Round.t) : bool :=
  match Round.correction r with Some _ => true | None => false end.

End Terms.

(** ** visualizer/codegen_status.py *)

Module Visualizer.

(** [s[:stop]] for an [int] stop: a negative one counts from the end. *)
Definition prefix (stop : Z) (s : string) : string :=
  if (0 <=? stop)%Z then substring 0 (Z.to_nat stop) s
  else substring 0 (Z.to_nat (Z.of_nat (String.length s) + stop)) s.

(** The value [set_requirement_preview] stores in
    [_requirement_preview]. *)
Definition set_requirement_preview (requirement : string)
  (requirement_path : option string) (max_length : Z) : string :=
  let long := (max_length <? Z.of_nat (String.length requirement))%Z in
  match requirement_path with
  | Some path =>
      if nonempty path then
        let preview_text :=
          if long then prefix (max_length - 3) requirement ++ "..."
          else requirement in
        preview_text ++ " (Source: " ++ path ++ ")"
      else if long then prefix (max_length - 3) requirement ++ "..."
      else requirement
  | None =>
      if long then prefix (max_length - 3) requirement ++ "..."
      else requirement
  end.

End Visualizer.

(** The three agents over the scripted backends of the examples. *)
Module Scripted.

Definition analyzer
  : string -> list Round.t -> Examples.canned
    -> result AnalyzerOutput.t * Examples.canned :=
  Analyzer.process Examples.system_loads Examples.dumps_none Examples.canned
    Examples.analyzer_backend.

Definition corrector
  : string -> list RequirementIssue.t -> string -> Examples.canned
    -> result CorrectionOutput.t * Examples.canned :=
  Corrector.process Examples.system_loads Examples.canned
    Examples.corrector_backend.

Definition writer
  : string -> AnalyzerOutput.t -> string -> Examples.canned
    -> result CodeGenerationOutput.t * Examples.canned :=
  Writer.process Examples.system_loads Examples.literal_template
    Examples.canned Examples.writer_backend.

(** One round with an issue, after which the backend has no answer
    left for the corrector. *)
Definition cut_short_script : Examples.canned :=
  [Ok (Examples.in_analysis Examples.issue_text)].

(** A generator whose runs all end without code. *)
Definition no_code (b : nat) : result CodeGenerationOutput.t * nat :=
  (Ok (CodeGenerationOutput.mk "sort a list" "" ""
         ["Failed to extract code from response"] [] 0), S b).

(** An answer of the writer's backend whose header takes one parameter
    more than the requirement's. *)
Definition wider_response : string :=
  "```python" ++ nl ++ "def f(x, y):" ++ nl ++ "    return x or y" ++ nl
  ++ "```".

(** A requirement whose first default value is a tuple, and a revision
    of it that retypes the second parameter and adds a third. *)
Definition nested_default_requirement : string :=
  "def f(a=(1, 2), b: int = 0): return a".

Definition nested_default_revision : string :=
  "def f(a=(1, 2), b: str = 0, c: int = 1): return a".

Definition nested_default_text : string :=
  "{" ++ Examples.q ++ "improved_requirement" ++ Examples.q ++ ": "
  ++ Examples.q ++ nested_default_revision ++ Examples.q ++ "}".

Definition nested_default_value : json :=
  JDict [("improved_requirement", JStr nested_default_revision)].

Definition nested_default_response : string :=
  Examples.in_correction nested_default_text.

Definition nested_default_loads : string -> option json :=
  Examples.loads_table [(nested_default_text, nested_default_value)].

(** [json.loads] on an answer that is a JSON array. *)
Definition array_loads : string -> option json :=
  Examples.loads_table [("[]", JList [])].

(** An answer that gives the code without a fence. *)
Definition bare_response : string :=
  "Here is the function." ++ nl ++ "def f(x):" ++ nl ++ "    return x or 5".

End Scripted.

(** * Properties *)

Lemma bind_ok {A B} (r : result A) (k : A -> result B) (b : B) :
  bind r k = Ok b -> exists a, r = Ok a /\ k a = Ok b.
Proof.
  destruct r as [a|e]; simpl; intros H; [eauto | discriminate].
Qed.

Ltac bind_inv H :=
  let a := fresh "v" in
  let E := fresh "E" in
  apply bind_ok in H; destruct H as (a & E & H).

(** ** The analyzer *)

Section AnalyzerProperties.

Variable json_loads : string -> option json.
Variable json_dumps : json -> string.

Let parse := Analyzer._parse_response json_loads json_dumps.

Lemma analyzer_parse_decision response fallback out :
  parse response fallback = Ok out ->
  AnalyzerOutput.decision out =
    match AnalyzerOutput.issues out with [] => "ready" | _ :: _ => "needs_clarification" end.
Proof.
  unfold parse, Analyzer._parse_response.
  destruct (json_loads _) as [data|].
  - intros H. repeat bind_inv H. injection H as <-. reflexivity.
  - intros H. injection H as <-. reflexivity.
Qed.

Lemma analyzer_process_inv (B : Type)
  (generate_response : string -> list Round.t -> B -> result string * B)
  requirement history b out b' :
  Analyzer.process json_loads json_dumps B generate_response
    requirement history b = (Ok out, b') ->
  exists response,
    generate_response requirement history b = (Ok response, b')
    /\ parse response requirement = Ok out.
Proof.
  unfold Analyzer.process.
  destruct (generate_response requirement history b) as [[response|e] b1];
    simpl; intros H; inversion H; subst; eauto.
Qed.

(** C1. Whatever the analyzer returns, from [_parse_response] or from
    [process], its decision is "ready" exactly when its issue list is
    empty; the decision the backend wrote plays no part. *)
Theorem analyzer_ready_iff_no_issues :
  (forall response fallback out,
     parse response fallback = Ok out ->
     (AnalyzerOutput.decision out = "ready" <-> AnalyzerOutput.issues out = []))
  /\
  (forall (B : Type)
     (generate_response : string -> list Round.t -> B -> result string * B)
     requirement history b out b',
     Analyzer.process json_loads json_dumps B generate_response
       requirement history b = (Ok out, b') ->
     (AnalyzerOutput.decision out = "ready" <-> AnalyzerOutput.issues out = [])).
Proof.
  assert (P : forall response fallback out,
             parse response fallback = Ok out ->
             (AnalyzerOutput.decision out = "ready"
              <-> AnalyzerOutput.issues out = [])).
  { intros response fallback out H.
    rewrite (analyzer_parse_decision _ _ _ H).
    destruct (AnalyzerOutput.issues out); split; intros; congruence. }
  split; [exact P|].
  intros B gen requirement history b out b' H.
  destruct (analyzer_process_inv _ _ _ _ _ _ _ H) as (response & _ & Hp).
  eauto.
Qed.


Lemma parse_issue_kept item i :
  Analyzer.parse_issue item = Ok (Some i) ->
  Spec.has_description item = true
  /\ RequirementIssue.description i = Spec.description_of item.
Proof.
  unfold Analyzer.parse_issue, get.
  destruct item as [| | | | |l|d]; simpl; try discriminate.
  unfold Spec.has_description, Spec.description_of.
  destruct (assoc "description" d) as [v|]; simpl; [|discriminate].
  destruct (truthy v) eqn:T; simpl; [|discriminate].
  intros H. repeat bind_inv H. injection H as <-. simpl.
  split; [reflexivity|].
  destruct v; simpl in *; try discriminate. congruence.
Qed.

Lemma parse_issue_dropped item :
  Analyzer.parse_issue item = Ok None -> Spec.has_description item = false.
Proof.
  unfold Analyzer.parse_issue, get.
  destruct item as [| | | | |l|d]; simpl; try discriminate.
  unfold Spec.has_description.
  destruct (assoc "description" d) as [v|]; simpl; [|reflexivity].
  destruct (truthy v) eqn:T; simpl; [|reflexivity].
  intros H. repeat bind_inv H. discriminate.
Qed.

Lemma parse_issues_descriptions items :
  forall issues,
    Analyzer.parse_issues items = Ok issues ->
    map RequirementIssue.description issues
    = map Spec.description_of (filter Spec.has_description items).
Proof.
  induction items as [|item rest IH]; simpl; intros issues H.
  - injection H as <-. reflexivity.
  - bind_inv H. bind_inv H. injection H as <-.
    destruct v as [i|].
    + destruct (parse_issue_kept _ _ E) as [Hk Hd].
      simpl. rewrite Hk, Hd. simpl. f_equal. auto.
    + rewrite (parse_issue_dropped _ E). auto.
Qed.

(** C10, as the code has it. The issue list is not deduplicated: it has
    one entry for each item of the backend's issue array that carries a
    description, in the array's order, duplicates included. *)
Theorem analyzer_issues_follow_backend_items :
  forall response fallback data raw items out,
    json_loads (Analyzer._extract_json_block response) = Some data ->
    get data "issues" (JList []) = Ok raw ->
    py_iter raw = Ok items ->
    parse response fallback = Ok out ->
    map RequirementIssue.description (AnalyzerOutput.issues out)
    = map Spec.description_of (filter Spec.has_description items).
Proof.
  intros response fallback data raw items out Hl Hg Hi.
  unfold parse, Analyzer._parse_response. rewrite Hl, Hg. simpl.
  rewrite Hi. simpl. intros H. repeat bind_inv H. injection H as <-. simpl.
  now apply parse_issues_descriptions.
Qed.

End AnalyzerProperties.

(** The analyzer on a backend answer that lists the same issue twice. *)
Lemma analyzer_ready_iff_no_issues_witness :
  Analyzer._parse_response Examples.loads Examples.dumps_none
    Examples.duplicate_issues_response "def f(x): ..."
  = Ok (AnalyzerOutput.mk "def f(x): ..."
          [Examples.unclear_issue; Examples.unclear_issue] ""
          "needs_clarification" Examples.duplicate_issues_text "")
  /\ ("needs_clarification" = "ready"
      <-> [Examples.unclear_issue; Examples.unclear_issue] = []).
Proof.
  split; [vm_compute; reflexivity|].
  apply (proj1 (analyzer_ready_iff_no_issues Examples.loads Examples.dumps_none)
           Examples.duplicate_issues_response "def f(x): ..."
           (AnalyzerOutput.mk "def f(x): ..."
              [Examples.unclear_issue; Examples.unclear_issue] ""
              "needs_clarification" Examples.duplicate_issues_text "")).
  vm_compute; reflexivity.
Defined.


(** C10 fails as stated: a backend answer that lists one issue twice
    comes back as two equal entries. *)
Lemma analyzer_issues_not_deduplicated :
  exists out,
    Analyzer._parse_response Examples.loads Examples.dumps_none
      Examples.duplicate_issues_response "def f(x): ..." = Ok out
    /\ ~ NoDup (AnalyzerOutput.issues out)
    /\ ~ NoDup (map RequirementIssue.description (AnalyzerOutput.issues out)).
Proof.
  eexists. split; [vm_compute; reflexivity|].
  split; intros H; inversion H as [|x l Hin _]; apply Hin; left; reflexivity.
Qed.

Lemma analyzer_issues_follow_backend_items_witness :
  map RequirementIssue.description
    [Examples.unclear_issue; Examples.unclear_issue]
  = ["unclear"; "unclear"].
Proof.
  apply (analyzer_issues_follow_backend_items Examples.loads Examples.dumps_none
           Examples.duplicate_issues_response "def f(x): ..."
           Examples.duplicate_issues_value
           (JList [ JDict [("description", JStr "unclear")];
                    JDict [("description", JStr "unclear")] ])
           [ JDict [("description", JStr "unclear")];
             JDict [("description", JStr "unclear")] ]
           (AnalyzerOutput.mk "def f(x): ..."
              [Examples.unclear_issue; Examples.unclear_issue] ""
              "needs_clarification" Examples.duplicate_issues_text ""));
    vm_compute; reflexivity.
Defined.

(** ** The signature comparison *)

Lemma type_clash_true ta tb :
  ta <> "" -> tb <> "" -> remove_spaces ta <> remove_spaces tb ->
  type_clash (Some ta) (Some tb) = true.
Proof.
  intros Ha Hb Hd. unfold type_clash.
  destruct ta; [congruence|]. destruct tb; [congruence|]. simpl nonempty.
  destruct (String.eqb_spec (remove_spaces (String a ta))
              (remove_spaces (String a0 tb))); [contradiction|reflexivity].
Qed.

Lemma corrector_check_types_clash a :
  forall b k i na ta nb tb,
    nth_error a i = Some (na, ta) -> nth_error b i = Some (nb, tb) ->
    type_clash ta tb = true ->
    fst (Corrector.check_types k a b) = false.
Proof.
  induction a as [|[n t] a IH]; intros b k i na ta nb tb Ha Hb Hc.
  - destruct i; discriminate.
  - destruct b as [|[n' t'] b]; [destruct i; discriminate|].
    simpl. destruct (type_clash t t') eqn:C; [reflexivity|].
    destruct i as [|i]; simpl in Ha, Hb.
    + injection Ha as -> ->. injection Hb as -> ->. congruence.
    + eapply IH; eauto.
Qed.

Lemma writer_check_types_clash a :
  forall b k i na ta nb tb,
    nth_error a i = Some (na, ta) -> nth_error b i = Some (nb, tb) ->
    type_clash ta tb = true ->
    fst (Writer.check_types k a b) = false.
Proof.
  induction a as [|[n t] a IH]; intros b k i na ta nb tb Ha Hb Hc.
  - destruct i; discriminate.
  - destruct b as [|[n' t'] b]; [destruct i; discriminate|].
    simpl. destruct (type_clash t t') eqn:C; [reflexivity|].
    destruct i as [|i]; simpl in Ha, Hb.
    + injection Ha as -> ->. injection Hb as -> ->. congruence.
    + eapply IH; eauto.
Qed.

Lemma corrector_validate_rejects original improved n1 p1 n2 p2 :
  _extract_function_signature original = Some (n1, p1) ->
  _extract_function_signature improved = Some (n2, p2) ->
  Spec.differs p1 p2 ->
  fst (Corrector._validate_signature_preserved original improved) = false.
Proof.
  intros H1 H2 D. unfold Corrector._validate_signature_preserved.
  unfold Corrector._extract_function_signature. rewrite H1, H2.
  destruct (negb (n1 =? n2) && negb (n1 =? "candidate")
            && negb (n2 =? "candidate"))%bool; [reflexivity|].
  destruct (Nat.eqb_spec (length p1) (length p2)) as [L|L]; [|reflexivity].
  simpl. destruct D as [D|(i & na & ta & nb & tb & Ha & Hb & Ta & Tb & Hd)].
  - contradiction.
  - eapply corrector_check_types_clash; eauto using type_clash_true.
Qed.

Section CorrectorProperties.

Variable json_loads : string -> option json.
Variable B : Type.
Variable generate_response :
  string -> list RequirementIssue.t -> string -> B -> result string * B.

(** X27. When the parameter lists [_extract_function_signature]
    reports for the input requirement and for the revision differ in
    length, or in a type both report at some position, spaces apart,
    [process] returns the input requirement itself, with one applied fix
    that carries the comparison's message, no open question, and an
    empty raw block and signature. *)
Theorem corrector_reverts_on_signature_change :
  forall requirement issues signature b response b' data raw n1 p1 n2 p2,
    generate_response requirement issues signature b = (Ok response, b') ->
    json_loads (Corrector._extract_json_block response) = Some data ->
    get data "improved_requirement" (JStr requirement) = Ok (JStr raw) ->
    _extract_function_signature requirement = Some (n1, p1) ->
    _extract_function_signature (strip raw) = Some (n2, p2) ->
    Spec.differs p1 p2 ->
    exists error_msg,
      Corrector.process json_loads B generate_response
        requirement issues signature b
      = (Ok (CorrectionOutput.mk requirement
               ["Signature validation failed: " ++ error_msg
                ++ ". Reverted to original."]
               [] "" ""),
         b')
      /\ Corrector._validate_signature_preserved requirement (strip raw)
         = (false, error_msg).
Proof.
  intros requirement issues signature b response b' data raw n1 p1 n2 p2
    Hg Hl Hget H1 H2 D.
  pose proof (corrector_validate_rejects _ _ _ _ _ _ H1 H2 D) as V.
  destruct (Corrector._validate_signature_preserved requirement (strip raw))
    as [ok msg] eqn:E.
  simpl in V. subst ok. exists msg. split; [|reflexivity].
  unfold Corrector.process. rewrite Hg. simpl.
  unfold Corrector._parse_response. rewrite Hl, Hget. simpl.
  rewrite E. reflexivity.
Qed.

(** C2 fails on the code. The revision retypes the second parameter
    from [int] to [str] and adds a third one, yet [process] returns it.
    The header pattern ends the parameter run at the closing parenthesis
    of the first default value, so both texts are read as the one
    parameter [a] and the comparison passes. [_split_params], which
    tracks the depth of parentheses, counts two and three parameters
    when it is given the whole parameter texts. *)
Theorem corrector_accepts_changed_header :
  json_loads Scripted.nested_default_text
  = Some Scripted.nested_default_value ->
  forall issues signature b b',
    generate_response Scripted.nested_default_requirement issues signature b
    = (Ok Scripted.nested_default_response, b') ->
    parse_params (_split_params "a=(1, 2), b: int = 0")
    = [("a", None); ("b", Some "int")]
    /\ parse_params (_split_params "a=(1, 2), b: str = 0, c: int = 1")
       = [("a", None); ("b", Some "str"); ("c", Some "int")]
    /\ _extract_function_signature Scripted.nested_default_requirement
       = Some ("f", [("a", None)])
    /\ _extract_function_signature Scripted.nested_default_revision
       = Some ("f", [("a", None)])
    /\ Corrector._validate_signature_preserved
         Scripted.nested_default_requirement Scripted.nested_default_revision
       = (true, "")
    /\ Corrector.process json_loads B generate_response
         Scripted.nested_default_requirement issues signature b
       = (Ok (CorrectionOutput.mk Scripted.nested_default_revision [] []
                Scripted.nested_default_text ""),
          b').
Proof.
  intros Hl issues signature b b' Hg.
  assert (V : Corrector._validate_signature_preserved
                Scripted.nested_default_requirement
                Scripted.nested_default_revision = (true, ""))
    by (vm_compute; reflexivity).
  assert (E : Corrector._extract_json_block Scripted.nested_default_response
              = Scripted.nested_default_text)
    by (vm_compute; reflexivity).
  assert (S : strip Scripted.nested_default_revision
              = Scripted.nested_default_revision)
    by (vm_compute; reflexivity).
  repeat (split; [vm_compute; reflexivity|]).
  unfold Corrector.process. rewrite Hg.
  cbn [bind]. unfold Corrector._parse_response. cbv zeta.
  rewrite E, Hl.
  change (get Scripted.nested_default_value "improved_requirement"
            (JStr Scripted.nested_default_requirement))
    with (Ok (JStr Scripted.nested_default_revision)).
  cbn [bind py_strip]. rewrite S, V. reflexivity.
Qed.

End CorrectorProperties.

Lemma corrector_accepts_changed_header_witness :
  Corrector.process Scripted.nested_default_loads Examples.canned
    Examples.corrector_backend Scripted.nested_default_requirement
    [Examples.unclear_issue] "" [Ok Scripted.nested_default_response]
  = (Ok (CorrectionOutput.mk Scripted.nested_default_revision [] []
           Scripted.nested_default_text ""),
     []).
Proof.
  apply (corrector_accepts_changed_header Scripted.nested_default_loads
           Examples.canned Examples.corrector_backend
           ltac:(vm_compute; reflexivity)
           [Examples.unclear_issue] "" [Ok Scripted.nested_default_response]
           []).
  vm_compute. reflexivity.
Defined.

Lemma corrector_reverts_on_signature_change_witness :
  exists error_msg,
    Corrector.process Examples.corrector_loads Examples.canned
      Examples.corrector_backend
      "def add(a: int, b: int) -> int: return the sum"
      [Examples.unclear_issue] "" [Ok Examples.shorter_header_response]
    = (Ok (CorrectionOutput.mk
             "def add(a: int, b: int) -> int: return the sum"
             ["Signature validation failed: " ++ error_msg
              ++ ". Reverted to original."]
             [] "" ""),
       [])
    /\ Corrector._validate_signature_preserved
         "def add(a: int, b: int) -> int: return the sum"
         (strip "def add(a: int) -> int: return a doubled")
       = (false, error_msg).
Proof.
  apply (corrector_reverts_on_signature_change Examples.corrector_loads
           Examples.canned Examples.corrector_backend
           "def add(a: int, b: int) -> int: return the sum"
           [Examples.unclear_issue] "" [Ok Examples.shorter_header_response]
           Examples.shorter_header_response [] Examples.shorter_header_value
           "def add(a: int) -> int: return a doubled"
           "add" [("a", Some "int"); ("b", Some "int")]
           "add" [("a", Some "int")]);
    try (vm_compute; reflexivity).
  left. simpl. discriminate.
Defined.

Lemma corrector_passes_unparsed :
  Spec.passes_unparsed Corrector._validate_signature_preserved.
Proof.
  intros a b H. unfold Corrector._validate_signature_preserved.
  unfold Corrector._extract_function_signature.
  destruct H as [-> | ->]; [reflexivity|].
  destruct (_extract_function_signature a) as [[n p]|]; reflexivity.
Qed.

Lemma writer_passes_unparsed :
  Spec.passes_unparsed Writer._validate_signature_preserved.
Proof.
  intros a b H. unfold Writer._validate_signature_preserved.
  unfold Writer._extract_function_signature.
  destruct H as [-> | ->]; [reflexivity|].
  destruct (_extract_function_signature a) as [[n p]|]; reflexivity.
Qed.






(** ** The writer *)

Section WriterProperties.

Variable json_loads : string -> option json.
Variable compile_template : string -> result (option string -> string).

(** C3 fails on the code. The requirement declares [a: int] and the
    extracted code has [a: str], with equal parameter counts; the header
    rewrite finds nothing to replace, because the default value's closing
    parenthesis ends the parameter run of the header pattern, and the
    code comes back with its header as it was. *)
Theorem writer_keeps_mismatched_header :
  (forall template,
     contains Writer.backslash template = false ->
     compile_template template = Ok (fun _ => template)) ->
  Writer._extract_code_multilayer json_loads Examples.tuple_default_response
  = (Examples.tuple_default_code, "markdown_python")
  /\ _extract_function_signature Examples.tuple_default_requirement
     = Some ("f", [("a", Some "int"); ("b", None)])
  /\ _extract_function_signature Examples.tuple_default_code
     = Some ("f", [("a", Some "str"); ("b", None)])
  /\ Writer._validate_signature_preserved
       Examples.tuple_default_requirement Examples.tuple_default_code
     = (false,
        "Parameter 1 type mismatch: requirement has 'int', code has 'str'")
  /\ Writer._parse_response json_loads compile_template
       Examples.tuple_default_response Examples.tuple_default_requirement
     = Ok (CodeGenerationOutput.mk Examples.tuple_default_requirement
             Examples.tuple_default_code "" [] [] 0).
Proof.
  intros Hlit.
  assert (E : Writer._extract_code_multilayer json_loads
                Examples.tuple_default_response
              = (Examples.tuple_default_code, "markdown_python"))
    by (vm_compute; reflexivity).
  assert (V : Writer._validate_signature_preserved
                Examples.tuple_default_requirement Examples.tuple_default_code
              = (false,
                 "Parameter 1 type mismatch: requirement has 'int', code has 'str'"))
    by (vm_compute; reflexivity).
  assert (F : Writer._fix_signature_in_code compile_template
                Examples.tuple_default_requirement Examples.tuple_default_code
              = Ok (Some Examples.tuple_default_code)).
  { vm_compute.
    rewrite (Hlit "def f(a: int, b):" eq_refl). vm_compute. reflexivity. }
  repeat split; try (vm_compute; reflexivity); try assumption.
  unfold Writer._parse_response. rewrite E.
  change (nonempty Examples.tuple_default_code) with true. cbv iota.
  rewrite V. cbv iota. simpl negb. cbv iota. rewrite F.
  vm_compute. reflexivity.
Qed.

End WriterProperties.

(** ** The orchestrator *)

Lemma iterations_sorted start n :
  StronglySorted Z.lt (map Z.of_nat (seq start n)).
Proof.
  revert start. induction n as [|n IH]; intros start; simpl.
  - constructor.
  - constructor; [apply IH|].
    apply Forall_forall. intros z Hz.
    apply in_map_iff in Hz. destruct Hz as (m & <- & Hm).
    apply in_seq in Hm. lia.
Qed.

Lemma firstn_of_seq k :
  forall start n, (k <= n)%nat -> firstn k (seq start n) = seq start k.
Proof.
  induction k as [|k IH]; intros start n H; [reflexivity|].
  destruct n as [|n]; [lia|]. simpl. f_equal. apply IH. lia.
Qed.

Lemma iterations_length max_iterations :
  length (Orchestrator.iterations max_iterations) = Z.to_nat max_iterations.
Proof.
  unfold Orchestrator.iterations. now rewrite length_map, length_seq.
Qed.

Lemma iterations_firstn k max_iterations :
  (k <= length (Orchestrator.iterations max_iterations))%nat ->
  firstn k (Orchestrator.iterations max_iterations)
  = Orchestrator.iterations (Z.of_nat k).
Proof.
  unfold Orchestrator.iterations. rewrite length_map, length_seq. intros H.
  now rewrite firstn_map, firstn_of_seq, Nat2Z.id.
Qed.

Lemma last_improved_written log requirement signature out :
  Observed.last_improved
    (log ++ [Observed.Written requirement signature out])
  = Observed.last_improved log.
Proof.
  induction log as [|e log IH]; simpl; [reflexivity|]. now rewrite IH.
Qed.

Lemma last_analysis_written log requirement signature out :
  Observed.last_analysis
    (log ++ [Observed.Written requirement signature out])
  = Observed.last_analysis log.
Proof.
  induction log as [|e log IH]; simpl; [reflexivity|]. now rewrite IH.
Qed.

Lemma not_written log e :
  filter Observed.is_written log = [] -> In e log ->
  Observed.written_requirement e = None.
Proof.
  intros F H. destruct e; try reflexivity.
  assert (I : In (Observed.Written requirement signature out)
                (filter Observed.is_written log))
    by (apply filter_In; auto).
  rewrite F in I. destruct I.
Qed.

Lemma empty_when_not_nonempty s : nonempty s = false -> s = "".
Proof. destruct s; [reflexivity | discriminate]. Qed.

Section OrchestratorProperties.

Variable B : Type.
Variable analyzer :
  string -> list Round.t -> B -> result AnalyzerOutput.t * B.
Variable corrector :
  string -> list RequirementIssue.t -> string -> B
  -> result CorrectionOutput.t * B.
Variable writer :
  string -> AnalyzerOutput.t -> string -> B
  -> result CodeGenerationOutput.t * B.

Let rounds := Orchestrator.rounds B analyzer corrector.
Let run := Orchestrator.run B analyzer corrector writer.
Let rounds_events := Observed.rounds_events B analyzer corrector.
Let events := Observed.events B analyzer corrector writer.
Let start (requirement : string) := Orchestrator.mk_locals [] requirement None 0 "".

(** The wrapped agents run the loop as the bare ones do, and log
    [rounds_events] on the way. *)
Lemma rounds_observed todo :
  forall st b log,
    Orchestrator.rounds (Observed.W B)
      (Observed.analyzer' B analyzer) (Observed.corrector' B corrector)
      todo st (b, log)
    = (fst (rounds todo st b),
       (snd (rounds todo st b), (log ++ rounds_events todo st b)%list)).
Proof.
  unfold rounds, rounds_events.
  induction todo as [|iteration later IH]; intros st b log.
  - simpl. now rewrite app_nil_r.
  - simpl. unfold Observed.analyzer' at 1. simpl.
    destruct (analyzer _ _ b) as [[snapshot|e] b1]; [|reflexivity].
    unfold Orchestrator.has_issues.
    destruct (AnalyzerOutput.issues snapshot) as [|i rest] eqn:I.
    + simpl. rewrite andb_true_r.
      destruct (String.eqb _ "ready"); reflexivity.
    + simpl. rewrite andb_false_r.
      unfold Orchestrator._correct_requirement.
      unfold Observed.corrector' at 1. simpl.
      destruct (corrector _ _ _ b1) as [[correction|e] b2].
      * rewrite IH. now rewrite <- !app_assoc.
      * now rewrite <- app_assoc.
Qed.

Lemma events_unfold max_iterations requirement b :
  events max_iterations requirement b
  = (rounds_events (Orchestrator.iterations max_iterations)
       (start requirement) b
     ++ Observed.writer_events B writer
          (rounds (Orchestrator.iterations max_iterations)
             (start requirement) b))%list.
Proof.
  unfold events, Observed.events, Orchestrator.run.
  rewrite rounds_observed. fold (start requirement). simpl.
  destruct (rounds _ _ b) as [[st|e] b1]; simpl;
    [|now rewrite app_nil_r].
  destruct (Orchestrator.analyzer_snapshot st) as [snapshot|]; simpl;
    [|now rewrite app_nil_r].
  unfold Observed.writer' at 1. simpl.
  destruct (writer _ snapshot _ b1) as [[output|e] b2]; reflexivity.
Qed.

(** One round of the loop, by the analyzer's answer. *)
Lemma rounds_step iteration later st b :
  rounds (iteration :: later) st b
  = match analyzer (Orchestrator.current_requirement st)
            (Orchestrator.history st) b with
    | (Raise e, b1) => (Raise e, b1)
    | (Ok snapshot, b1) =>
        let signature :=
          if Z.eqb iteration 1
             && nonempty (AnalyzerOutput.original_function_signature snapshot)
          then AnalyzerOutput.original_function_signature snapshot
          else Orchestrator.original_function_signature st in
        let history :=
          (Orchestrator.history st ++
           [ Round.mk iteration (AnalyzerOutput.decision snapshot)
               (map RequirementIssue.as_dict (AnalyzerOutput.issues snapshot))
               (AnalyzerOutput.normalized_requirement snapshot)
               (AnalyzerOutput.raw_json snapshot)
               (AnalyzerOutput.original_function_signature snapshot)
               None None None ])%list in
        if Orchestrator.has_issues snapshot then
          match corrector (AnalyzerOutput.normalized_requirement snapshot)
                  (AnalyzerOutput.issues snapshot) signature b1 with
          | (Raise e, b2) => (Raise e, b2)
          | (Ok correction, b2) =>
              rounds later
                (Orchestrator.mk_locals
                   (Orchestrator.set_last_correction correction history)
                   (CorrectionOutput.improved_requirement correction)
                   (Some snapshot)
                   (Orchestrator.correction_count st + 1) signature)
                b2
          end
        else
          (Ok (Orchestrator.mk_locals history
                 (Orchestrator.current_requirement st) (Some snapshot)
                 (Orchestrator.correction_count st) signature),
           b1)
    end.
Proof.
  unfold rounds. simpl.
  destruct (analyzer _ _ b) as [[snapshot|e] b1]; [|reflexivity].
  destruct (Orchestrator.has_issues snapshot); simpl.
  - rewrite andb_false_r. reflexivity.
  - rewrite andb_true_r. destruct (String.eqb _ "ready"); reflexivity.
Qed.

Lemma set_last_correction_iterations correction history :
  map Round.iteration (Orchestrator.set_last_correction correction history)
  = map Round.iteration history.
Proof.
  induction history as [|r rest IH]; [reflexivity|].
  destruct rest as [|r' rest']; [reflexivity|].
  change (Orchestrator.set_last_correction correction (r :: r' :: rest'))
    with (r :: Orchestrator.set_last_correction correction (r' :: rest')).
  rewrite map_cons, IH. reflexivity.
Qed.

(** The loop calls the analyzer at most once for each iteration left to
    run, and the writer never. *)
Lemma rounds_events_counts todo :
  forall st b,
    (length (filter Observed.is_analyzed (rounds_events todo st b))
     <= length todo)%nat
    /\ filter Observed.is_written (rounds_events todo st b) = [].
Proof.
  unfold rounds_events.
  induction todo as [|iteration later IH]; intros st b; simpl.
  - split; [lia | reflexivity].
  - destruct (analyzer _ _ b) as [[snapshot|e] b1]; simpl.
    + destruct (Orchestrator.has_issues snapshot); simpl.
      * destruct (corrector _ _ _ b1) as [[correction|e] b2]; simpl.
        -- match goal with
           | |- context [Observed.rounds_events _ _ _ later ?s ?b'] =>
               destruct (IH s b') as [Hc Hw]
           end.
           split; [lia | exact Hw].
        -- split; [lia | reflexivity].
      * split; [lia | reflexivity].
    + split; [lia | reflexivity].
Qed.

(** The records the loop leaves carry the indices of the iterations it
    ran, in order, after those already there. *)
Lemma rounds_history todo :
  forall st b st' b',
    rounds todo st b = (Ok st', b') ->
    exists k,
      (k <= length todo)%nat
      /\ map Round.iteration (Orchestrator.history st')
         = (map Round.iteration (Orchestrator.history st) ++ firstn k todo)%list.
Proof.
  induction todo as [|iteration later IH]; intros st b st' b' H.
  - unfold rounds in H. simpl in H. injection H as <- <-.
    exists 0%nat. simpl. split; [lia | now rewrite app_nil_r].
  - rewrite rounds_step in H.
    destruct (analyzer _ _ b) as [[snapshot|e] b1]; [|discriminate].
    cbv zeta in H.
    destruct (Orchestrator.has_issues snapshot).
    + destruct (corrector _ _ _ b1) as [[correction|e] b2]; [|discriminate].
      apply IH in H. destruct H as (k & Hk & Hh). simpl in Hh.
      rewrite set_last_correction_iterations, map_app in Hh. simpl in Hh.
      exists (S k). simpl. split; [lia|].
      rewrite Hh, <- app_assoc. reflexivity.
    + injection H as <- <-. simpl.
      exists 1%nat. simpl. split; [lia|].
      rewrite map_app. reflexivity.
Qed.

Lemma run_inv max_iterations requirement b out b' :
  run max_iterations requirement b = (Ok out, b') ->
  exists st b1 snapshot output,
    rounds (Orchestrator.iterations max_iterations) (start requirement) b
    = (Ok st, b1)
    /\ Orchestrator.analyzer_snapshot st = Some snapshot
    /\ writer (Orchestrator.final_requirement st snapshot) snapshot
         (Orchestrator.original_function_signature st) b1 = (Ok output, b')
    /\ out = CodeGenerationOutput.mk
               (CodeGenerationOutput.finalized_requirement output)
               (CodeGenerationOutput.code output)
               (CodeGenerationOutput.tests output)
               (CodeGenerationOutput.assumptions output)
               (Orchestrator.history st)
               (Orchestrator.correction_count st).
Proof.
  unfold run, Orchestrator.run. fold (start requirement).
  fold (rounds (Orchestrator.iterations max_iterations) (start requirement) b).
  destruct (rounds _ _ b) as [[st|e] b1]; [|discriminate].
  destruct (Orchestrator.analyzer_snapshot st) as [snapshot|] eqn:S;
    [|discriminate].
  destruct (writer _ snapshot _ b1) as [[output|e] b2] eqn:Wr; [|discriminate].
  intros H. injection H as <- <-. exists st, b1, snapshot, output. auto.
Qed.

(** C4. A run calls the analyzer at most [max_iterations] times (never,
    for a budget that is not positive). [run] is a total function, the
    loop being a recursion on the iterations left, so every run ends.
    The trace of a run that returns has at most [max_iterations] records,
    and their round indices are 1, 2, ... in that order, hence strictly
    increasing. *)
Theorem orchestrator_rounds_bounded :
  forall max_iterations requirement b,
    (exists r b', run max_iterations requirement b = (r, b'))
    /\ (Z.of_nat (length (filter Observed.is_analyzed
                             (events max_iterations requirement b)))
        <= Z.max 0 max_iterations)%Z
    /\ (forall out b',
          run max_iterations requirement b = (Ok out, b') ->
          (Z.of_nat (length (CodeGenerationOutput.trace out))
           <= max_iterations)%Z
          /\ StronglySorted Z.lt
               (map Round.iteration (CodeGenerationOutput.trace out))
          /\ map Round.iteration (CodeGenerationOutput.trace out)
             = Orchestrator.iterations
                 (Z.of_nat (length (CodeGenerationOutput.trace out)))).
Proof.
  intros max_iterations requirement b. split; [|split].
  - destruct (run max_iterations requirement b) as [r b']. eauto.
  - rewrite events_unfold, filter_app, length_app.
    destruct (rounds_events_counts (Orchestrator.iterations max_iterations)
                (start requirement) b) as [Hc _].
    assert (Hw : length (filter Observed.is_analyzed
                           (Observed.writer_events B writer
                              (rounds (Orchestrator.iterations max_iterations)
                                 (start requirement) b))) = 0%nat).
    { unfold Observed.writer_events.
      destruct (rounds _ _ b) as [[st|e] b1]; [|reflexivity].
      destruct (Orchestrator.analyzer_snapshot st); reflexivity. }
    rewrite Hw. rewrite iterations_length in Hc. lia.
  - intros out b' H.
    destruct (run_inv _ _ _ _ _ H) as (st & b1 & snapshot & output
                                       & Hr & Hs & _ & ->).
    simpl.
    destruct (rounds_history _ _ _ _ _ Hr) as (k & Hk & Hh). simpl in Hh.
    rewrite (iterations_firstn _ _ Hk) in Hh.
    assert (L : length (Orchestrator.history st) = k).
    { rewrite <- (length_map Round.iteration), Hh.
      unfold Orchestrator.iterations.
      now rewrite length_map, length_seq, Nat2Z.id. }
    rewrite iterations_length in Hk.
    assert (P : (0 < max_iterations)%Z).
    { destruct (Z.to_nat max_iterations) eqn:N; [|lia].
      unfold rounds, Orchestrator.iterations in Hr. rewrite N in Hr.
      simpl in Hr. injection Hr as <- <-. discriminate. }
    rewrite L. repeat split.
    + lia.
    + rewrite Hh. apply iterations_sorted.
    + exact Hh.
Qed.

(** The locals at the end of the loop, read off its events. *)
Lemma rounds_current todo :
  forall st b st' b',
    rounds todo st b = (Ok st', b') ->
    Orchestrator.current_requirement st'
    = match Observed.last_improved (rounds_events todo st b) with
      | Some r => r
      | None => Orchestrator.current_requirement st
      end
    /\ Orchestrator.analyzer_snapshot st'
       = match Observed.last_analysis (rounds_events todo st b) with
         | Some a => Some a
         | None => Orchestrator.analyzer_snapshot st
         end.
Proof.
  induction todo as [|iteration later IH]; intros st b st' b' H.
  - unfold rounds in H. simpl in H. injection H as <- <-. auto.
  - rewrite rounds_step in H. unfold rounds_events. simpl.
    destruct (analyzer _ _ b) as [[snapshot|e] b1]; [|discriminate].
    cbv zeta in H.
    destruct (Orchestrator.has_issues snapshot).
    + destruct (corrector _ _ _ b1) as [[correction|e] b2]; [|discriminate].
      apply IH in H. destruct H as [Hc Hs]. simpl in Hc, Hs.
      fold rounds_events. simpl.
      destruct (Observed.last_improved _); destruct (Observed.last_analysis _);
        auto.
    + injection H as <- <-. simpl. auto.
Qed.

(** C5, as the code has it. The writer is given the orchestrator's
    current requirement: the improved requirement of the last correction,
    or the requirement [run] was called with when no correction ran. Only
    when that text is empty is it given the normalized requirement of the
    last analysis. *)
Theorem writer_given_current_requirement :
  forall max_iterations requirement b,
    Spec.writer_given
      (Spec.current_or_normalized requirement
         (events max_iterations requirement b))
      (events max_iterations requirement b).
Proof.
  intros max_iterations requirement b e r.
  rewrite events_unfold. intros He Hr.
  apply in_app_or in He. destruct He as [He|He].
  - destruct (rounds_events_counts (Orchestrator.iterations max_iterations)
                (start requirement) b) as [_ F].
    rewrite (not_written _ _ F He) in Hr. discriminate.
  - unfold Observed.writer_events in *.
    destruct (rounds _ _ b) as [[st|x] b1] eqn:R; [|destruct He].
    destruct (Orchestrator.analyzer_snapshot st) as [snapshot|] eqn:S;
      [|destruct He].
    destruct He as [<-|[]]. simpl in Hr. injection Hr as <-.
    unfold Spec.current_or_normalized.
    rewrite last_improved_written, last_analysis_written.
    destruct (rounds_current _ _ _ _ _ R) as [Hc Hs]. simpl in Hc, Hs.
    fold (rounds_events (Orchestrator.iterations max_iterations)
            (start requirement) b).
    rewrite <- Hc. unfold Orchestrator.final_requirement.
    destruct (nonempty (Orchestrator.current_requirement st));
      [reflexivity|].
    rewrite S in Hs.
    destruct (Observed.last_analysis _); [|discriminate].
    injection Hs as <-. reflexivity.
Qed.

(** Past the first iteration the loop passes on the signature it has. *)
Lemma rounds_signature todo :
  forall st b,
    ~ In 1%Z todo ->
    forall e s,
      In e (rounds_events todo st b
            ++ Observed.writer_events B writer (rounds todo st b))%list ->
      Observed.passed_signature e = Some s ->
      s = Orchestrator.original_function_signature st.
Proof.
  induction todo as [|iteration later IH]; intros st b N e s He Hs.
  - unfold rounds, rounds_events in He. simpl in He.
    destruct (Orchestrator.analyzer_snapshot st); [|destruct He].
    destruct He as [<-|[]]. simpl in Hs. now injection Hs.
  - assert (I : (iteration =? 1)%Z = false)
      by (apply Z.eqb_neq; intros ->; apply N; now left).
    assert (N' : ~ In 1%Z later) by (intros X; apply N; now right).
    rewrite rounds_step in He. unfold rounds_events in He. simpl in He.
    rewrite I in He. simpl in He.
    destruct (analyzer _ _ b) as [[snapshot|x] b1].
    + destruct He as [<-|He]; [discriminate|].
      destruct (Orchestrator.has_issues snapshot).
      * destruct (corrector _ _ _ b1) as [[correction|x] b2].
        -- destruct He as [<-|He]; [simpl in Hs; now injection Hs|].
           apply (IH _ _ N' _ _ He Hs).
        -- simpl in He. destruct He as [<-|[]]. simpl in Hs. now injection Hs.
      * simpl in He. destruct He as [<-|[]]. simpl in Hs. now injection Hs.
    + simpl in He. destruct He as [<-|[]]. discriminate.
Qed.

(** C6, as the code has it. The signature passed to the corrector, in
    every round, and to the writer is the one the first round's analysis
    reported, empty when it reported none; what a later round reports is
    not taken up. *)
Theorem signature_captured_in_first_round :
  forall max_iterations requirement b,
    Spec.signature_is_first_round (events max_iterations requirement b).
Proof.
  intros max_iterations requirement b e s.
  rewrite events_unfold. unfold Orchestrator.iterations.
  destruct (Z.to_nat max_iterations) as [|n].
  - simpl. intros [].
  - assert (N : ~ In 1%Z (map Z.of_nat (seq 2 n))).
    { intros X. apply in_map_iff in X. destruct X as (m & E & M).
      apply in_seq in M. lia. }
    change (map Z.of_nat (seq 1 (S n)))
      with (1%Z :: map Z.of_nat (seq 2 n)).
    rewrite rounds_step. unfold rounds_events. simpl.
    destruct (analyzer requirement [] b) as [[snapshot|x] b1].
    + assert (G : (if nonempty
                        (AnalyzerOutput.original_function_signature snapshot)
                   then AnalyzerOutput.original_function_signature snapshot
                   else "")
                  = AnalyzerOutput.original_function_signature snapshot).
      { destruct (nonempty _) eqn:Q; [reflexivity|].
        symmetry. now apply empty_when_not_nonempty. }
      rewrite G. intros He Hs.
      destruct He as [<-|He]; [discriminate|].
      destruct (Orchestrator.has_issues snapshot).
      * destruct (corrector _ _ _ b1) as [[correction|x] b2].
        -- destruct He as [<-|He]; [simpl in Hs; now injection Hs|].
           apply (rounds_signature _ _ _ N _ _ He Hs).
        -- simpl in He. destruct He as [<-|[]]. simpl in Hs. now injection Hs.
      * simpl in He. destruct He as [<-|[]]. simpl in Hs. now injection Hs.
    + simpl. intros [<-|[]]. discriminate.
Qed.

End OrchestratorProperties.

(** ** The writer under the orchestrator *)

Section WriterFailure.

Variable json_loads : string -> option json.
Variable compile_template : string -> result (option string -> string).
Variable B : Type.
Variable analyzer :
  string -> list Round.t -> B -> result AnalyzerOutput.t * B.
Variable corrector :
  string -> list RequirementIssue.t -> string -> B
  -> result CorrectionOutput.t * B.
Variable writer_backend : string -> string -> B -> result string * B.

Let writer := Writer.process json_loads compile_template B writer_backend.



End WriterFailure.

(** ** The statements on the scripted system *)

Lemma literal_template_spec template :
  contains Writer.backslash template = false ->
  Examples.literal_template template = Ok (fun _ => template).
Proof.
  intros H. unfold Examples.literal_template. now rewrite H.
Qed.

Lemma writer_keeps_mismatched_header_witness :
  Writer._parse_response Examples.system_loads Examples.literal_template
    Examples.tuple_default_response Examples.tuple_default_requirement
  = Ok (CodeGenerationOutput.mk Examples.tuple_default_requirement
          Examples.tuple_default_code "" [] [] 0).
Proof.
  apply (writer_keeps_mismatched_header Examples.system_loads
           Examples.literal_template literal_template_spec).
Defined.


Lemma orchestrator_rounds_bounded_witness :
  exists out,
    fst (Examples.system_run 2 "def f(x): return x or 5"
           Examples.late_signature_script) = Ok out
    /\ (Z.of_nat (length (CodeGenerationOutput.trace out)) <= 2)%Z
    /\ StronglySorted Z.lt
         (map Round.iteration (CodeGenerationOutput.trace out))
    /\ map Round.iteration (CodeGenerationOutput.trace out)
       = Orchestrator.iterations
           (Z.of_nat (length (CodeGenerationOutput.trace out))).
Proof.
  eexists. split; [vm_compute; reflexivity|].
  apply (proj2 (proj2 (orchestrator_rounds_bounded Examples.canned
                         (Analyzer.process Examples.system_loads
                            Examples.dumps_none Examples.canned
                            Examples.analyzer_backend)
                         (Corrector.process Examples.system_loads
                            Examples.canned Examples.corrector_backend)
                         (Writer.process Examples.system_loads
                            Examples.literal_template Examples.canned
                            Examples.writer_backend)
                         2%Z "def f(x): return x or 5"
                         Examples.late_signature_script))
           _ []).
  vm_compute; reflexivity.
Defined.

(** C5 fails as stated: with no correction in the run, the writer is
    given the requirement [run] was called with, not the normalized
    requirement of the analysis. *)
Lemma writer_not_given_normalized :
  ~ Spec.writer_given
      (Spec.most_recent
         (Examples.system_events 5 "def f(x): return x or 5"
            Examples.ready_script))
      (Examples.system_events 5 "def f(x): return x or 5"
         Examples.ready_script).
Proof.
  intros H.
  specialize (H (nth 1 (Examples.system_events 5 "def f(x): return x or 5"
                          Examples.ready_script) Examples.no_event)
                "def f(x): return x or 5").
  assert (I : In (nth 1 (Examples.system_events 5 "def f(x): return x or 5"
                           Examples.ready_script) Examples.no_event)
                (Examples.system_events 5 "def f(x): return x or 5"
                   Examples.ready_script)).
  { apply nth_In. apply Nat.ltb_lt. vm_compute. reflexivity. }
  specialize (H I). vm_compute in H.
  specialize (H eq_refl). discriminate H.
Qed.

Lemma writer_given_current_requirement_witness :
  Spec.current_or_normalized "def f(x): return x or 5"
    (Examples.system_events 5 "def f(x): return x or 5" Examples.ready_script)
  = Some "def f(x): return x or 5".
Proof.
  apply (writer_given_current_requirement Examples.canned
           (Analyzer.process Examples.system_loads Examples.dumps_none
              Examples.canned Examples.analyzer_backend)
           (Corrector.process Examples.system_loads Examples.canned
              Examples.corrector_backend)
           (Writer.process Examples.system_loads Examples.literal_template
              Examples.canned Examples.writer_backend)
           5%Z "def f(x): return x or 5" Examples.ready_script
           (nth 1 (Examples.system_events 5 "def f(x): return x or 5"
                     Examples.ready_script) Examples.no_event)).
  - apply nth_In. apply Nat.ltb_lt. vm_compute. reflexivity.
  - vm_compute. reflexivity.
Defined.

(** C6 fails as stated: the first round reports no signature, the second
    reports one, and the corrector of the second round is still given
    the empty signature. *)
Lemma later_signature_not_taken_up :
  ~ Spec.signature_is_first_reported
      (Examples.system_events 2 "def f(x): return x or 5"
         Examples.late_signature_script).
Proof.
  intros H.
  specialize (H (firstn 3 (Examples.system_events 2 "def f(x): return x or 5"
                             Examples.late_signature_script))
                (nth 3 (Examples.system_events 2 "def f(x): return x or 5"
                          Examples.late_signature_script) Examples.no_event)
                (skipn 4 (Examples.system_events 2 "def f(x): return x or 5"
                            Examples.late_signature_script))
                "" "def f(x):").
  assert (E : "" = "def f(x):") by (apply H; vm_compute; reflexivity).
  discriminate E.
Qed.

Lemma signature_captured_in_first_round_witness :
  "" = Observed.first_round_signature
         (Examples.system_events 2 "def f(x): return x or 5"
            Examples.late_signature_script).
Proof.
  apply (signature_captured_in_first_round Examples.canned
           (Analyzer.process Examples.system_loads Examples.dumps_none
              Examples.canned Examples.analyzer_backend)
           (Corrector.process Examples.system_loads Examples.canned
              Examples.corrector_backend)
           (Writer.process Examples.system_loads Examples.literal_template
              Examples.canned Examples.writer_backend)
           2%Z "def f(x): return x or 5" Examples.late_signature_script
           (nth 3 (Examples.system_events 2 "def f(x): return x or 5"
                     Examples.late_signature_script) Examples.no_event)).
  - apply nth_In. apply Nat.ltb_lt. vm_compute. reflexivity.
  - vm_compute. reflexivity.
Defined.

(** * Further properties of the agents *)

(** ** The analyzer's issue records *)








(** ** The corrector's comparison *)

Lemma type_clash_refl t : type_clash t t = false.
Proof.
  destruct t as [x|]; [|reflexivity]. simpl.
  rewrite String.eqb_refl. now rewrite andb_false_r.
Qed.

Lemma type_clash_sym a b : type_clash a b = type_clash b a.
Proof.
  destruct a as [x|], b as [y|]; try reflexivity. simpl.
  rewrite (String.eqb_sym (remove_spaces x)).
  now rewrite (andb_comm (nonempty x)).
Qed.

Lemma corrector_check_types_refl p : forall i,
  Corrector.check_types i p p = (true, "").
Proof.
  induction p as [|[n t] p IH]; intros i; simpl; [reflexivity|].
  now rewrite type_clash_refl.
Qed.

Lemma corrector_validate_refl requirement :
  Corrector._validate_signature_preserved requirement requirement = (true, "").
Proof.
  unfold Corrector._validate_signature_preserved.
  destruct (Corrector._extract_function_signature requirement)
    as [[n p]|]; [|reflexivity].
  rewrite String.eqb_refl, Nat.eqb_refl. simpl.
  apply corrector_check_types_refl.
Qed.

(** The verdict of a position-wise check, read off the lists. *)
Lemma corrector_check_types_pass a :
  forall b k,
    fst (Corrector.check_types k a b) = true <->
    (forall i x y, nth_error a i = Some x -> nth_error b i = Some y ->
                   type_clash (snd x) (snd y) = false).
Proof.
  induction a as [|[n t] a IH]; intros b k.
  - simpl. split; [|reflexivity]. intros _ i x y H. destruct i; discriminate.
  - destruct b as [|[n' t'] b].
    + simpl. split; [|reflexivity]. intros _ i x y _ H.
      destruct i; discriminate.
    + simpl. destruct (type_clash t t') eqn:C.
      * simpl. split; [discriminate|]. intros H.
        specialize (H 0%nat (n, t) (n', t') eq_refl eq_refl). simpl in H.
        congruence.
      * rewrite IH. split.
        -- intros H i x y Hx Hy. destruct i as [|i]; simpl in Hx, Hy.
           ++ injection Hx as <-. injection Hy as <-. exact C.
           ++ eauto.
        -- intros H i x y Hx Hy. apply (H (S i)); assumption.
Qed.

Lemma writer_check_types_pass a :
  forall b k,
    fst (Writer.check_types k a b) = true <->
    (forall i x y, nth_error a i = Some x -> nth_error b i = Some y ->
                   type_clash (snd x) (snd y) = false).
Proof.
  induction a as [|[n t] a IH]; intros b k.
  - simpl. split; [|reflexivity]. intros _ i x y H. destruct i; discriminate.
  - destruct b as [|[n' t'] b].
    + simpl. split; [|reflexivity]. intros _ i x y _ H.
      destruct i; discriminate.
    + simpl. destruct (type_clash t t') eqn:C.
      * simpl. split; [discriminate|]. intros H.
        specialize (H 0%nat (n, t) (n', t') eq_refl eq_refl). simpl in H.
        congruence.
      * rewrite IH. split.
        -- intros H i x y Hx Hy. destruct i as [|i]; simpl in Hx, Hy.
           ++ injection Hx as <-. injection Hy as <-. exact C.
           ++ eauto.
        -- intros H i x y Hx Hy. apply (H (S i)); assumption.
Qed.

Lemma writer_check_types_message a :
  forall b k,
    fst (Writer.check_types k a b) = true ->
    Writer.check_types k a b = (true, "").
Proof.
  induction a as [|[n t] a IH]; intros b k; [reflexivity|].
  destruct b as [|[n' t'] b]; [reflexivity|]. simpl.
  destruct (type_clash t t'); [discriminate|]. apply IH.
Qed.

Lemma corrector_validate_pass original improved n1 p1 n2 p2 :
  _extract_function_signature original = Some (n1, p1) ->
  _extract_function_signature improved = Some (n2, p2) ->
  fst (Corrector._validate_signature_preserved original improved) = true <->
  (n1 = n2 \/ n1 = "candidate" \/ n2 = "candidate")
  /\ length p1 = length p2
  /\ (forall i x y, nth_error p1 i = Some x -> nth_error p2 i = Some y ->
                    type_clash (snd x) (snd y) = false).
Proof.
  intros H1 H2. unfold Corrector._validate_signature_preserved.
  unfold Corrector._extract_function_signature. rewrite H1, H2.
  destruct (String.eqb_spec n1 n2) as [N|N]; simpl.
  - destruct (Nat.eqb_spec (length p1) (length p2)) as [L|L]; simpl.
    + rewrite corrector_check_types_pass. intuition.
    + split; [discriminate | intuition].
  - destruct (String.eqb_spec n1 "candidate") as [C1|C1]; simpl.
    + destruct (Nat.eqb_spec (length p1) (length p2)) as [L|L]; simpl.
      * rewrite corrector_check_types_pass. intuition.
      * split; [discriminate | intuition].
    + destruct (String.eqb_spec n2 "candidate") as [C2|C2]; simpl.
      * destruct (Nat.eqb_spec (length p1) (length p2)) as [L|L]; simpl.
        -- rewrite corrector_check_types_pass. intuition.
        -- split; [discriminate | intuition].
      * split; [discriminate | intuition].
Qed.

Lemma writer_validate_pass requirement code n1 p1 n2 p2 :
  _extract_function_signature requirement = Some (n1, p1) ->
  _extract_function_signature code = Some (n2, p2) ->
  fst (Writer._validate_signature_preserved requirement code) = true <->
  length p1 = length p2
  /\ (forall i x y, nth_error p1 i = Some x -> nth_error p2 i = Some y ->
                    type_clash (snd x) (snd y) = false).
Proof.
  intros H1 H2. unfold Writer._validate_signature_preserved.
  unfold Writer._extract_function_signature. rewrite H1, H2.
  destruct (Nat.eqb_spec (length p1) (length p2)) as [L|L]; simpl.
  - rewrite writer_check_types_pass. intuition.
  - split; [discriminate | intuition].
Qed.

Lemma writer_validate_message requirement code :
  fst (Writer._validate_signature_preserved requirement code) = true ->
  Writer._validate_signature_preserved requirement code = (true, "").
Proof.
  unfold Writer._validate_signature_preserved.
  destruct (Writer._extract_function_signature requirement) as [[n1 p1]|];
    [|reflexivity].
  destruct (Writer._extract_function_signature code) as [[n2 p2]|];
    [|reflexivity].
  destruct (negb _); [discriminate|]. apply writer_check_types_message.
Qed.



(** X3. Whatever the corrector returns passes its own comparison against
    the requirement it was given: the revision was accepted, or the
    result is that requirement itself, which the comparison always
    accepts. *)
Theorem corrector_result_keeps_signature :
  forall json_loads response fallback out,
    Corrector._parse_response json_loads response fallback = Ok out ->
    fst (Corrector._validate_signature_preserved fallback
           (CorrectionOutput.improved_requirement out)) = true.
Proof.
  intros json_loads response fallback out.
  unfold Corrector._parse_response.
  destruct (json_loads _) as [data|].
  - intros H. bind_inv H. bind_inv H.
    destruct (Corrector._validate_signature_preserved fallback v0)
      as [ok msg] eqn:V.
    destruct ok; simpl in H.
    + repeat bind_inv H. injection H as <-. simpl. now rewrite V.
    + injection H as <-. simpl. now rewrite corrector_validate_refl.
  - intros H. injection H as <-. simpl. now rewrite corrector_validate_refl.
Qed.

Lemma corrector_result_keeps_signature_witness :
  fst (Corrector._validate_signature_preserved
         "def add(a: int, b: int) -> int: return the sum"
         "def add(a: int, b: int) -> int: return the sum") = true.
Proof.
  apply (corrector_result_keeps_signature Examples.corrector_loads
           Examples.shorter_header_response
           "def add(a: int, b: int) -> int: return the sum"
           (CorrectionOutput.mk
              "def add(a: int, b: int) -> int: return the sum"
              ["Signature validation failed: Parameter count changed from 2 to 1. Reverted to original."]
              [] "" "")).
  vm_compute. reflexivity.
Defined.

(** X4. When [_extract_function_signature] finds a header in both
    texts, the corrector's verdict is a function of the names and the
    parameter lists it reports: the comparison passes exactly when the
    names agree or one of them is "candidate", the two lists have the
    same length, and at no position do the two reported types clash
    (both present, not empty, and different once their spaces are
    removed). The reported parameter names play no part. *)
Theorem corrector_comparison_verdict :
  forall original improved n1 p1 n2 p2,
    _extract_function_signature original = Some (n1, p1) ->
    _extract_function_signature improved = Some (n2, p2) ->
    (fst (Corrector._validate_signature_preserved original improved) = true
     <->
     (n1 = n2 \/ n1 = "candidate" \/ n2 = "candidate")
     /\ length p1 = length p2
     /\ (forall i x y, nth_error p1 i = Some x -> nth_error p2 i = Some y ->
                       type_clash (snd x) (snd y) = false)).
Proof.
  intros. now apply corrector_validate_pass.
Qed.

Lemma corrector_comparison_verdict_witness :
  fst (Corrector._validate_signature_preserved
         "def add(a: int, b: int) -> int:"
         "def candidate(x: int, y: int = 0) -> str:") = true.
Proof.
  apply (proj2 (corrector_comparison_verdict
                  "def add(a: int, b: int) -> int:"
                  "def candidate(x: int, y: int = 0) -> str:"
                  "add" [("a", Some "int"); ("b", Some "int")]
                  "candidate" [("x", Some "int"); ("y", Some "int")]
                  eq_refl eq_refl)).
  split; [auto|]. split; [reflexivity|].
  intros [|[|i]] x y Hx Hy; simpl in Hx, Hy;
    try (injection Hx as <-; injection Hy as <-; reflexivity).
  destruct i; discriminate.
Defined.

(** X5. The verdict of either comparison does not depend on which text
    is taken as the original: swapping the two sides gives the same
    verdict (the message may name the sides differently). *)
Theorem comparison_verdict_symmetric :
  forall a b,
    fst (Corrector._validate_signature_preserved a b)
    = fst (Corrector._validate_signature_preserved b a)
    /\ fst (Writer._validate_signature_preserved a b)
       = fst (Writer._validate_signature_preserved b a).
Proof.
  intros a b.
  assert (S : forall p q : list param,
             (forall i x y, nth_error p i = Some x -> nth_error q i = Some y ->
                            type_clash (snd x) (snd y) = false) ->
             (forall i x y, nth_error q i = Some x -> nth_error p i = Some y ->
                            type_clash (snd x) (snd y) = false)).
  { intros p q H i x y Hx Hy. rewrite type_clash_sym. eauto. }
  destruct (_extract_function_signature a) as [[n1 p1]|] eqn:Ha;
    destruct (_extract_function_signature b) as [[n2 p2]|] eqn:Hb.
  - split; apply eq_true_iff_eq.
    + rewrite (corrector_validate_pass _ _ _ _ _ _ Ha Hb).
      rewrite (corrector_validate_pass _ _ _ _ _ _ Hb Ha).
      intuition eauto.
    + rewrite (writer_validate_pass _ _ _ _ _ _ Ha Hb).
      rewrite (writer_validate_pass _ _ _ _ _ _ Hb Ha).
      intuition eauto.
  - rewrite (corrector_passes_unparsed a b), (corrector_passes_unparsed b a),
      (writer_passes_unparsed a b), (writer_passes_unparsed b a); auto.
  - rewrite (corrector_passes_unparsed a b), (corrector_passes_unparsed b a),
      (writer_passes_unparsed a b), (writer_passes_unparsed b a); auto.
  - rewrite (corrector_passes_unparsed a b), (corrector_passes_unparsed b a),
      (writer_passes_unparsed a b), (writer_passes_unparsed b a); auto.
Qed.

(** X6. The writer's comparison is the weaker of the two: a pair of
    texts the corrector's comparison passes is passed by the writer's
    too. *)
Theorem corrector_pass_implies_writer_pass :
  forall a b,
    fst (Corrector._validate_signature_preserved a b) = true ->
    Writer._validate_signature_preserved a b = (true, "").
Proof.
  intros a b H. apply writer_validate_message.
  destruct (_extract_function_signature a) as [[n1 p1]|] eqn:Ha;
    destruct (_extract_function_signature b) as [[n2 p2]|] eqn:Hb.
  - apply (corrector_validate_pass _ _ _ _ _ _ Ha Hb) in H.
    apply (writer_validate_pass _ _ _ _ _ _ Ha Hb). tauto.
  - rewrite writer_passes_unparsed; auto.
  - rewrite writer_passes_unparsed; auto.
  - rewrite writer_passes_unparsed; auto.
Qed.

Lemma corrector_pass_implies_writer_pass_witness :
  Writer._validate_signature_preserved
    "def add(a: int, b: int) -> int:"
    "def candidate(x: int, y: int = 0) -> str:"
  = (true, "").
Proof.
  apply (corrector_pass_implies_writer_pass
           "def add(a: int, b: int) -> int:"
           "def candidate(x: int, y: int = 0) -> str:").
  vm_compute. reflexivity.
Defined.

(** ** The round loop, call by call *)

Lemma set_last_correction_app correction history r :
  Orchestrator.set_last_correction correction (history ++ [r])
  = (history ++
     [ Round.mk (Round.iteration r) (Round.decision r) (Round.issues r)
         (Round.normalized_requirement r) (Round.analyzer_raw_json r)
         (Round.original_function_signature r)
         (Some (CorrectionOutput.applied_fixes correction,
                CorrectionOutput.open_questions correction))
         (Some (CorrectionOutput.raw_json correction))
         (Some (CorrectionOutput.original_function_signature correction)) ])%list.
Proof.
  induction history as [|x h IH]; [reflexivity|].
  change ((x :: h) ++ [r])%list with (x :: (h ++ [r]))%list.
  destruct (h ++ [r])%list as [|y t] eqn:E.
  - destruct h; discriminate.
  - change (Orchestrator.set_last_correction correction (x :: y :: t))
      with (x :: Orchestrator.set_last_correction correction (y :: t)).
    rewrite IH. reflexivity.
Qed.

Lemma iterations_cons max_iterations :
  (1 <= max_iterations)%Z ->
  Orchestrator.iterations max_iterations
  = 1%Z :: map Z.of_nat (seq 2 (Z.to_nat max_iterations - 1)).
Proof.
  intros H. unfold Orchestrator.iterations.
  destruct (Z.to_nat max_iterations) as [|n] eqn:N; [lia|].
  simpl. now rewrite Nat.sub_0_r.
Qed.

Lemma iterations_nil max_iterations :
  (max_iterations <= 0)%Z -> Orchestrator.iterations max_iterations = [].
Proof.
  intros H. unfold Orchestrator.iterations.
  replace (Z.to_nat max_iterations) with 0%nat by lia. reflexivity.
Qed.

Section OrchestratorCalls.

Variable B : Type.
Variable analyzer :
  string -> list Round.t -> B -> result AnalyzerOutput.t * B.
Variable corrector :
  string -> list RequirementIssue.t -> string -> B
  -> result CorrectionOutput.t * B.
Variable writer :
  string -> AnalyzerOutput.t -> string -> B
  -> result CodeGenerationOutput.t * B.

Let rounds := Orchestrator.rounds B analyzer corrector.
Let run := Orchestrator.run B analyzer corrector writer.
Let rounds_events := Observed.rounds_events B analyzer corrector.
Let events := Observed.events B analyzer corrector writer.
Let start (requirement : string) := Orchestrator.mk_locals [] requirement None 0 "".

(** What a loop that ends normally has counted. *)
Lemma rounds_tally todo :
  forall st b st' b',
    rounds todo st b = (Ok st', b') ->
    let log := rounds_events todo st b in
    let analyses := length (filter Observed.is_analyzed log) in
    let corrections := length (filter Observed.is_corrected log) in
    Orchestrator.correction_count st'
    = (Orchestrator.correction_count st + Z.of_nat corrections)%Z
    /\ length (Orchestrator.history st')
       = (length (Orchestrator.history st) + analyses)%nat
    /\ length (filter Terms.has_correction (Orchestrator.history st'))
       = (length (filter Terms.has_correction (Orchestrator.history st))
          + corrections)%nat
    /\ (analyses = corrections \/ analyses = S corrections).
Proof.
  induction todo as [|iteration later IH]; intros st b st' b' H.
  - unfold rounds in H. simpl in H. injection H as <- <-. simpl.
    repeat split; try lia; auto.
  - unfold rounds in H. rewrite rounds_step in H. unfold rounds_events. simpl.
    destruct (analyzer _ _ b) as [[snapshot|e] b1]; [|discriminate].
    cbv zeta in H.
    destruct (Orchestrator.has_issues snapshot).
    + destruct (corrector _ _ _ b1) as [[correction|e] b2]; [|discriminate].
      rewrite set_last_correction_app in H. rewrite set_last_correction_app.
      apply IH in H. cbv zeta in H. simpl in H.
      rewrite !filter_app, !length_app in H. simpl in H.
      fold rounds_events in H. fold rounds_events. simpl.
      destruct H as (H1 & H2 & H3 & H4).
      repeat split; try lia.
    + injection H as <- <-. simpl.
      rewrite !filter_app, !length_app. simpl.
      repeat split; try lia; auto.
Qed.

Lemma writer_events_tally r :
  filter Observed.is_analyzed (Observed.writer_events B writer r) = []
  /\ filter Observed.is_corrected (Observed.writer_events B writer r) = [].
Proof.
  unfold Observed.writer_events. destruct r as [[st|e] b1]; [|auto].
  destruct (Orchestrator.analyzer_snapshot st); auto.
Qed.

(** X7. In the result of a run, [correction_iterations] is the number of
    calls made to the corrector and also the number of trace records
    that carry a correction; the trace has one record for each call made
    to the analyzer; and the corrector was called as often as the
    analyzer, or once less. *)
Theorem run_counts_calls :
  forall max_iterations requirement b out b',
    run max_iterations requirement b = (Ok out, b') ->
    let log := events max_iterations requirement b in
    let analyses := length (filter Observed.is_analyzed log) in
    let corrections := length (filter Observed.is_corrected log) in
    CodeGenerationOutput.correction_iterations out = Z.of_nat corrections
    /\ length (CodeGenerationOutput.trace out) = analyses
    /\ length (filter Terms.has_correction (CodeGenerationOutput.trace out))
       = corrections
    /\ (analyses = corrections \/ analyses = S corrections).
Proof.
  intros max_iterations requirement b out b' H.
  destruct (run_inv _ _ _ _ _ _ _ _ _ H) as (st & b1 & snapshot & output
                                            & Hr & Hs & _ & ->).
  cbv zeta. simpl.
  unfold events. rewrite events_unfold.
  rewrite !filter_app, !length_app.
  destruct (writer_events_tally
              (Orchestrator.rounds B analyzer corrector
                 (Orchestrator.iterations max_iterations)
                 (Orchestrator.mk_locals [] requirement None 0 "") b))
    as [Wa Wc].
  rewrite Wa, Wc. simpl. rewrite !Nat.add_0_r.
  destruct (rounds_tally _ _ _ _ _ Hr) as (H1 & H2 & H3 & H4).
  simpl in H1, H2, H3. auto.
Qed.

(** X8. With a budget below one, a run calls no agent at all and raises
    [AssertionError]: the assertion that the analyzer ran at least once
    fails. *)
Theorem run_without_budget_fails :
  forall max_iterations requirement b,
    (max_iterations <= 0)%Z ->
    run max_iterations requirement b = (Raise AssertionError, b)
    /\ events max_iterations requirement b = [].
Proof.
  intros max_iterations requirement b H. split.
  - unfold run, Orchestrator.run. now rewrite (iterations_nil _ H).
  - unfold events. rewrite events_unfold. now rewrite (iterations_nil _ H).
Qed.

(** X9. When the first analysis reports no issue, the run makes exactly
    two calls, that analysis and the writer: the corrector is not
    called, the trace is the one record of round 1, and
    [correction_iterations] is 0. The writer is given the requirement
    [run] was called with (the analysis's normalized one if that is
    empty). *)
Theorem run_ready_at_first_round :
  forall max_iterations requirement b snapshot b1,
    (1 <= max_iterations)%Z ->
    analyzer requirement [] b = (Ok snapshot, b1) ->
    AnalyzerOutput.issues snapshot = [] ->
    let given :=
      if nonempty requirement then requirement
      else AnalyzerOutput.normalized_requirement snapshot in
    let signature := AnalyzerOutput.original_function_signature snapshot in
    events max_iterations requirement b
    = [ Observed.Analyzed requirement [] (Ok snapshot);
        Observed.Written given signature
          (fst (writer given snapshot signature b1)) ]
    /\ (forall output b2,
          writer given snapshot signature b1 = (Ok output, b2) ->
          run max_iterations requirement b
          = (Ok (CodeGenerationOutput.mk
                   (CodeGenerationOutput.finalized_requirement output)
                   (CodeGenerationOutput.code output)
                   (CodeGenerationOutput.tests output)
                   (CodeGenerationOutput.assumptions output)
                   [ Round.mk 1 (AnalyzerOutput.decision snapshot) []
                       (AnalyzerOutput.normalized_requirement snapshot)
                       (AnalyzerOutput.raw_json snapshot)
                       (AnalyzerOutput.original_function_signature snapshot)
                       None None None ]
                   0),
             b2)).
Proof.
  intros max_iterations requirement b snapshot b1 Hm Ha Hi given signature.
  assert (G : (if nonempty (AnalyzerOutput.original_function_signature snapshot)
               then AnalyzerOutput.original_function_signature snapshot
               else "")
              = signature).
  { unfold signature.
    destruct (nonempty (AnalyzerOutput.original_function_signature snapshot))
      eqn:Q; [reflexivity|].
    symmetry. now apply empty_when_not_nonempty. }
  assert (R : rounds (Orchestrator.iterations max_iterations)
                (start requirement) b
              = (Ok (Orchestrator.mk_locals
                       [ Round.mk 1 (AnalyzerOutput.decision snapshot) []
                           (AnalyzerOutput.normalized_requirement snapshot)
                           (AnalyzerOutput.raw_json snapshot)
                           (AnalyzerOutput.original_function_signature snapshot)
                           None None None ]
                       requirement (Some snapshot) 0 signature),
                 b1)).
  { unfold rounds. rewrite (iterations_cons _ Hm), rounds_step. simpl.
    rewrite Ha.
    unfold Orchestrator.has_issues. rewrite Hi. simpl. now rewrite G. }
  split.
  - unfold events. rewrite events_unfold. fold rounds. fold (start requirement).
    rewrite R. rewrite (iterations_cons _ Hm).
    unfold Observed.rounds_events, start. simpl. rewrite Ha.
    unfold Orchestrator.has_issues. rewrite Hi. reflexivity.
  - intros output b2 W. unfold run, Orchestrator.run.
    fold rounds. fold (start requirement). rewrite R. simpl.
    unfold Orchestrator.final_requirement. simpl.
    fold given. rewrite W. reflexivity.
Qed.

End OrchestratorCalls.

Section OrchestratorOrder.

Variable B : Type.
Variable analyzer :
  string -> list Round.t -> B -> result AnalyzerOutput.t * B.
Variable corrector :
  string -> list RequirementIssue.t -> string -> B
  -> result CorrectionOutput.t * B.
Variable writer :
  string -> AnalyzerOutput.t -> string -> B
  -> result CodeGenerationOutput.t * B.

Let rounds := Orchestrator.rounds B analyzer corrector.
Let run := Orchestrator.run B analyzer corrector writer.
Let rounds_events := Observed.rounds_events B analyzer corrector.
Let events := Observed.events B analyzer corrector writer.
Let start (requirement : string) := Orchestrator.mk_locals [] requirement None 0 "".

(** The events of one round, by the answers of its two agents. *)
Lemma rounds_events_step iteration later st b :
  rounds_events (iteration :: later) st b
  = let requirement := Orchestrator.current_requirement st in
    let history := Orchestrator.history st in
    match analyzer requirement history b with
    | (Raise e, _) => [Observed.Analyzed requirement history (Raise e)]
    | (Ok snapshot, b1) =>
        let signature :=
          if Z.eqb iteration 1
             && nonempty (AnalyzerOutput.original_function_signature snapshot)
          then AnalyzerOutput.original_function_signature snapshot
          else Orchestrator.original_function_signature st in
        let history' :=
          (history ++
           [ Round.mk iteration (AnalyzerOutput.decision snapshot)
               (map RequirementIssue.as_dict (AnalyzerOutput.issues snapshot))
               (AnalyzerOutput.normalized_requirement snapshot)
               (AnalyzerOutput.raw_json snapshot)
               (AnalyzerOutput.original_function_signature snapshot)
               None None None ])%list in
        Observed.Analyzed requirement history (Ok snapshot) ::
        (if Orchestrator.has_issues snapshot then
           match corrector (AnalyzerOutput.normalized_requirement snapshot)
                   (AnalyzerOutput.issues snapshot) signature b1 with
           | (Raise e, _) =>
               [Observed.Corrected
                  (AnalyzerOutput.normalized_requirement snapshot)
                  (AnalyzerOutput.issues snapshot) signature (Raise e)]
           | (Ok correction, b2) =>
               Observed.Corrected
                 (AnalyzerOutput.normalized_requirement snapshot)
                 (AnalyzerOutput.issues snapshot) signature (Ok correction)
               :: rounds_events later
                    (Orchestrator.mk_locals
                       (Orchestrator.set_last_correction correction history')
                       (CorrectionOutput.improved_requirement correction)
                       (Some snapshot)
                       (Orchestrator.correction_count st + 1) signature)
                    b2
           end
         else [])
    end.
Proof. reflexivity. Qed.

Lemma rounds_events_head todo st b e :
  nth_error (rounds_events todo st b) 0 = Some e ->
  exists out,
    e = Observed.Analyzed (Orchestrator.current_requirement st)
          (Orchestrator.history st) out.
Proof.
  destruct todo as [|iteration later]; [discriminate|].
  rewrite rounds_events_step. cbv zeta.
  destruct (analyzer _ _ b) as [[snapshot|x] b1]; simpl;
    intros H; injection H as <-; eauto.
Qed.

Lemma rounds_events_corrected todo :
  forall st b i requirement issues signature out,
    nth_error (rounds_events todo st b) i
    = Some (Observed.Corrected requirement issues signature out) ->
    exists j given history analysis,
      i = S j
      /\ nth_error (rounds_events todo st b) j
         = Some (Observed.Analyzed given history (Ok analysis))
      /\ requirement = AnalyzerOutput.normalized_requirement analysis
      /\ issues = AnalyzerOutput.issues analysis
      /\ issues <> [].
Proof.
  induction todo as [|iteration later IH];
    intros st b i requirement issues signature out H.
  - destruct i; discriminate.
  - rewrite rounds_events_step in *. cbv zeta in *.
    destruct (analyzer _ _ b) as [[snapshot|x] b1].
    + destruct i as [|[|i]]; simpl in H; [discriminate| |].
      * unfold Orchestrator.has_issues in *.
        destruct (AnalyzerOutput.issues snapshot) as [|i0 rest] eqn:I;
          [discriminate|].
        exists 0%nat. do 3 eexists. split; [reflexivity|].
        split; [reflexivity|].
        destruct (corrector _ _ _ b1) as [[correction|x] b2];
          simpl in H; injection H as <- <- _ _; rewrite I;
          repeat split; discriminate.
      * destruct (Orchestrator.has_issues snapshot); [|destruct i; discriminate].
        destruct (corrector _ _ _ b1) as [[correction|x] b2];
          [|destruct i; discriminate].
        simpl in H. apply IH in H.
        destruct H as (j & given & history & analysis & -> & Hj & Hrest).
        exists (S (S j)), given, history, analysis. auto.
    + destruct i as [|i]; simpl in H; [discriminate|destruct i; discriminate].
Qed.

Lemma rounds_events_next todo :
  forall st b i requirement issues signature correction given history out,
    nth_error (rounds_events todo st b) i
    = Some (Observed.Corrected requirement issues signature (Ok correction)) ->
    nth_error (rounds_events todo st b) (S i)
    = Some (Observed.Analyzed given history out) ->
    given = CorrectionOutput.improved_requirement correction.
Proof.
  induction todo as [|iteration later IH];
    intros st b i requirement issues signature correction given history out
      H1 H2.
  - destruct i; discriminate.
  - rewrite rounds_events_step in *. cbv zeta in *.
    destruct (analyzer _ _ b) as [[snapshot|x] b1].
    + destruct i as [|[|i]]; simpl in H1, H2; [discriminate| |].
      * destruct (Orchestrator.has_issues snapshot); [|discriminate].
        destruct (corrector _ _ _ b1) as [[c|x] b2]; simpl in H1, H2.
        -- injection H1 as _ _ _ <-.
           apply rounds_events_head in H2. destruct H2 as (o & E).
           now injection E as -> _ _.
        -- discriminate.
      * destruct (Orchestrator.has_issues snapshot);
          [|destruct i; discriminate].
        destruct (corrector _ _ _ b1) as [[c|x] b2];
          [|destruct i; discriminate].
        simpl in H1, H2. eapply IH; eassumption.
    + destruct i as [|i]; simpl in H1; [discriminate|destruct i; discriminate].
Qed.

Lemma rounds_events_raise todo :
  forall st b i e x,
    nth_error (rounds_events todo st b) i = Some e ->
    Terms.raised e = Some x ->
    fst (rounds todo st b) = Raise x
    /\ length (rounds_events todo st b) = S i.
Proof.
  induction todo as [|iteration later IH]; intros st b i e x H R.
  - destruct i; discriminate.
  - unfold rounds. rewrite rounds_step. rewrite rounds_events_step in *.
    cbv zeta in *.
    destruct (analyzer _ _ b) as [[snapshot|y] b1].
    + destruct i as [|[|i]]; simpl in H.
      * injection H as <-. discriminate.
      * destruct (Orchestrator.has_issues snapshot); [|discriminate].
        destruct (corrector _ _ _ b1) as [[c|y] b2]; simpl in H;
          injection H as <-; simpl in R; [discriminate|].
        injection R as <-. auto.
      * destruct (Orchestrator.has_issues snapshot);
          [|destruct i; discriminate].
        destruct (corrector _ _ _ b1) as [[c|y] b2];
          [|destruct i; discriminate].
        simpl in H. destruct (IH _ _ _ _ _ H R) as [F L].
        split; [exact F|]. simpl. now rewrite L.
    + destruct i as [|i]; simpl in H; [|destruct i; discriminate].
      injection H as <-. simpl in R. injection R as <-. auto.
Qed.

Lemma rounds_events_ok todo :
  forall st b st' b' i e,
    rounds todo st b = (Ok st', b') ->
    nth_error (rounds_events todo st b) i = Some e ->
    Terms.raised e = None.
Proof.
  intros st b st' b' i e H N.
  destruct (Terms.raised e) as [x|] eqn:R; [|reflexivity].
  destruct (rounds_events_raise _ _ _ _ _ _ N R) as [F _].
  rewrite H in F. discriminate.
Qed.

(** Every analysis of the loop sees the records of the rounds before
    it: its position in the log is twice the number of those rounds. *)
Lemma rounds_events_history todo :
  forall st b i given history out,
    nth_error (rounds_events todo st b) i
    = Some (Observed.Analyzed given history out) ->
    exists k,
      i = (2 * k)%nat
      /\ (k < length todo)%nat
      /\ map Round.iteration history
         = (map Round.iteration (Orchestrator.history st) ++ firstn k todo)%list.
Proof.
  induction todo as [|iteration later IH]; intros st b i given history out H.
  - destruct i; discriminate.
  - rewrite rounds_events_step in H. cbv zeta in H.
    destruct (analyzer _ _ b) as [[snapshot|x] b1].
    + destruct i as [|[|i]]; simpl in H.
      * injection H as _ <- _. exists 0%nat. simpl.
        rewrite app_nil_r. repeat split; lia.
      * destruct (Orchestrator.has_issues snapshot); [|discriminate].
        destruct (corrector _ _ _ b1) as [[c|x] b2]; discriminate.
      * destruct (Orchestrator.has_issues snapshot);
          [|destruct i; discriminate].
        destruct (corrector _ _ _ b1) as [[c|x] b2];
          [|destruct i; discriminate].
        simpl in H. apply IH in H. destruct H as (k & -> & Hk & Hh).
        simpl in Hh.
        rewrite set_last_correction_iterations, map_app in Hh. simpl in Hh.
        exists (S k). split; [lia|]. split; [simpl; lia|].
        rewrite Hh, <- app_assoc. reflexivity.
    + destruct i as [|i]; simpl in H; [|destruct i; discriminate].
      injection H as _ <- _. exists 0%nat. simpl.
      rewrite app_nil_r. repeat split; lia.
Qed.

End OrchestratorOrder.

Lemma nth_error_app_cases {A : Type} (l1 l2 : list A) i e :
  nth_error (l1 ++ l2) i = Some e ->
  nth_error l1 i = Some e
  \/ ((length l1 <= i)%nat /\ nth_error l2 (i - length l1) = Some e).
Proof.
  intros H. destruct (Nat.lt_ge_cases i (length l1)) as [L|L].
  - left. now rewrite nth_error_app1 in H.
  - right. now rewrite nth_error_app2 in H.
Qed.

Lemma nth_error_app_left {A : Type} (l1 l2 : list A) i e :
  nth_error l1 i = Some e -> nth_error (l1 ++ l2) i = Some e.
Proof.
  intros H. rewrite nth_error_app1; [exact H|].
  apply nth_error_Some. congruence.
Qed.

Section OrchestratorRun.

Variable B : Type.
Variable analyzer :
  string -> list Round.t -> B -> result AnalyzerOutput.t * B.
Variable corrector :
  string -> list RequirementIssue.t -> string -> B
  -> result CorrectionOutput.t * B.
Variable writer :
  string -> AnalyzerOutput.t -> string -> B
  -> result CodeGenerationOutput.t * B.

Let rounds := Orchestrator.rounds B analyzer corrector.
Let run := Orchestrator.run B analyzer corrector writer.
Let rounds_events := Observed.rounds_events B analyzer corrector.
Let events := Observed.events B analyzer corrector writer.
Let start (requirement : string) := Orchestrator.mk_locals [] requirement None 0 "".

(** An event of a run that is not the writer's is an event of the loop. *)
Lemma events_of_loop max_iterations requirement b i e :
  nth_error (events max_iterations requirement b) i = Some e ->
  Observed.is_written e = false ->
  nth_error (rounds_events (Orchestrator.iterations max_iterations)
               (start requirement) b) i = Some e.
Proof.
  unfold events. rewrite events_unfold. intros H W.
  apply nth_error_app_cases in H. destruct H as [H|[_ H]]; [exact H|].
  unfold Observed.writer_events in H.
  destruct (Orchestrator.rounds _ _ _ _ _ _) as [[st|x] b1];
    [|destruct (i - _)%nat; discriminate].
  destruct (Orchestrator.analyzer_snapshot st);
    [|destruct (i - _)%nat; discriminate].
  destruct (i - _)%nat as [|n]; [|destruct n; discriminate].
  injection H as <-. discriminate.
Qed.

(** X10. The corrector is only called right after an analysis that
    returned issues, and it is given that analysis's normalized
    requirement and its issue list, which is never empty. *)
Theorem corrector_follows_analysis_with_issues :
  forall max_iterations requirement b i given issues signature out,
    nth_error (events max_iterations requirement b) i
    = Some (Observed.Corrected given issues signature out) ->
    exists j analyzed history analysis,
      i = S j
      /\ nth_error (events max_iterations requirement b) j
         = Some (Observed.Analyzed analyzed history (Ok analysis))
      /\ given = AnalyzerOutput.normalized_requirement analysis
      /\ issues = AnalyzerOutput.issues analysis
      /\ issues <> [].
Proof.
  intros max_iterations requirement b i given issues signature out H.
  apply events_of_loop in H; [|reflexivity].
  apply rounds_events_corrected in H.
  destruct H as (j & analyzed & history & analysis & -> & Hj & Hrest).
  exists j, analyzed, history, analysis. split; [reflexivity|].
  split; [|exact Hrest].
  unfold events. rewrite events_unfold. now apply nth_error_app_left.
Qed.

(** X11. The first analysis of a run is given the requirement [run] was
    called with, and an analysis that follows a correction is given that
    correction's improved requirement: a revision the corrector reverted
    sends the requirement it was given back to the analyzer. *)
Theorem analysis_follows_correction :
  forall max_iterations requirement b,
    (forall given history out,
       nth_error (events max_iterations requirement b) 0
       = Some (Observed.Analyzed given history out) ->
       given = requirement /\ history = [])
    /\
    (forall i corrected issues signature correction given history out,
       nth_error (events max_iterations requirement b) i
       = Some (Observed.Corrected corrected issues signature (Ok correction)) ->
       nth_error (events max_iterations requirement b) (S i)
       = Some (Observed.Analyzed given history out) ->
       given = CorrectionOutput.improved_requirement correction).
Proof.
  intros max_iterations requirement b. split.
  - intros given history out H.
    apply events_of_loop in H; [|reflexivity].
    apply rounds_events_head in H. destruct H as (o & E).
    now injection E as -> -> _.
  - intros i corrected issues signature correction given history out H1 H2.
    apply events_of_loop in H1; [|reflexivity].
    apply events_of_loop in H2; [|reflexivity].
    eapply rounds_events_next; eassumption.
Qed.

(** X12. The analysis of round k+1 is given the history of the rounds 1
    to k, one record each, and it is the event number 2k of the run:
    every round before it made two calls. *)
Theorem analysis_sees_earlier_rounds :
  forall max_iterations requirement b i given history out,
    nth_error (events max_iterations requirement b) i
    = Some (Observed.Analyzed given history out) ->
    exists k,
      i = (2 * k)%nat
      /\ (Z.of_nat k < max_iterations)%Z
      /\ map Round.iteration history = Orchestrator.iterations (Z.of_nat k).
Proof.
  intros max_iterations requirement b i given history out H.
  apply events_of_loop in H; [|reflexivity].
  apply rounds_events_history in H. destruct H as (k & -> & Hk & Hh).
  exists k. split; [reflexivity|].
  rewrite iterations_length in Hk. split; [lia|].
  simpl in Hh. rewrite Hh. apply iterations_firstn.
  rewrite iterations_length. lia.
Qed.

(** X13. An exception raised by an agent ends the run: the event that
    shows it is the last one, no further call is made, and the run
    raises that exception. *)
Theorem agent_exception_ends_run :
  forall max_iterations requirement b i e x,
    nth_error (events max_iterations requirement b) i = Some e ->
    Terms.raised e = Some x ->
    fst (run max_iterations requirement b) = Raise x
    /\ length (events max_iterations requirement b) = S i.
Proof.
  intros max_iterations requirement b i e x H R.
  unfold events in *. rewrite events_unfold in *.
  unfold run, Orchestrator.run.
  apply nth_error_app_cases in H. destruct H as [H|[L H]].
  - destruct (rounds_events_raise _ _ _ _ _ _ _ _ _ H R) as [F Len].
    destruct (Orchestrator.rounds _ _ _ _ _ _) as [[st|y] b1]; simpl in F;
      [discriminate|].
    injection F as ->. simpl. rewrite length_app, Len. simpl.
    split; [reflexivity | lia].
  - unfold Observed.writer_events in *.
    destruct (Orchestrator.rounds _ _ _ _ _ _) as [[st|y] b1];
      [|destruct (i - _)%nat; discriminate].
    destruct (Orchestrator.analyzer_snapshot st) as [snapshot|];
      [|destruct (i - _)%nat; discriminate].
    destruct (i - _)%nat as [|n] eqn:D; [|destruct n; discriminate].
    injection H as <-. simpl in R.
    destruct (writer _ snapshot _ b1) as [[output|y] b2]; simpl in R;
      [discriminate|].
    injection R as ->. simpl. rewrite length_app. simpl.
    split; [reflexivity | lia].
Qed.

End OrchestratorRun.

Section OrchestratorExit.

Variable B : Type.
Variable analyzer :
  string -> list Round.t -> B -> result AnalyzerOutput.t * B.
Variable corrector :
  string -> list RequirementIssue.t -> string -> B
  -> result CorrectionOutput.t * B.
Variable writer :
  string -> AnalyzerOutput.t -> string -> B
  -> result CodeGenerationOutput.t * B.

Let rounds := Orchestrator.rounds B analyzer corrector.
Let run := Orchestrator.run B analyzer corrector writer.

Lemma rounds_exit todo :
  forall st b st' b',
    todo <> [] ->
    Forall (fun r => Terms.has_correction r = true) (Orchestrator.history st) ->
    rounds todo st b = (Ok st', b') ->
    exists earlier final,
      Orchestrator.history st' = (earlier ++ [final])%list
      /\ Forall (fun r => Terms.has_correction r = true) earlier
      /\ ((Round.issues final = [] /\ Round.correction final = None)
          \/ (Round.correction final <> None
              /\ length (Orchestrator.history st')
                 = (length (Orchestrator.history st) + length todo)%nat)).
Proof.
  induction todo as [|iteration later IH]; intros st b st' b' N F H;
    [congruence|].
  unfold rounds in H. rewrite rounds_step in H.
  destruct (analyzer _ _ b) as [[snapshot|e] b1]; [|discriminate].
  cbv zeta in H. unfold Orchestrator.has_issues in H.
  destruct (AnalyzerOutput.issues snapshot) as [|i0 rest] eqn:I.
  - injection H as <- <-. simpl. do 2 eexists.
    split; [reflexivity|]. split; [exact F|]. left. auto.
  - destruct (corrector _ _ _ b1) as [[correction|e] b2]; [|discriminate].
    rewrite set_last_correction_app in H.
    destruct later as [|next later'].
    + simpl in H. injection H as <- <-. simpl. do 2 eexists.
      split; [reflexivity|]. split; [exact F|]. right.
      split; [discriminate|]. rewrite length_app. simpl. lia.
    + apply IH in H; [|discriminate|].
      * destruct H as (earlier & final & Hh & Fe & Hc).
        exists earlier, final. split; [exact Hh|]. split; [exact Fe|].
        destruct Hc as [Hc|[Hc Hl]]; [left; exact Hc|right].
        split; [exact Hc|]. rewrite Hl. simpl.
        rewrite length_app. simpl. lia.
      * simpl. apply Forall_app. split; [exact F|].
        constructor; [reflexivity|constructor].
Qed.

(** X14. The trace of a run that returns is not empty, and all its
    records but the last carry a correction. The last record either has
    no issue and no correction, the loop having stopped at that
    analysis, or it carries a correction and is record number
    [max_iterations], the budget being spent. *)
Theorem run_trace_ending :
  forall max_iterations requirement b out b',
    run max_iterations requirement b = (Ok out, b') ->
    exists earlier final,
      CodeGenerationOutput.trace out = (earlier ++ [final])%list
      /\ Forall (fun r => Terms.has_correction r = true) earlier
      /\ ((Round.issues final = [] /\ Round.correction final = None)
          \/ (Round.correction final <> None
              /\ Z.of_nat (length (CodeGenerationOutput.trace out))
                 = max_iterations)).
Proof.
  intros max_iterations requirement b out b' H.
  destruct (run_inv _ _ _ _ _ _ _ _ _ H) as (st & b1 & snapshot & output
                                              & Hr & Hs & _ & ->).
  simpl.
  assert (P : (1 <= max_iterations)%Z).
  { destruct (Z_le_gt_dec 1 max_iterations) as [L|L]; [exact L|].
    rewrite iterations_nil in Hr by lia. simpl in Hr.
    injection Hr as <- <-. discriminate. }
  apply rounds_exit in Hr.
  - destruct Hr as (earlier & final & Hh & Fe & Hc).
    exists earlier, final. split; [exact Hh|]. split; [exact Fe|].
    destruct Hc as [Hc|[Hc Hl]]; [left; exact Hc|right].
    split; [exact Hc|]. rewrite Hl, iterations_length. simpl. lia.
  - rewrite (iterations_cons _ P). discriminate.
  - constructor.
Qed.

End OrchestratorExit.

(** ** The caller that retries *)

Lemma is_valid_code_has_def code :
  fst (CodeGeneration.is_valid_code code) = true ->
  contains "def " code = true /\ code <> "".
Proof.
  unfold CodeGeneration.is_valid_code.
  destruct code as [|c code']; [discriminate|]. simpl negb. simpl orb.
  destruct (String.eqb _ ""); [discriminate|].
  destruct (CodeGeneration.first_tag_in _ _); [discriminate|].
  destruct (startswith "{" _ && contains CodeGeneration.quoted_code _)%bool;
    [discriminate|].
  destruct (contains "def " (String c code')); [|discriminate].
  intros _. split; [reflexivity | discriminate].
Qed.

Section Retry.

Variable B : Type.
Variable generate : B -> result CodeGenerationOutput.t * B.

Let attempts := CodeGeneration.attempts (B * nat) (CodeGeneration.counted generate).

Lemma attempts_result max_retries todo :
  forall w code n w',
    attempts max_retries todo w = ((code, n), w') ->
    (fst (CodeGeneration.is_valid_code code) = true \/ (code = "" /\ n = 0%Z))
    /\ (snd w <= snd w' <= snd w + length todo)%nat.
Proof.
  unfold attempts.
  induction todo as [|attempt later IH]; intros w code n w' H; simpl in H.
  - injection H as <- <- <-. split; [auto | lia].
  - unfold CodeGeneration.counted at 1 in H.
    destruct (generate (fst w)) as [[result|e] b1].
    + destruct (fst (CodeGeneration.is_valid_code (CodeGenerationOutput.code result)))
        eqn:V.
      * injection H as <- <- <-. simpl. split; [auto | lia].
      * destruct (attempt <? max_retries)%Z.
        -- apply IH in H. simpl in H. simpl. split; [tauto | lia].
        -- injection H as <- <- <-. simpl. split; [auto | lia].
    + destruct (attempt <? max_retries)%Z.
      * apply IH in H. simpl in H. simpl. split; [tauto | lia].
      * injection H as <- <- <-. simpl. split; [auto | lia].
Qed.

(** When no attempt yields valid code, every attempt of the range is
    made. *)
Lemma attempts_exhausted max_retries n :
  (forall b result b',
     generate b = (Ok result, b') ->
     fst (CodeGeneration.is_valid_code (CodeGenerationOutput.code result))
     = false) ->
  forall s w,
    (Z.of_nat (s + n) = max_retries + 1)%Z ->
    exists b',
      attempts max_retries (map Z.of_nat (seq s n)) w
      = (("", 0%Z), (b', (snd w + n)%nat)).
Proof.
  intros Never. unfold attempts.
  induction n as [|n IH]; intros s w E; simpl.
  - exists (fst w). destruct w as [b0 k]. simpl. now rewrite Nat.add_0_r.
  - unfold CodeGeneration.counted at 1.
    destruct (generate (fst w)) as [[result|e] b1] eqn:G.
    + rewrite (Never _ _ _ G).
      destruct (Z.ltb_spec (Z.of_nat s) max_retries) as [L|L].
      * destruct (IH (S s) (b1, S (snd w))) as (bf & I); [lia|].
        exists bf. rewrite I. simpl. do 2 f_equal. lia.
      * assert (n = 0%nat) by lia. subst n.
        exists b1. do 2 f_equal. lia.
    + destruct (Z.ltb_spec (Z.of_nat s) max_retries) as [L|L].
      * destruct (IH (S s) (b1, S (snd w))) as (bf & I); [lia|].
        exists bf. rewrite I. simpl. do 2 f_equal. lia.
      * assert (n = 0%nat) by lia. subst n.
        exists b1. do 2 f_equal. lia.
Qed.

(** X15. [generate_code_with_codegen] treats a run that raises as a
    failed attempt. It returns code that passes [is_valid_code], which
    contains a function definition, or the empty code with a correction
    count of 0, after at most [max_retries] calls of the generator. When
    no call yields valid code, an empty code from the writer included,
    it makes all [max_retries] calls before it gives up. *)
Theorem retry_returns_valid_or_empty :
  forall max_retries b,
    let r := CodeGeneration.generate_code_with_codegen (B * nat) (CodeGeneration.counted generate)
               max_retries (b, 0%nat) in
    let code := fst (fst r) in
    let calls := snd (snd r) in
    ((fst (CodeGeneration.is_valid_code code) = true /\ contains "def " code = true)
     \/ fst r = ("", 0%Z))
    /\ (Z.of_nat calls <= Z.max 0 max_retries)%Z
    /\ ((forall b0 result b',
           generate b0 = (Ok result, b') ->
           fst (CodeGeneration.is_valid_code (CodeGenerationOutput.code result)) = false) ->
        fst r = ("", 0%Z) /\ Z.of_nat calls = Z.max 0 max_retries).
Proof.
  intros max_retries b r code calls. subst code calls r.
  unfold CodeGeneration.generate_code_with_codegen.
  destruct (CodeGeneration.attempts (B * nat) (CodeGeneration.counted generate)
              max_retries (Orchestrator.iterations max_retries) (b, 0%nat))
    as [[c n] w'] eqn:R.
  simpl.
  pose proof (attempts_result max_retries _ _ _ _ _ R) as [V L].
  rewrite iterations_length in L. simpl in L.
  split; [|split].
  - destruct V as [V|[-> ->]]; [left|right; reflexivity].
    split; [exact V|]. now apply is_valid_code_has_def.
  - lia.
  - intros Never.
    destruct (Z_le_gt_dec 0 max_retries) as [P|P].
    + destruct (attempts_exhausted max_retries (Z.to_nat max_retries) Never
                  1%nat (b, 0%nat)) as (bf & E); [lia|].
      unfold attempts in E. unfold Orchestrator.iterations in R.
      rewrite R in E. injection E as -> -> ->. simpl.
      split; [reflexivity | lia].
    + unfold Orchestrator.iterations in R.
      replace (Z.to_nat max_retries) with 0%nat in R by lia.
      simpl in R. injection R as <- <- <-. simpl.
      split; [reflexivity | lia].
Qed.

End Retry.

(** ** The writer's result *)

Lemma markdown_any_marked response :
  Writer._try_extract_markdown_any response <> "" ->
  (contains "def " (Writer._try_extract_markdown_any response)
   || contains "import " (Writer._try_extract_markdown_any response)
   || contains "class " (Writer._try_extract_markdown_any response))%bool
  = true.
Proof.
  unfold Writer._try_extract_markdown_any.
  destruct (search Writer.match_markdown_any response) as [g|]; [|congruence].
  cbv zeta.
  destruct (contains "def " (strip g) || contains "import " (strip g)
            || contains "class " (strip g))%bool eqn:M; [|congruence].
  intros _. exact M.
Qed.

Lemma function_definition_marked response :
  Writer._try_extract_function_definition response <> "" ->
  contains "def " (Writer._try_extract_function_definition response) = true.
Proof.
  unfold Writer._try_extract_function_definition.
  destruct (Writer.from_first_code_line _) as [lines|]; [|congruence].
  cbv zeta.
  destruct (contains "def " (strip (join nl (Writer.until_fence_or_tag lines))))
    eqn:M; [|congruence].
  intros _. exact M.
Qed.

Lemma any_code_marked response :
  Writer._try_extract_any_code response <> "" ->
  contains "def " (Writer._try_extract_any_code response) = true.
Proof.
  unfold Writer._try_extract_any_code. cbv zeta.
  destruct (contains "def " _) eqn:M; [|congruence].
  intros _. exact M.
Qed.

Lemma nonempty_false_iff s : nonempty s = false <-> s = "".
Proof. destruct s; simpl; split; congruence. Qed.

Lemma nonempty_true_iff s : nonempty s = true <-> s <> "".
Proof. destruct s; simpl; split; congruence. Qed.

(** X16. The extraction chain reports the method "none" exactly when it
    returns no code. Code it reports under "function_definition" or
    "any_code" contains a function definition, and code it reports
    under "markdown_any" contains a definition, an import or a class:
    the fallback methods do not hand prose over as code. *)
Theorem extraction_method_guards :
  forall json_loads response,
    let code := fst (Writer._extract_code_multilayer json_loads response) in
    let method := snd (Writer._extract_code_multilayer json_loads response) in
    (code = "" <-> method = "none")
    /\ (method = "markdown_any" ->
        (contains "def " code || contains "import " code
         || contains "class " code)%bool = true)
    /\ (method = "function_definition" \/ method = "any_code" ->
        contains "def " code = true).
Proof.
  intros json_loads response. cbv zeta.
  unfold Writer._extract_code_multilayer. cbv zeta.
  destruct (nonempty (Writer._try_extract_markdown_python response)) eqn:N1.
  { simpl. apply nonempty_true_iff in N1.
    repeat split; try discriminate; try tauto.
    intros [H|H]; discriminate. }
  destruct (nonempty (Writer._try_extract_markdown_any response)) eqn:N2.
  { simpl. apply nonempty_true_iff in N2.
    repeat split; try discriminate; try tauto.
    - intros _. now apply markdown_any_marked.
    - intros [H|H]; discriminate. }
  destruct (nonempty (Writer._try_extract_simple_tags response)) eqn:N3.
  { simpl. apply nonempty_true_iff in N3.
    repeat split; try discriminate; try tauto.
    intros [H|H]; discriminate. }
  destruct (nonempty (Writer._try_extract_legacy_json json_loads response))
    eqn:N4.
  { simpl. apply nonempty_true_iff in N4.
    repeat split; try discriminate; try tauto.
    intros [H|H]; discriminate. }
  destruct (nonempty (Writer._try_extract_function_definition response))
    eqn:N5.
  { simpl. apply nonempty_true_iff in N5.
    repeat split; try discriminate; try tauto.
    intros _. now apply function_definition_marked. }
  destruct (nonempty (Writer._try_extract_any_code response)) eqn:N6.
  { simpl. apply nonempty_true_iff in N6.
    repeat split; try discriminate; try tauto.
    intros _. now apply any_code_marked. }
  simpl. repeat split; try discriminate; try tauto.
  intros [H|H]; discriminate.
Qed.

Section WriterResult.

Variable json_loads : string -> option json.
Variable compile_template : string -> result (option string -> string).

(** X17. In every result of the writer's [_parse_response] the
    requirement is the one given, the code is empty exactly when the
    extraction chain found none, and the assumptions hold the one
    failure note exactly then: the signature rewrite never empties code
    and adds no note. *)
Theorem writer_result_shape :
  forall response requirement out,
    Writer._parse_response json_loads compile_template response requirement
    = Ok out ->
    CodeGenerationOutput.finalized_requirement out = requirement
    /\ (CodeGenerationOutput.code out = ""
        <-> fst (Writer._extract_code_multilayer json_loads response) = "")
    /\ CodeGenerationOutput.assumptions out
       = (if nonempty (CodeGenerationOutput.code out) then []
          else ["Failed to extract code from response"])
    /\ CodeGenerationOutput.tests out = ""
    /\ CodeGenerationOutput.trace out = [].
Proof.
  intros response requirement out. unfold Writer._parse_response.
  destruct (Writer._extract_code_multilayer json_loads response)
    as [code method].
  simpl fst.
  destruct code as [|c code'].
  - simpl. intros H. injection H as <-. simpl. tauto.
  - simpl nonempty. cbv iota.
    destruct (Writer._validate_signature_preserved requirement
                (String c code')) as [is_valid msg].
    destruct is_valid; simpl negb; cbv iota.
    + simpl. intros H. injection H as <-. simpl.
      repeat split; congruence.
    + destruct (Writer._fix_signature_in_code compile_template requirement
                  (String c code')) as [[[|f fixed]|]|e];
        simpl; intros H; try discriminate; injection H as <-; simpl;
        repeat split; congruence.
Qed.

(** X18. When the parameter lists [_extract_function_signature]
    reports for the requirement and for the extracted code differ in
    length, the writer's comparison fails with the count message and
    the writer returns the extracted code as it is, without a note.
    The rewrite returns before a replacement template is compiled, so
    this holds whatever [re] would do with the template. *)
Theorem writer_keeps_code_on_count_mismatch :
  forall response requirement code method n1 p1 n2 p2,
    Writer._extract_code_multilayer json_loads response = (code, method) ->
    code <> "" ->
    _extract_function_signature requirement = Some (n1, p1) ->
    _extract_function_signature code = Some (n2, p2) ->
    length p1 <> length p2 ->
    Writer._validate_signature_preserved requirement code
    = (false, "Parameter count mismatch: requirement has "
              ++ str_of_nat (length p1) ++ ", code has "
              ++ str_of_nat (length p2))
    /\ Writer._parse_response json_loads compile_template response requirement
       = Ok (CodeGenerationOutput.mk requirement code "" [] [] 0).
Proof.
  intros response requirement code method n1 p1 n2 p2 E N H1 H2 L.
  assert (F : Writer._fix_signature_in_code compile_template requirement code
              = Ok None).
  { unfold Writer._fix_signature_in_code.
    unfold Writer._extract_function_signature. rewrite H1, H2.
    destruct (Nat.eqb_spec (length p1) (length p2)); [contradiction|].
    reflexivity. }
  assert (V : Writer._validate_signature_preserved requirement code
              = (false, "Parameter count mismatch: requirement has "
                        ++ str_of_nat (length p1) ++ ", code has "
                        ++ str_of_nat (length p2))).
  { unfold Writer._validate_signature_preserved.
    unfold Writer._extract_function_signature. rewrite H1, H2.
    destruct (Nat.eqb_spec (length p1) (length p2)); [contradiction|].
    reflexivity. }
  split; [exact V|].
  unfold Writer._parse_response. rewrite E.
  apply nonempty_true_iff in N. rewrite N.
  rewrite V. simpl negb. cbv iota.
  rewrite F. simpl. now rewrite N.
Qed.

End WriterResult.

(** ** The analyzer's items and its own issues *)

(** X19. The analyzer's item parser reads the serialized form of an
    issue back to that issue: [as_dict] followed by the loop body of
    [_parse_response] is the identity on every issue whose description
    is not empty and has no white space around it, whose type and
    severity are among the sanitized ones, and whose evidence is absent
    or truthy. *)
Theorem issue_as_dict_round_trip :
  forall i,
    RequirementIssue.description i <> "" ->
    strip (RequirementIssue.description i) = RequirementIssue.description i ->
    In (RequirementIssue.issue_type i) Analyzer.allowed_issue_types ->
    In (RequirementIssue.severity i) ["low"; "medium"; "high"] ->
    truthy (RequirementIssue.evidence i) = true
    \/ RequirementIssue.evidence i = JNull ->
    Analyzer.parse_issue (RequirementIssue.as_dict i) = Ok (Some i).
Proof.
  intros [ty d ev sev cq]. simpl. intros Hd Hs Ht Hv He.
  unfold Analyzer.parse_issue, RequirementIssue.as_dict. simpl.
  apply nonempty_true_iff in Hd. rewrite Hd. simpl.
  rewrite Hs.
  assert (E : py_or ev JNull = ev).
  { unfold py_or. destruct He as [->| ->]; reflexivity. }
  rewrite E.
  assert (T : Analyzer._sanitize_issue_type (py_or (JStr ty) JNull) = Ok ty).
  { repeat (destruct Ht as [<-|Ht]; [vm_compute; reflexivity|]).
    destruct Ht. }
  assert (V : Analyzer._sanitize_severity (JStr sev) = Ok sev).
  { repeat (destruct Hv as [<-|Hv]; [vm_compute; reflexivity|]).
    destruct Hv. }
  rewrite T, V. simpl. rewrite andb_false_r. reflexivity.
Qed.

Lemma issue_as_dict_round_trip_witness :
  Analyzer.parse_issue (RequirementIssue.as_dict Examples.unclear_issue)
  = Ok (Some Examples.unclear_issue).
Proof.
  apply (issue_as_dict_round_trip Examples.unclear_issue).
  - discriminate.
  - vm_compute. reflexivity.
  - simpl. auto.
  - simpl. auto.
  - right. reflexivity.
Defined.

(** * Further properties of the texts the agents read *)


Lemma sapp_assoc (a b c : string) : (a ++ b) ++ c = a ++ (b ++ c).
Proof. induction a as [|x a IH]; simpl; [reflexivity|]. now rewrite IH. Qed.

Lemma sapp_nil_r (a : string) : a ++ "" = a.
Proof. induction a as [|x a IH]; simpl; [reflexivity|]. now rewrite IH. Qed.

Lemma slength_app (a b : string) :
  String.length (a ++ b) = (String.length a + String.length b)%nat.
Proof. induction a as [|x a IH]; simpl; [reflexivity|]. now rewrite IH. Qed.

Lemma all_chars_app p a b :
  Terms.all_chars p (a ++ b) = Terms.all_chars p a && Terms.all_chars p b.
Proof.
  induction a as [|x a IH]; simpl; [reflexivity|].
  now rewrite IH, andb_assoc.
Qed.

Lemma mentions_app c a b :
  Terms.mentions c (a ++ b) = Terms.mentions c a || Terms.mentions c b.
Proof.
  induction a as [|x a IH]; simpl; [reflexivity|].
  now rewrite IH, orb_assoc.
Qed.

Lemma span_spec p s :
  s = fst (span p s) ++ snd (span p s)
  /\ Terms.all_chars p (fst (span p s)) = true
  /\ Terms.head_fails p (snd (span p s)).
Proof.
  induction s as [|c s IH]; simpl; [auto|].
  destruct (p c) eqn:P.
  - destruct (span p s) as [a b]. simpl in *.
    destruct IH as (E & A & H). rewrite P. repeat split; auto. now f_equal.
  - simpl. auto.
Qed.

Lemma span_app p x y :
  Terms.all_chars p x = true -> Terms.head_fails p y -> span p (x ++ y) = (x, y).
Proof.
  induction x as [|c x IH]; simpl; intros A H.
  - destruct y as [|d y]; simpl in *; [reflexivity|]. now rewrite H.
  - apply andb_true_iff in A. destruct A as [Pc A]. rewrite Pc.
    now rewrite IH.
Qed.

Lemma lstrip_app_space w s :
  Terms.all_chars is_space w = true -> lstrip (w ++ s) = lstrip s.
Proof.
  induction w as [|c w IH]; simpl; intros A; [reflexivity|].
  apply andb_true_iff in A. destruct A as [Pc A]. rewrite Pc. auto.
Qed.

Lemma substring_prefix x r : substring 0 (String.length x) (x ++ r) = x.
Proof.
  induction x as [|c x IH]; simpl.
  - destruct r; reflexivity.
  - now rewrite IH.
Qed.

Lemma find_cons p d s :
  find p (String d s)
  = if startswith p (String d s) then Some 0%nat else option_map S (find p s).
Proof. reflexivity. Qed.

Lemma find_after_clean (c : ascii) (p' x rest : string) :
  Terms.mentions c x = false ->
  find (String c p') (x ++ String c p' ++ rest) = Some (String.length x).
Proof.
  induction x as [|d x IH]; intros M.
  - assert (S : forall q r, startswith q (q ++ r) = true).
    { induction q as [|e q IHq]; intros r; [destruct r; reflexivity|].
      simpl. now rewrite Ascii.eqb_refl, IHq. }
    change ("" ++ String c p' ++ rest) with (String c (p' ++ rest)).
    rewrite find_cons.
    change (String c (p' ++ rest)) with (String c p' ++ rest).
    now rewrite S.
  - simpl in M. apply orb_false_iff in M. destruct M as [N M].
    change (String d x ++ String c p' ++ rest)
      with (String d (x ++ String c p' ++ rest)).
    rewrite find_cons.
    assert (F : startswith (String c p') (String d (x ++ String c p' ++ rest))
                = false).
    { simpl. now rewrite Ascii.eqb_sym, N. }
    rewrite F, IH by exact M. reflexivity.
Qed.

Lemma after_last_newline_suffix ws t :
  Writer.after_last_newline ws = Some t -> exists u, ws = u ++ t.
Proof.
  revert t. induction ws as [|c ws IH]; simpl; intros t H; [discriminate|].
  destruct (Writer.after_last_newline ws) as [r|].
  - injection H as <-. destruct (IH r eq_refl) as (u & ->).
    exists (String c u). reflexivity.
  - destruct (Writer.is_newline c); [|discriminate].
    injection H as <-. exists (String c ""). reflexivity.
Qed.

Lemma after_last_newline_some a :
  exists t u, Writer.after_last_newline (String "010" a) = Some t /\ a = u ++ t.
Proof.
  simpl. destruct (Writer.after_last_newline a) as [r|] eqn:E.
  - destruct (after_last_newline_suffix _ _ E) as (u & ->). eauto.
  - exists a, "". auto.
Qed.

Lemma fence_body_recovers body post :
  Terms.mentions Terms.backtick body = false ->
  exists g,
    Writer.fence_body (nl ++ body ++ Writer.fence ++ post) = Some g
    /\ strip g = strip body.
Proof.
  intros M.
  destruct (span_spec is_space body) as (E & A & H).
  destruct (span is_space body) as [a b]. simpl in E, A, H. subst body.
  rewrite mentions_app in M. apply orb_false_iff in M. destruct M as [Ma Mb].
  destruct (after_last_newline_some a) as (t & u & L & ->).
  rewrite mentions_app in Ma. apply orb_false_iff in Ma. destruct Ma as [_ Mt].
  rewrite all_chars_app in A. apply andb_true_iff in A. destruct A as [Au At].
  exists (t ++ b). split.
  - unfold Writer.fence_body.
    replace (nl ++ ((u ++ t) ++ b) ++ Writer.fence ++ post)
      with ((nl ++ u ++ t) ++ (b ++ Writer.fence ++ post))
      by (simpl; now rewrite !sapp_assoc).
    rewrite span_app.
    + change (nl ++ u ++ t) with (String "010" (u ++ t)). rewrite L.
      replace (t ++ b ++ Writer.fence ++ post)
        with ((t ++ b) ++ String Terms.backtick "``" ++ post)
        by (now rewrite !sapp_assoc).
      change Writer.fence with (String Terms.backtick "``").
      rewrite find_after_clean
        by (rewrite mentions_app; now rewrite Mt, Mb).
      unfold slice. rewrite Nat.sub_0_r. now rewrite substring_prefix.
    + simpl. rewrite all_chars_app. now rewrite Au, At.
    + destruct b; simpl; [reflexivity | exact H].
  - unfold strip. rewrite !sapp_assoc.
    rewrite (lstrip_app_space u), !lstrip_app_space; auto.
Qed.

Lemma search_cons {A} (m : string -> option A) c s :
  search m (String c s)
  = match m (String c s) with Some r => Some r | None => search m s end.
Proof. reflexivity. Qed.

Lemma search_python_skip pre s :
  Terms.mentions Terms.backtick pre = false ->
  search Writer.match_markdown_python (pre ++ s)
  = search Writer.match_markdown_python s.
Proof.
  induction pre as [|c pre IH]; intros M; [reflexivity|].
  simpl in M. apply orb_false_iff in M. destruct M as [N M].
  change (String c pre ++ s) with (String c (pre ++ s)).
  rewrite search_cons.
  assert (F : Writer.match_markdown_python (String c (pre ++ s)) = None).
  { unfold Writer.match_markdown_python.
    assert (St : startswith Writer.fence (String c (pre ++ s)) = false).
    { unfold Writer.fence. cbn [startswith].
      unfold Terms.backtick in N. rewrite Ascii.eqb_sym in N.
      now rewrite N. }
    now rewrite St. }
  rewrite F. auto.
Qed.

Lemma python_fence_found label body post :
  label = "python" \/ label = "Python" ->
  Terms.mentions Terms.backtick body = false ->
  exists g,
    search Writer.match_markdown_python
      ("```" ++ label ++ nl ++ body ++ "```" ++ post) = Some g
    /\ strip g = strip body.
Proof.
  intros L M. destruct (fence_body_recovers body post M) as (g & F & S).
  exists g. split; [|exact S].
  assert (E : Writer.match_markdown_python
                ("```" ++ label ++ nl ++ body ++ "```" ++ post) = Some g).
  { destruct L as [-> | ->]; exact F. }
  destruct L as [-> | ->]; simpl append in *; rewrite search_cons, E;
    reflexivity.
Qed.

(** X20. A response whose first fence is a python fence gives its body
    back: when the text before the fence and the body hold no backtick,
    [_try_extract_markdown_python] returns the body stripped, whatever
    follows the closing fence, and when that is not empty the chain
    returns it under the method "markdown_python". *)
Theorem python_fence_recovered :
  forall json_loads pre label body post,
    label = "python" \/ label = "Python" ->
    Terms.mentions Terms.backtick pre = false ->
    Terms.mentions Terms.backtick body = false ->
    let response := pre ++ "```" ++ label ++ nl ++ body ++ "```" ++ post in
    Writer._try_extract_markdown_python response = strip body
    /\ (strip body <> "" ->
        Writer._extract_code_multilayer json_loads response
        = (strip body, "markdown_python")).
Proof.
  intros json_loads pre label body post L Mp Mb response.
  assert (E : Writer._try_extract_markdown_python response = strip body).
  { unfold Writer._try_extract_markdown_python, response.
    rewrite (search_python_skip _ _ Mp).
    destruct (python_fence_found label body post L Mb) as (g & F & S).
    now rewrite F. }
  split; [exact E|]. intros N.
  unfold Writer._extract_code_multilayer. rewrite E.
  apply nonempty_true_iff in N. now rewrite N.
Qed.

Lemma split_loop_part p :
  forall s params current d d',
    Terms.scan d p = Some d' ->
    split_loop (p ++ s) params current d = split_loop s params (current ++ p) d'.
Proof.
  induction p as [|c p IH]; intros s params current d d' H.
  - simpl in H. injection H as <-. simpl. now rewrite sapp_nil_r.
  - simpl in H. simpl append. cbn [split_loop]. unfold snoc.
    replace (current ++ String c p) with ((current ++ String c "") ++ p)
      by (now rewrite sapp_assoc).
    destruct (is_open c); [now apply IH|].
    destruct (is_close c); [now apply IH|].
    destruct (Ascii.eqb c "," && (d =? 0)%Z)%bool; [discriminate|].
    now apply IH.
Qed.

Lemma strip_after_space w p :
  Terms.all_chars is_space w = true -> strip (w ++ p) = strip p.
Proof. intros A. unfold strip. now rewrite lstrip_app_space. Qed.

Lemma split_loop_join parts :
  forall params current,
    Forall Terms.one_parameter parts ->
    parts <> [] ->
    Terms.all_chars is_space current = true ->
    exists w,
      Terms.all_chars is_space w = true
      /\ split_loop (join ", " parts) params current 0
         = ((params ++ removelast parts)%list, w ++ last parts "").
Proof.
  induction parts as [|p rest IH]; intros params current F N A; [congruence|].
  inversion F as [|x l (Sc & St & Ne) Fr]; subst.
  destruct rest as [|q rest'].
  - exists current. split; [exact A|].
    simpl join. rewrite <- (sapp_nil_r p) at 1.
    rewrite (split_loop_part p "" params current 0 0 Sc).
    simpl. now rewrite app_nil_r.
  - change (join ", " (p :: q :: rest'))
      with (p ++ ", " ++ join ", " (q :: rest')).
    rewrite (split_loop_part p _ params current 0 0 Sc).
    change (", " ++ join ", " (q :: rest'))
      with (String "," (String " " (join ", " (q :: rest')))).
    cbn [split_loop]. simpl is_open. simpl is_close. cbv iota.
    simpl andb. cbv iota. cbn [split_loop]. simpl is_open. simpl is_close.
    cbv iota. simpl andb. cbv iota.
    rewrite (strip_after_space _ _ A), St.
    destruct (IH (params ++ [p])%list (snoc "" " ") Fr) as (w & Aw & E);
      [discriminate | reflexivity |].
    exists w. split; [exact Aw|].
    rewrite E. rewrite <- app_assoc. reflexivity.
Qed.

(** X21. [_split_params] undoes a join with ", ": a list of parameter
    texts, each closing the brackets it opens, with no comma outside
    them, not empty and without white space around it, is split back
    into exactly these texts. Commas inside brackets do not split. *)
Theorem split_params_of_join :
  forall parts,
    Forall Terms.one_parameter parts ->
    _split_params (join ", " parts) = parts.
Proof.
  intros parts F. unfold _split_params.
  destruct parts as [|p rest]; [reflexivity|].
  destruct (split_loop_join (p :: rest) [] "" F) as (w & Aw & E);
    [discriminate | reflexivity |].
  rewrite E. rewrite (strip_after_space _ _ Aw).
  assert (L : Terms.one_parameter (last (p :: rest) "")).
  { apply Forall_forall with (x := last (p :: rest) "") in F; [exact F|].
    destruct (@exists_last _ (p :: rest)) as (l' & a & ->); [discriminate|].
    rewrite last_last. apply in_or_app. right. now left. }
  destruct L as (_ & St & Ne).
  rewrite St. apply nonempty_true_iff in Ne. rewrite Ne, app_nil_l.
  symmetry. apply app_removelast_last. discriminate.
Qed.

(** ** The parts of a parsed header *)

Lemma mentions_prefix c a b :
  Terms.mentions c (a ++ b) = false -> Terms.mentions c a = false.
Proof. rewrite mentions_app. intros H. now apply orb_false_iff in H. Qed.

Lemma mentions_lstrip c s :
  Terms.mentions c s = false -> Terms.mentions c (lstrip s) = false.
Proof.
  induction s as [|x s IH]; simpl; intros H; [reflexivity|].
  apply orb_false_iff in H. destruct H as [N M].
  destruct (is_space x); [auto|]. simpl. now rewrite N, M.
Qed.

Lemma mentions_rstrip c s :
  Terms.mentions c s = false -> Terms.mentions c (rstrip s) = false.
Proof.
  induction s as [|x s IH]; simpl; intros H; [reflexivity|].
  apply orb_false_iff in H. destruct H as [N M]. specialize (IH M).
  destruct (rstrip s) as [|y r].
  - destruct (is_space x); simpl; [reflexivity|]. now rewrite N.
  - simpl. simpl in IH. now rewrite N, IH.
Qed.

Lemma mentions_strip c s :
  Terms.mentions c s = false -> Terms.mentions c (strip s) = false.
Proof. intros H. unfold strip. now apply mentions_rstrip, mentions_lstrip. Qed.

Lemma all_other_clean c a :
  Terms.all_chars (fun x => negb (Ascii.eqb x c)) a = true ->
  Terms.mentions c a = false.
Proof.
  induction a as [|x a IH]; simpl; intros H; [reflexivity|].
  apply andb_true_iff in H. destruct H as [N A].
  apply negb_true_iff in N. now rewrite N, IH.
Qed.

Lemma before_clean c s : Terms.mentions c (before c s) = false.
Proof.
  unfold before. apply all_other_clean.
  apply (span_spec (fun x => negb (Ascii.eqb x c)) s).
Qed.

Lemma before_prefix c s : exists r, s = before c s ++ r.
Proof.
  unfold before. eexists.
  apply (span_spec (fun x => negb (Ascii.eqb x c)) s).
Qed.

Lemma has_char_false c s : has_char c s = false -> Terms.mentions c s = false.
Proof.
  unfold has_char. intros H. apply nonempty_false_iff in H.
  destruct (span_spec (fun x => negb (Ascii.eqb x c)) s) as (E & A & _).
  rewrite H, sapp_nil_r in E. rewrite E. now apply all_other_clean.
Qed.

Lemma parse_param_clean p x :
  parse_param p = Some x -> Terms.clean_param x.
Proof.
  unfold parse_param. cbv zeta.
  destruct (negb (nonempty (strip p))); [discriminate|].
  destruct (has_char ":" (strip p)) eqn:C.
  - intros H. injection H as <-. split; simpl.
    + apply mentions_strip, before_clean.
    + destruct (has_char "=" (strip (after ":" (strip p)))) eqn:Q.
      * apply mentions_strip, before_clean.
      * now apply has_char_false.
  - intros H. injection H as <-. split; simpl.
    + apply mentions_strip. apply has_char_false in C.
      destruct (before_prefix "=" (strip p)) as (r & E).
      rewrite E in C. now apply mentions_prefix in C.
    + apply mentions_strip, before_clean.
Qed.

Lemma parse_params_clean parts :
  Forall Terms.clean_param (parse_params parts).
Proof.
  induction parts as [|p rest IH]; simpl; [constructor|].
  destruct (parse_param p) as [x|] eqn:E; [|exact IH].
  constructor; [now apply (parse_param_clean p)|exact IH].
Qed.

Lemma search_some {A} (m : string -> option A) s r :
  search m s = Some r -> exists pre suf, s = pre ++ suf /\ m suf = Some r.
Proof.
  induction s as [|c s IH].
  - simpl. destruct (m "") eqn:E; [|discriminate].
    intros H. injection H as <-. exists "", "". auto.
  - rewrite search_cons. destruct (m (String c s)) eqn:E.
    + intros H. injection H as <-. exists "", (String c s). auto.
    + intros H. destruct (IH H) as (pre & suf & -> & M).
      exists (String c pre), suf. auto.
Qed.

Lemma match_def_name s name params rest :
  match_def s = Some (name, params, rest) ->
  name <> "" /\ Terms.all_chars is_word name = true
  /\ Terms.mentions ")" params = false.
Proof.
  unfold match_def.
  destruct (startswith "def" s); [|discriminate].
  destruct (span is_space (drop 3 s)) as [ws s2].
  destruct (nonempty ws); [|discriminate].
  pose proof (span_spec is_word s2) as (_ & A & _).
  destruct (span is_word s2) as [n s3]. simpl in A.
  destruct (nonempty n) eqn:N; [|discriminate].
  destruct (snd (span is_space s3)) as [|c s5]; [discriminate|].
  destruct (Ascii.eqb_spec c "("); [subst c|].
  2:{ destruct c as [[] [] [] [] [] [] [] []]; try discriminate.
      contradiction. }
  pose proof (span_spec not_rparen s5) as (_ & Ap & _).
  destruct (span not_rparen s5) as [ps s6]. simpl in Ap.
  destruct s6 as [|d s7]; [discriminate|].
  destruct (Ascii.eqb_spec d ")"); [subst d|].
  2:{ destruct d as [[] [] [] [] [] [] [] []]; try discriminate.
      contradiction. }
  intros H. injection H as <- <- <-.
  split; [now apply nonempty_true_iff|]. split; [exact A|].
  now apply all_other_clean.
Qed.

(** X22. A header that [_extract_function_signature] finds has a name
    that is not empty and made of word characters, and every parameter
    it reports has a name without a colon and a type without an equals
    sign (a name without one when it has no type): annotations and
    defaults never end up inside a name or a type. *)
Theorem signature_parts_clean :
  forall text name params,
    _extract_function_signature text = Some (name, params) ->
    name <> "" /\ Terms.all_chars is_word name = true
    /\ Forall Terms.clean_param params.
Proof.
  intros text name params. unfold _extract_function_signature, search_def.
  destruct (search match_def text) as [[[n g] r]|] eqn:S; [|discriminate].
  destruct (search_some _ _ _ S) as (pre & suf & _ & M).
  destruct (match_def_name _ _ _ _ M) as (Nn & Aw & _).
  destruct (negb (nonempty (strip g))); intros H; injection H as <- <-.
  - repeat split; auto.
  - repeat split; auto. apply parse_params_clean.
Qed.

(** ** Texts without a header *)

Lemma find_none_cons p c s :
  find p (String c s) = None ->
  startswith p (String c s) = false /\ find p s = None.
Proof.
  rewrite find_cons. destruct (startswith p (String c s)); [discriminate|].
  destruct (find p s); [discriminate|]. auto.
Qed.

Lemma search_def_none text :
  contains "def" text = false -> search_def text = None.
Proof.
  unfold contains, search_def.
  destruct (find "def" text) eqn:F; [discriminate|]. intros _.
  induction text as [|c text IH].
  - reflexivity.
  - apply find_none_cons in F. destruct F as [St F].
    rewrite search_cons. unfold match_def at 1. rewrite St. auto.
Qed.

(** X24. A text that does not contain "def" has no function header, so
    a comparison with such a text on either side passes with an empty
    message, in the corrector and in the writer: a requirement written
    as prose is never reverted or rewritten for its signature. *)
Theorem headerless_text_passes :
  forall original revised,
    contains "def" original = false \/ contains "def" revised = false ->
    Corrector._validate_signature_preserved original revised = (true, "")
    /\ Writer._validate_signature_preserved original revised = (true, "").
Proof.
  intros original revised H.
  assert (U : _extract_function_signature original = None
              \/ _extract_function_signature revised = None).
  { destruct H as [H|H]; [left|right];
      unfold _extract_function_signature;
      now rewrite (search_def_none _ H). }
  split.
  - now apply corrector_passes_unparsed.
  - now apply writer_passes_unparsed.
Qed.

(** ** The tagged block of a response *)

Lemma lower_app a b : lower (a ++ b) = lower a ++ lower b.
Proof. induction a as [|x a IH]; simpl; [reflexivity|]. now rewrite IH. Qed.

Lemma lower_length s : String.length (lower s) = String.length s.
Proof. induction s as [|x s IH]; simpl; [reflexivity|]. now rewrite IH. Qed.

Lemma lower_char_lt c : Ascii.eqb (lower_char c) "<" = Ascii.eqb c "<".
Proof. destruct c as [[] [] [] [] [] [] [] []]; reflexivity. Qed.

Lemma mentions_lower_lt s :
  Terms.mentions "<" (lower s) = Terms.mentions "<" s.
Proof.
  induction s as [|x s IH]; simpl; [reflexivity|].
  now rewrite lower_char_lt, IH.
Qed.

Lemma find_skip_clean (c : ascii) (p' x s : string) :
  Terms.mentions c x = false ->
  find (String c p') (x ++ s)
  = option_map (Nat.add (String.length x)) (find (String c p') s).
Proof.
  induction x as [|d x IH]; intros M.
  - simpl append. destruct (find (String c p') s); reflexivity.
  - simpl in M. apply orb_false_iff in M. destruct M as [N M].
    change (String d x ++ s) with (String d (x ++ s)).
    rewrite find_cons.
    assert (F : startswith (String c p') (String d (x ++ s)) = false).
    { cbn [startswith]. now rewrite Ascii.eqb_sym, N. }
    rewrite F, IH by exact M.
    destruct (find (String c p') s); reflexivity.
Qed.

Lemma substring_skip x k n r :
  substring (String.length x + k) n (x ++ r) = substring k n r.
Proof. induction x as [|c x IH]; simpl; [reflexivity|]. exact IH. Qed.

Lemma extract_tagged_recovers tag pre o body c post :
  Terms.mentions "<" tag = false ->
  startswith "/" tag = false ->
  lower o = "<" ++ tag ++ ">" ->
  lower c = "</" ++ tag ++ ">" ->
  Terms.mentions "<" pre = false ->
  Terms.mentions "<" body = false ->
  extract_tagged tag (pre ++ o ++ body ++ c ++ post) = strip body.
Proof.
  intros Mt Sl Lo Lc Mp Mb. unfold extract_tagged. cbv zeta.
  rewrite !lower_app, Lo, Lc.
  assert (F1 : find ("<" ++ tag ++ ">")
                 (lower pre ++ ("<" ++ tag ++ ">") ++ lower body
                  ++ ("</" ++ tag ++ ">") ++ lower post)
               = Some (String.length pre)).
  { change ("<" ++ tag ++ ">") with (String "<" (tag ++ ">")).
    rewrite find_after_clean by (now rewrite mentions_lower_lt).
    now rewrite lower_length. }
  assert (F2 : find ("</" ++ tag ++ ">")
                 (lower pre ++ ("<" ++ tag ++ ">") ++ lower body
                  ++ ("</" ++ tag ++ ">") ++ lower post)
               = Some (String.length pre + String.length ("<" ++ tag ++ ">")
                       + String.length body)%nat).
  { change ("</" ++ tag ++ ">") with (String "<" ("/" ++ tag ++ ">")).
    rewrite find_skip_clean by (now rewrite mentions_lower_lt).
    change (("<" ++ tag ++ ">") ++ lower body
            ++ String "<" ("/" ++ tag ++ ">") ++ lower post)
      with (String "<" ((tag ++ ">") ++ lower body
                        ++ String "<" ("/" ++ tag ++ ">") ++ lower post)).
    rewrite find_cons.
    assert (St : startswith (String "<" ("/" ++ tag ++ ">"))
                   (String "<" ((tag ++ ">") ++ lower body
                                ++ String "<" ("/" ++ tag ++ ">")
                                ++ lower post)) = false).
    { destruct tag as [|t tag']; [reflexivity|].
      cbn [startswith append]. cbn [startswith] in Sl.
      apply andb_false_iff in Sl. destruct Sl as [Sl|Sl].
      - rewrite Sl. now rewrite andb_false_r.
      - destruct tag'; discriminate Sl. }
    rewrite St.
    replace ((tag ++ ">") ++ lower body
             ++ String "<" ("/" ++ tag ++ ">") ++ lower post)
      with (((tag ++ ">") ++ lower body)
            ++ String "<" ("/" ++ tag ++ ">") ++ lower post)
      by (now rewrite !sapp_assoc).
    rewrite find_after_clean.
    - simpl option_map. f_equal.
      rewrite !lower_length, !slength_app, lower_length. simpl. lia.
    - rewrite !mentions_app, mentions_lower_lt, Mt, Mb. reflexivity. }
  rewrite F1, F2. unfold slice.
  replace (String.length pre + String.length ("<" ++ tag ++ ">")
           + String.length body
           - (String.length pre + String.length ("<" ++ tag ++ ">")))%nat
    with (String.length body) by lia.
  replace (String.length ("<" ++ tag ++ ">")) with (String.length o)
    by (now rewrite <- Lo, lower_length).
  rewrite substring_skip.
  rewrite <- (Nat.add_0_r (String.length o)), substring_skip.
  now rewrite substring_prefix.
Qed.

(** X23. On a response made of characters below U+0100, where
    [str.lower] moves no index, both agents' [_extract_json_block] give
    the body of their tag back, stripped: the analyzer's for an analysis
    tag and the corrector's for a correction tag, written in any letter
    case, when the text before the opening tag and the body hold no
    [<]. What follows the closing tag is ignored. *)
Theorem tagged_block_recovered :
  forall pre body post o c o' c',
    Terms.mentions "<" pre = false ->
    Terms.mentions "<" body = false ->
    lower o = "<analysis>" -> lower c = "</analysis>" ->
    lower o' = "<correction>" -> lower c' = "</correction>" ->
    Analyzer._extract_json_block (pre ++ o ++ body ++ c ++ post) = strip body
    /\ Corrector._extract_json_block (pre ++ o' ++ body ++ c' ++ post)
       = strip body.
Proof.
  intros pre body post o c o' c' Mp Mb Lo Lc Lo' Lc'. split.
  - unfold Analyzer._extract_json_block.
    now apply extract_tagged_recovers.
  - unfold Corrector._extract_json_block.
    now apply extract_tagged_recovers.
Qed.

(** ** Blocks that are not objects *)

(** X25. Only a decoding error sends an agent to its fallback. A block
    that [json.loads] accepts but that is not an object, such as an
    array or a string, makes the analyzer's and the corrector's
    [_parse_response] raise [AttributeError]. *)
Theorem non_object_block_raises :
  forall json_loads json_dumps analysis correction fallback data,
    (forall fields, data <> JDict fields) ->
    json_loads (Analyzer._extract_json_block analysis) = Some data ->
    json_loads (Corrector._extract_json_block correction) = Some data ->
    Analyzer._parse_response json_loads json_dumps analysis fallback
    = Raise AttributeError
    /\ Corrector._parse_response json_loads correction fallback
       = Raise AttributeError.
Proof.
  intros json_loads json_dumps analysis correction fallback data N La Lc.
  unfold Analyzer._parse_response, Corrector._parse_response. cbv zeta.
  rewrite La, Lc.
  destruct data; try (split; reflexivity).
  now destruct (N fields).
Qed.

Lemma non_object_block_raises_witness :
  Analyzer._parse_response Scripted.array_loads Examples.dumps_none
    "<ANALYSIS>[]</ANALYSIS>" "def f(x): return x or 5"
  = Raise AttributeError
  /\ Corrector._parse_response Scripted.array_loads
       "<CORRECTION>[]</CORRECTION>" "def f(x): return x or 5"
     = Raise AttributeError.
Proof.
  apply (non_object_block_raises Scripted.array_loads Examples.dumps_none
           "<ANALYSIS>[]</ANALYSIS>" "<CORRECTION>[]</CORRECTION>"
           "def f(x): return x or 5" (JList [])).
  - discriminate.
  - vm_compute. reflexivity.
  - vm_compute. reflexivity.
Defined.

(** ** The requirement preview *)


Lemma substring_0_length n s :
  String.length (substring 0 n s) = Nat.min n (String.length s).
Proof.
  revert s. induction n as [|n IH]; intros [|c s]; simpl; auto.
Qed.

Lemma substring_0_all n s :
  (String.length s <= n)%nat -> substring 0 n s = s.
Proof.
  revert s. induction n as [|n IH]; intros [|c s] H; simpl in *;
    try reflexivity; try lia.
  f_equal. apply IH. lia.
Qed.

(** X26. A preview made with a [max_length] of at least 3, as the
    orchestrator's 60, has at most [max_length] characters, is the
    requirement itself when that fits, and otherwise its first
    [max_length - 3] characters and three dots. With a file path the
    same text is followed by the source note. *)
Theorem requirement_preview_bounded :
  forall requirement max_length,
    (3 <= max_length)%Z ->
    let preview :=
      Visualizer.set_requirement_preview requirement None max_length in
    (Z.of_nat (String.length preview) <= max_length)%Z
    /\ ((Z.of_nat (String.length requirement) <= max_length)%Z ->
        preview = requirement)
    /\ ((max_length < Z.of_nat (String.length requirement))%Z ->
        preview
        = substring 0 (Z.to_nat max_length - 3) requirement ++ "..."
        /\ Z.of_nat (String.length preview) = max_length)
    /\ (forall path,
          path <> "" ->
          Visualizer.set_requirement_preview requirement (Some path)
            max_length
          = preview ++ " (Source: " ++ path ++ ")").
Proof.
  intros requirement max_length M preview. subst preview.
  unfold Visualizer.set_requirement_preview. cbv zeta.
  assert (P : Visualizer.prefix (max_length - 3) requirement
              = substring 0 (Z.to_nat max_length - 3) requirement).
  { unfold Visualizer.prefix.
    destruct (Z.leb_spec 0 (max_length - 3)) as [_|L]; [|lia].
    f_equal. lia. }
  rewrite P.
  destruct (Z.ltb_spec max_length (Z.of_nat (String.length requirement)))
    as [L|L].
  - assert (E : String.length
                  (substring 0 (Z.to_nat max_length - 3) requirement ++ "...")
                = Z.to_nat max_length).
    { rewrite slength_app, substring_0_length. simpl. lia. }
    repeat split.
    + rewrite E. lia.
    + lia.
    + rewrite E. lia.
    + intros path N. apply nonempty_true_iff in N. now rewrite N.
  - repeat split.
    + exact L.
    + lia.
    + lia.
    + intros path N. apply nonempty_true_iff in N. now rewrite N.
Qed.

Lemma requirement_preview_bounded_witness :
  (Z.of_nat (String.length
               (Visualizer.set_requirement_preview
                  "def f(x): return x or 5" None 10)) <= 10)%Z
  /\ Visualizer.set_requirement_preview "def f(x): return x or 5" None 10
     = "def f(x..."
  /\ Visualizer.set_requirement_preview "def f(x): return x or 5"
       (Some "req.txt") 10
     = "def f(x... (Source: req.txt)".
Proof.
  destruct (requirement_preview_bounded "def f(x): return x or 5" 10%Z
              ltac:(lia)) as (H1 & _ & H3 & H4).
  split; [exact H1|]. split.
  - apply H3. vm_compute. reflexivity.
  - apply (H4 "req.txt"). discriminate.
Defined.

(** * The properties on the examples *)


Lemma run_counts_calls_witness :
  exists out,
    Examples.system_run 2 "def f(x): return x or 5"
      Examples.late_signature_script = (Ok out, [])
    /\ CodeGenerationOutput.correction_iterations out
       = Z.of_nat
           (length (filter Observed.is_corrected
                      (Examples.system_events 2 "def f(x): return x or 5"
                         Examples.late_signature_script)))
    /\ length (CodeGenerationOutput.trace out) = 2%nat
    /\ length (filter Terms.has_correction (CodeGenerationOutput.trace out))
       = 2%nat.
Proof.
  eexists. split; [vm_compute; reflexivity|].
  pose proof (run_counts_calls Examples.canned Scripted.analyzer
                Scripted.corrector Scripted.writer 2%Z
                "def f(x): return x or 5" Examples.late_signature_script
                _ [] eq_refl) as (H1 & H2 & H3 & _).
  split; [exact H1|]. split; [exact H2 | exact H3].
Defined.

Lemma run_without_budget_fails_witness :
  Examples.system_run 0 "def f(x): return x or 5" Examples.ready_script
  = (Raise AssertionError, Examples.ready_script)
  /\ Examples.system_events 0 "def f(x): return x or 5" Examples.ready_script
     = [].
Proof.
  apply (run_without_budget_fails Examples.canned Scripted.analyzer
           Scripted.corrector Scripted.writer 0%Z).
  lia.
Defined.

Lemma run_ready_at_first_round_witness :
  exists snapshot b1,
    Scripted.analyzer "def f(x): return x or 5" [] Examples.ready_script
    = (Ok snapshot, b1)
    /\ Examples.system_events 5 "def f(x): return x or 5"
         Examples.ready_script
       = [ Observed.Analyzed "def f(x): return x or 5" [] (Ok snapshot);
           Observed.Written "def f(x): return x or 5" ""
             (fst (Scripted.writer "def f(x): return x or 5" snapshot ""
                     b1)) ].
Proof.
  do 2 eexists. split; [vm_compute; reflexivity|].
  apply (proj1 (run_ready_at_first_round Examples.canned Scripted.analyzer
                  Scripted.corrector Scripted.writer 5%Z
                  "def f(x): return x or 5" Examples.ready_script _ _
                  ltac:(lia) eq_refl eq_refl)).
Defined.

Lemma corrector_follows_analysis_with_issues_witness :
  exists given issues signature out,
    nth_error (Examples.system_events 2 "def f(x): return x or 5"
                 Examples.late_signature_script) 1
    = Some (Observed.Corrected given issues signature out)
    /\ exists j analyzed history analysis,
         1%nat = S j
         /\ nth_error (Examples.system_events 2 "def f(x): return x or 5"
                         Examples.late_signature_script) j
            = Some (Observed.Analyzed analyzed history (Ok analysis))
         /\ given = AnalyzerOutput.normalized_requirement analysis
         /\ issues = AnalyzerOutput.issues analysis
         /\ issues <> [].
Proof.
  do 4 eexists. split; [vm_compute; reflexivity|].
  eapply (corrector_follows_analysis_with_issues Examples.canned
           Scripted.analyzer Scripted.corrector Scripted.writer 2%Z
           "def f(x): return x or 5" Examples.late_signature_script
           1%nat _ _ _ _).
  vm_compute. reflexivity.
Defined.

Lemma analysis_follows_correction_witness :
  exists corrected issues signature correction given history out,
    nth_error (Examples.system_events 2 "def f(x): return x or 5"
                 Examples.late_signature_script) 1
    = Some (Observed.Corrected corrected issues signature (Ok correction))
    /\ nth_error (Examples.system_events 2 "def f(x): return x or 5"
                    Examples.late_signature_script) 2
       = Some (Observed.Analyzed given history out)
    /\ given = CorrectionOutput.improved_requirement correction.
Proof.
  do 7 eexists. split; [vm_compute; reflexivity|].
  split; [vm_compute; reflexivity|].
  eapply (proj2 (analysis_follows_correction Examples.canned
                  Scripted.analyzer Scripted.corrector Scripted.writer 2%Z
                  "def f(x): return x or 5" Examples.late_signature_script)
           1%nat _ _ _ _ _ _ _); vm_compute; reflexivity.
Defined.

Lemma analysis_sees_earlier_rounds_witness :
  exists given history out,
    nth_error (Examples.system_events 2 "def f(x): return x or 5"
                 Examples.late_signature_script) 2
    = Some (Observed.Analyzed given history out)
    /\ exists k,
         2%nat = (2 * k)%nat
         /\ (Z.of_nat k < 2)%Z
         /\ map Round.iteration history = Orchestrator.iterations (Z.of_nat k).
Proof.
  do 3 eexists. split; [vm_compute; reflexivity|].
  eapply (analysis_sees_earlier_rounds Examples.canned
           Scripted.analyzer Scripted.corrector Scripted.writer 2%Z
           "def f(x): return x or 5" Examples.late_signature_script
           2%nat _ _ _).
  vm_compute. reflexivity.
Defined.

Lemma agent_exception_ends_run_witness :
  fst (Examples.system_run 2 "def f(x): return x or 5"
         Scripted.cut_short_script)
  = Raise (BackendError "script exhausted")
  /\ length (Examples.system_events 2 "def f(x): return x or 5"
               Scripted.cut_short_script) = 2%nat.
Proof.
  apply (agent_exception_ends_run Examples.canned
           Scripted.analyzer Scripted.corrector Scripted.writer 2%Z
           "def f(x): return x or 5" Scripted.cut_short_script 1%nat
           (nth 1 (Examples.system_events 2 "def f(x): return x or 5"
                     Scripted.cut_short_script) Examples.no_event)).
  - vm_compute. reflexivity.
  - vm_compute. reflexivity.
Defined.

Lemma run_trace_ending_witness :
  exists out,
    Examples.system_run 2 "def f(x): return x or 5"
      Examples.late_signature_script = (Ok out, [])
    /\ exists earlier final,
         CodeGenerationOutput.trace out = (earlier ++ [final])%list
         /\ Forall (fun r => Terms.has_correction r = true) earlier
         /\ ((Round.issues final = [] /\ Round.correction final = None)
             \/ (Round.correction final <> None
                 /\ Z.of_nat (length (CodeGenerationOutput.trace out))
                    = 2%Z)).
Proof.
  eexists. split; [vm_compute; reflexivity|].
  eapply (run_trace_ending Examples.canned Scripted.analyzer
           Scripted.corrector Scripted.writer 2%Z
           "def f(x): return x or 5" Examples.late_signature_script _ []).
  vm_compute. reflexivity.
Defined.

Lemma retry_returns_valid_or_empty_witness :
  fst (CodeGeneration.generate_code_with_codegen (nat * nat)
         (CodeGeneration.counted Scripted.no_code) 3 (0%nat, 0%nat))
  = ("", 0%Z)
  /\ Z.of_nat
       (snd (snd (CodeGeneration.generate_code_with_codegen (nat * nat)
                    (CodeGeneration.counted Scripted.no_code) 3
                    (0%nat, 0%nat))))
     = Z.max 0 3.
Proof.
  apply (proj2 (proj2 (retry_returns_valid_or_empty nat Scripted.no_code
                         3%Z 0%nat))).
  intros b0 result b' E. injection E as <- _. reflexivity.
Defined.

Lemma extraction_method_guards_witness :
  contains "def "
    (fst (Writer._extract_code_multilayer Examples.system_loads
            Scripted.bare_response)) = true.
Proof.
  apply (proj2 (proj2 (extraction_method_guards Examples.system_loads
                         Scripted.bare_response))).
  left. vm_compute. reflexivity.
Defined.

Lemma writer_result_shape_witness :
  exists out,
    Writer._parse_response Examples.system_loads Examples.literal_template
      Examples.code_response "def f(x): return x or 5" = Ok out
    /\ CodeGenerationOutput.finalized_requirement out
       = "def f(x): return x or 5"
    /\ (CodeGenerationOutput.code out = ""
        <-> fst (Writer._extract_code_multilayer Examples.system_loads
                   Examples.code_response) = "")
    /\ CodeGenerationOutput.assumptions out
       = (if nonempty (CodeGenerationOutput.code out) then []
          else ["Failed to extract code from response"])
    /\ CodeGenerationOutput.tests out = ""
    /\ CodeGenerationOutput.trace out = [].
Proof.
  eexists. split; [vm_compute; reflexivity|].
  eapply (writer_result_shape Examples.system_loads Examples.literal_template
           Examples.code_response "def f(x): return x or 5").
  vm_compute. reflexivity.
Defined.

Lemma writer_keeps_code_on_count_mismatch_witness :
  Writer._validate_signature_preserved "def f(x): return x or 5"
    ("def f(x, y):" ++ nl ++ "    return x or y")
  = (false, "Parameter count mismatch: requirement has 1, code has 2")
  /\ Writer._parse_response Examples.system_loads Examples.literal_template
       Scripted.wider_response "def f(x): return x or 5"
     = Ok (CodeGenerationOutput.mk "def f(x): return x or 5"
             ("def f(x, y):" ++ nl ++ "    return x or y") "" [] [] 0).
Proof.
  apply (writer_keeps_code_on_count_mismatch Examples.system_loads
           Examples.literal_template Scripted.wider_response
           "def f(x): return x or 5"
           ("def f(x, y):" ++ nl ++ "    return x or y") "markdown_python"
           "f" [("x", None)] "f" [("x", None); ("y", None)]).
  - vm_compute. reflexivity.
  - discriminate.
  - vm_compute. reflexivity.
  - vm_compute. reflexivity.
  - simpl. lia.
Defined.

Lemma python_fence_recovered_witness :
  Writer._try_extract_markdown_python
    ("Here is the code:" ++ nl ++ "```" ++ "Python" ++ nl
     ++ ("def f(x):" ++ nl ++ "    return x or 5" ++ nl)
     ++ "```" ++ (nl ++ "It returns 5 for a falsy x."))
  = "def f(x):" ++ nl ++ "    return x or 5"
  /\ Writer._extract_code_multilayer Examples.system_loads
       ("Here is the code:" ++ nl ++ "```" ++ "Python" ++ nl
        ++ ("def f(x):" ++ nl ++ "    return x or 5" ++ nl)
        ++ "```" ++ (nl ++ "It returns 5 for a falsy x."))
     = ("def f(x):" ++ nl ++ "    return x or 5", "markdown_python").
Proof.
  destruct (python_fence_recovered Examples.system_loads
              ("Here is the code:" ++ nl) "Python"
              ("def f(x):" ++ nl ++ "    return x or 5" ++ nl)
              (nl ++ "It returns 5 for a falsy x."))
    as [H1 H2].
  - right. reflexivity.
  - vm_compute. reflexivity.
  - vm_compute. reflexivity.
  - split; [exact H1|]. apply H2. vm_compute. discriminate.
Defined.

Lemma split_params_of_join_witness :
  _split_params (join ", " ["a: int"; "b=(0, 0)"; "c: Dict[str, int] = {}"])
  = ["a: int"; "b=(0, 0)"; "c: Dict[str, int] = {}"].
Proof.
  apply (split_params_of_join
           ["a: int"; "b=(0, 0)"; "c: Dict[str, int] = {}"]).
  repeat constructor; try (vm_compute; reflexivity); discriminate.
Defined.

Lemma signature_parts_clean_witness :
  "f" <> "" /\ Terms.all_chars is_word "f" = true
  /\ Forall Terms.clean_param [("a", Some "int"); ("b", None)].
Proof.
  apply (signature_parts_clean "def f(a: int, b=(0, 0)):" "f"
           [("a", Some "int"); ("b", None)]).
  vm_compute. reflexivity.
Defined.

Lemma headerless_text_passes_witness :
  Corrector._validate_signature_preserved
    "Return the larger of two numbers." "def larger(a, b): the larger one"
  = (true, "")
  /\ Writer._validate_signature_preserved
       "Return the larger of two numbers." "def larger(a, b): the larger one"
     = (true, "").
Proof.
  apply (headerless_text_passes "Return the larger of two numbers."
           "def larger(a, b): the larger one").
  left. vm_compute. reflexivity.
Defined.

Lemma tagged_block_recovered_witness :
  Analyzer._extract_json_block
    ("Here is my analysis." ++ "<Analysis>" ++ (nl ++ "{}" ++ nl)
     ++ "</ANALYSIS>" ++ " Done <end>")
  = "{}"
  /\ Corrector._extract_json_block
       ("Here is my analysis." ++ "<CORRECTION>" ++ (nl ++ "{}" ++ nl)
        ++ "</correction>" ++ " Done <end>")
     = "{}".
Proof.
  apply (tagged_block_recovered "Here is my analysis." (nl ++ "{}" ++ nl)
           " Done <end>" "<Analysis>" "</ANALYSIS>" "<CORRECTION>"
           "</correction>");
    vm_compute; reflexivity.
Defined.
